(** * n2s query builder: filter evaluation, sorting, presets and bulk actions

    A shallow embedding of [QueryBuilderView] (internal/ui, the bulk
    operations view) and of the pieces of the Go runtime it leans on, with the
    properties of the bulk-operations workflow stated over it. *)

From Stdlib Require Import ZArith List Bool Lia Ascii String Permutation Sorted.
Import ListNotations.

Local Open Scope string_scope.
Local Open Scope list_scope.
Local Open Scope Z_scope.

(** ** The Go runtime and standard packages *)

Module Go.

Definition minInt64 : Z := - 2 ^ 63.
Definition maxInt64 : Z := 2 ^ 63 - 1.

(** Two's-complement wrap-around of an [int64] result. *)
Definition wrap64 (z : Z) : Z := (z + 2 ^ 63) mod 2 ^ 64 - 2 ^ 63.

(** The conversion [int64(x)] of a [uint64]. *)
Definition int64_of_uint64 (z : Z) : Z := wrap64 z.

Definition mul64 (a b : Z) : Z := wrap64 (a * b).

(** Integer division truncates toward zero. *)
Definition div64 (a b : Z) : Z := wrap64 (Z.quot a b).

(** *** package time *)

(** An instant is a count of nanoseconds; a [Duration] is an [int64] count
    of nanoseconds. *)
Definition Time := Z.
Definition Duration := Z.

Definition Minute : Duration := 60 * 1000000000.
Definition Hour : Duration := 60 * Minute.

(** [t.Sub(u)]: the difference, saturated to the range of [Duration]. *)
Definition Sub (t u : Time) : Duration :=
  Z.max minInt64 (Z.min maxInt64 (t - u)).

(** [time.Since(t)] when the clock reads [now]. *)
Definition Since (now t : Time) : Duration := Sub now t.

Definition Before (t u : Time) : bool := t <? u.

(** *** package strings *)

(** [strings.ReplaceAll(s, "*", ".*")]. *)
Fixpoint ReplaceAll_star (s : string) : string :=
  match s with
  | EmptyString => EmptyString
  | String c r =>
      if Ascii.eqb c "*" then String "." (String "*" (ReplaceAll_star r))
      else String c (ReplaceAll_star r)
  end.

(** *** package fmt: [Sscanf(s, "%d", &x)] *)

Definition code (c : ascii) : Z := Z.of_N (N_of_ascii c).

Definition isSpaceByte (c : ascii) : bool :=
  let n := code c in ((9 <=? n) && (n <=? 13)) || (n =? 32).

(** [ss.SkipSpace] with [nlIsSpace = false]: white space is consumed, a
    newline aborts the scan ([None]).  The spaces outside ASCII are
    recognised in their UTF-8 encoding. *)
Fixpoint SkipSpace (s : string) : option string :=
  match s with
  | EmptyString => Some s
  | String c r =>
      if code c =? 10 then None
      else if isSpaceByte c then SkipSpace r
      else if code c =? 194 then
        match r with
        | String d r2 =>
            if (code d =? 133) || (code d =? 160) then SkipSpace r2 else Some s
        | _ => Some s
        end
      else if (code c =? 225) || (code c =? 226) || (code c =? 227) then
        match r with
        | String d (String e r3) =>
            let c' := code c in let d' := code d in let e' := code e in
            if ((c' =? 225) && (d' =? 154) && (e' =? 128))
               || ((c' =? 226) && (d' =? 128)
                   && (((128 <=? e') && (e' <=? 138))
                       || (e' =? 168) || (e' =? 169) || (e' =? 175)))
               || ((c' =? 226) && (d' =? 129) && (e' =? 159))
               || ((c' =? 227) && (d' =? 128) && (e' =? 128))
            then SkipSpace r3 else Some s
        | _ => Some s
        end
      else Some s
  end.

Definition isSign (c : ascii) : bool := Ascii.eqb c "+" || Ascii.eqb c "-".

Definition isDigit (c : ascii) : bool := (48 <=? code c) && (code c <=? 57).

(** [ss.scanNumber] with the digit set of verb [%d], ["0123456789"]: the
    longest prefix made of digits. *)
Fixpoint scanNumber (s : string) : string :=
  match s with
  | String c r =>
      if isDigit c then String c (scanNumber r) else EmptyString
  | EmptyString => EmptyString
  end.

(** The magnitude of a decimal token; any other character is a syntax
    error. *)
Fixpoint parseDigits (acc : Z) (s : string) : option Z :=
  match s with
  | EmptyString => Some acc
  | String c r =>
      if isDigit c then parseDigits (10 * acc + (code c - 48)) r else None
  end.

(** [strconv.ParseInt(sign ++ tok, 10, 64)]. *)
Definition ParseInt (neg : bool) (tok : string) : option Z :=
  match parseDigits 0 tok with
  | None => None
  | Some m =>
      if neg then if m <=? 2 ^ 63 then Some (- m) else None
      else if m <=? maxInt64 then Some m else None
  end.

(** [fmt.Sscanf(s, "%d", &x)] for a 64-bit [x]: [Some x] when one item was
    scanned ([n = 1]), [None] when none was ([n = 0]; [x] is left alone).
    Input after the number is not looked at. *)
Definition Sscanf_d (s : string) : option Z :=
  match SkipSpace s with
  | None => None
  | Some s1 =>
      let '(neg, s2) :=
        match s1 with
        | String c r => if isSign c then (Ascii.eqb c "-", r) else (false, s1)
        | EmptyString => (false, s1)
        end in
      match scanNumber s2 with
      | EmptyString => None
      | tok => ParseInt neg tok
      end
  end.

(** *** package regexp, on a fragment of its syntax

    Only the patterns [^ item ... item $] are described, an item being a
    literal ASCII character that is not a metacharacter, or [.], each
    optionally followed by one [*].  Nothing is said about any other
    pattern. *)

Inductive atom := Lit (c : ascii) | Dot.
Inductive item := One (a : atom) | Star (a : atom).

Definition isMeta (c : ascii) : bool :=
  existsb (Ascii.eqb c)
    ["\"; "."; "+"; "*"; "?"; "("; ")"; "|"; "["; "]"; "{"; "}"; "^"; "$"]%char.

Definition isASCII (s : string) : bool :=
  forallb (fun c => code c <? 128) (list_ascii_of_string s).

Fixpoint parseItems (s : string) : option (list item) :=
  match s with
  | EmptyString => None
  | String c r =>
      if Ascii.eqb c "$" then
        match r with EmptyString => Some [] | _ => None end
      else if (isMeta c && negb (Ascii.eqb c ".")) || (128 <=? code c) then None
      else
        let a := if Ascii.eqb c "." then Dot else Lit c in
        match r with
        | String d r' =>
            if Ascii.eqb d "*" then option_map (cons (Star a)) (parseItems r')
            else option_map (cons (One a)) (parseItems r)
        | EmptyString => option_map (cons (One a)) (parseItems r)
        end
  end.

Definition parseFragment (pattern : string) : option (list item) :=
  match pattern with
  | String c body => if Ascii.eqb c "^" then parseItems body else None
  | EmptyString => None
  end.

(** [.] matches any character but a newline. *)
Definition atomMatches (a : atom) (c : ascii) : bool :=
  match a with
  | Lit l => Ascii.eqb l c
  | Dot => negb (code c =? 10)
  end.

Fixpoint matchItems (items : list item) : string -> bool :=
  match items with
  | [] => fun s => String.eqb s ""
  | One a :: rest =>
      fun s =>
        match s with
        | String c s' => atomMatches a c && matchItems rest s'
        | EmptyString => false
        end
  | Star a :: rest =>
      fix star (s : string) : bool :=
        matchItems rest s
        || match s with
           | String c s' => atomMatches a c && star s'
           | EmptyString => false
           end
  end.

(** What is assumed of an implementation of [regexp.MatchString]
    ([None]: a non-nil error): on the fragment, over ASCII subjects, it
    decides the anchored match. *)
Definition MatchString_on_fragment (MatchString : string -> string -> option bool) : Prop :=
  forall pattern s items,
    parseFragment pattern = Some items ->
    isASCII s = true ->
    MatchString pattern s = Some (matchItems items s).

(** An implementation that knows the fragment only. *)
Definition fragmentMatchString (pattern s : string) : option bool :=
  match parseFragment pattern with
  | Some items => if isASCII s then Some (matchItems items s) else None
  | None => None
  end.

(** *** package sort *)

Section Sort.
Context {A : Type}.
Variable less : A -> A -> bool.

(** The inner loop of [insertionSort_func]: the element [x] sits at
    index [j] and is swapped leftwards while [less(j, j-1)].  [before]
    holds the elements at indices [j-1], [j-2], ... (nearest first); the
    result is in the same reversed order. *)
Fixpoint sinkLeft (x : A) (before : list A) : list A :=
  match before with
  | [] => [x]
  | y :: r => if less x y then y :: sinkLeft x r else x :: y :: r
  end.

(** [insertionSort_func(data, 0, len)]. *)
Definition insertionSort_func (data : list A) : list A :=
  rev (fold_left (fun sorted x => sinkLeft x sorted) data []).

(** [pdqsort_func] beyond 12 elements (pivot selection, partitioning,
    heap sort fallback) is not described: it is a parameter. *)
Variable pdqsort_large : (A -> A -> bool) -> list A -> list A.

Definition maxInsertion : nat := 12.

(** [sort.Slice(data, less)]. *)
Definition Slice (data : list A) : list A :=
  if (List.length data <=? maxInsertion)%nat then insertionSort_func data
  else pdqsort_large less data.
End Sort.

End Go.

(** ** internal/models *)

Record StreamState := {
  State_Messages : Z;          (* uint64 *)
  State_Bytes : Z;             (* uint64 *)
  State_FirstTime : Go.Time;
  State_Consumers : Z
}.

Record Stream := {
  Name : string;
  Messages : Z;                (* uint64 *)
  Bytes : Z;                   (* uint64 *)
  Consumers : Z;               (* int *)
  State : StreamState
}.

Record SavedFilter := {
  sf_Name : string;
  sf_NamePattern : string;
  sf_AgeOp : string;
  sf_AgeValue : Z;
  sf_AgeUnit : string;
  sf_ConsumerOp : string;
  sf_ConsumerValue : Z;
  sf_MessagesOp : string;
  sf_MessagesValue : Z
}.

(** ** internal/ui: the query builder *)

Inductive Status :=
| StatusPrompt                 (* "Press 'Preview Matches' to see results" *)
| StatusCount (count : nat).   (* "<count> streams match criteria" *)

Record QueryBuilderView := {
  (* Filter criteria *)
  namePattern : string;
  ageOp : string;
  ageValue : string;
  ageUnit : string;
  consumerOp : string;
  consumerValue : string;
  messagesOp : string;
  messagesValue : string;
  (* Preview data *)
  matchedStreams : list Stream;
  sortColumn : Z;
  sortAscending : bool;
  (* Widgets: the streams shown in the preview table, the status line *)
  previewTable : list Stream;
  statusText : Status
}.

(** Field updates of the view ([v.field = x]). *)
Definition set_namePattern (x : string) (v : QueryBuilderView) :=
  Build_QueryBuilderView x (ageOp v) (ageValue v) (ageUnit v) (consumerOp v)
    (consumerValue v) (messagesOp v) (messagesValue v) (matchedStreams v)
    (sortColumn v) (sortAscending v) (previewTable v) (statusText v).
Definition set_ageOp (x : string) (v : QueryBuilderView) :=
  Build_QueryBuilderView (namePattern v) x (ageValue v) (ageUnit v) (consumerOp v)
    (consumerValue v) (messagesOp v) (messagesValue v) (matchedStreams v)
    (sortColumn v) (sortAscending v) (previewTable v) (statusText v).
Definition set_ageValue (x : string) (v : QueryBuilderView) :=
  Build_QueryBuilderView (namePattern v) (ageOp v) x (ageUnit v) (consumerOp v)
    (consumerValue v) (messagesOp v) (messagesValue v) (matchedStreams v)
    (sortColumn v) (sortAscending v) (previewTable v) (statusText v).
Definition set_ageUnit (x : string) (v : QueryBuilderView) :=
  Build_QueryBuilderView (namePattern v) (ageOp v) (ageValue v) x (consumerOp v)
    (consumerValue v) (messagesOp v) (messagesValue v) (matchedStreams v)
    (sortColumn v) (sortAscending v) (previewTable v) (statusText v).
Definition set_consumerOp (x : string) (v : QueryBuilderView) :=
  Build_QueryBuilderView (namePattern v) (ageOp v) (ageValue v) (ageUnit v) x
    (consumerValue v) (messagesOp v) (messagesValue v) (matchedStreams v)
    (sortColumn v) (sortAscending v) (previewTable v) (statusText v).
Definition set_consumerValue (x : string) (v : QueryBuilderView) :=
  Build_QueryBuilderView (namePattern v) (ageOp v) (ageValue v) (ageUnit v)
    (consumerOp v) x (messagesOp v) (messagesValue v) (matchedStreams v)
    (sortColumn v) (sortAscending v) (previewTable v) (statusText v).
Definition set_messagesOp (x : string) (v : QueryBuilderView) :=
  Build_QueryBuilderView (namePattern v) (ageOp v) (ageValue v) (ageUnit v)
    (consumerOp v) (consumerValue v) x (messagesValue v) (matchedStreams v)
    (sortColumn v) (sortAscending v) (previewTable v) (statusText v).
Definition set_messagesValue (x : string) (v : QueryBuilderView) :=
  Build_QueryBuilderView (namePattern v) (ageOp v) (ageValue v) (ageUnit v)
    (consumerOp v) (consumerValue v) (messagesOp v) x (matchedStreams v)
    (sortColumn v) (sortAscending v) (previewTable v) (statusText v).
Definition set_matchedStreams (x : list Stream) (v : QueryBuilderView) :=
  Build_QueryBuilderView (namePattern v) (ageOp v) (ageValue v) (ageUnit v)
    (consumerOp v) (consumerValue v) (messagesOp v) (messagesValue v) x
    (sortColumn v) (sortAscending v) (previewTable v) (statusText v).
Definition set_sortColumn (x : Z) (v : QueryBuilderView) :=
  Build_QueryBuilderView (namePattern v) (ageOp v) (ageValue v) (ageUnit v)
    (consumerOp v) (consumerValue v) (messagesOp v) (messagesValue v)
    (matchedStreams v) x (sortAscending v) (previewTable v) (statusText v).
Definition set_sortAscending (x : bool) (v : QueryBuilderView) :=
  Build_QueryBuilderView (namePattern v) (ageOp v) (ageValue v) (ageUnit v)
    (consumerOp v) (consumerValue v) (messagesOp v) (messagesValue v)
    (matchedStreams v) (sortColumn v) x (previewTable v) (statusText v).
Definition set_previewTable (x : list Stream) (v : QueryBuilderView) :=
  Build_QueryBuilderView (namePattern v) (ageOp v) (ageValue v) (ageUnit v)
    (consumerOp v) (consumerValue v) (messagesOp v) (messagesValue v)
    (matchedStreams v) (sortColumn v) (sortAscending v) x (statusText v).
Definition set_statusText (x : Status) (v : QueryBuilderView) :=
  Build_QueryBuilderView (namePattern v) (ageOp v) (ageValue v) (ageUnit v)
    (consumerOp v) (consumerValue v) (messagesOp v) (messagesValue v)
    (matchedStreams v) (sortColumn v) (sortAscending v) (previewTable v) x.

(** [NewQueryBuilderView]: the initial field values. *)
Definition NewQueryBuilderView : QueryBuilderView :=
  {| namePattern := "*"; ageOp := "any"; ageValue := ""; ageUnit := "h";
     consumerOp := "any"; consumerValue := ""; messagesOp := "any";
     messagesValue := ""; matchedStreams := []; sortColumn := 0;
     sortAscending := true; previewTable := []; statusText := StatusPrompt |}.

(** The change callbacks of the form fields ([buildUI], [buildFormFields]). *)
Inductive FormEdit :=
| NamePatternChanged (text : string)
| AgeOperatorSelected (option : string)
| AgeValueChanged (text : string)
| AgeUnitSelected (option : string)
| ConsumerOpSelected (option : string)
| ConsumerValueChanged (text : string)
| MessagesOpSelected (option : string)
| MessagesValueChanged (text : string).

Definition formChanged (e : FormEdit) (v : QueryBuilderView) : QueryBuilderView :=
  match e with
  | NamePatternChanged text => set_namePattern text v
  | AgeOperatorSelected option => set_ageOp option v
  | AgeValueChanged text => set_ageValue text v
  | AgeUnitSelected option => set_ageUnit option v
  | ConsumerOpSelected option => set_consumerOp option v
  | ConsumerValueChanged text => set_consumerValue text v
  | MessagesOpSelected option => set_messagesOp option v
  | MessagesValueChanged text => set_messagesValue text v
  end.

Definition updateStatus (count : nat) (v : QueryBuilderView) : QueryBuilderView :=
  if Nat.eqb count 0 then set_statusText StatusPrompt v
  else set_statusText (StatusCount count) v.

(** [updatePreviewTable]: the rows are cleared and one row per matched
    stream is written. *)
Definition updatePreviewTable (v : QueryBuilderView) : QueryBuilderView :=
  set_previewTable (matchedStreams v) v.

Definition compareAge (actual : Go.Duration) (op : string) (target : Go.Duration) : bool :=
  if String.eqb op ">" then target <? actual
  else if String.eqb op "<" then actual <? target
  else if String.eqb op "=" then
    (* Within 10% tolerance *)
    (Go.div64 (Go.mul64 target 9) 10 <=? actual)
    && (actual <=? Go.div64 (Go.mul64 target 11) 10)
  else true.

Definition compareInt (actual : Z) (op : string) (target : Z) : bool :=
  if String.eqb op "=" then actual =? target
  else if String.eqb op ">" then target <? actual
  else if String.eqb op "<" then actual <? target
  else true.

Definition compareInt64 (actual : Z) (op : string) (target : Z) : bool :=
  if String.eqb op "=" then actual =? target
  else if String.eqb op ">" then target <? actual
  else if String.eqb op "<" then actual <? target
  else true.

(** The comparison closure handed to [sort.Slice] by [sortPreview]. *)
Definition sortLess (column : Z) (ascending : bool) (a b : Stream) : bool :=
  let less :=
    if column =? 0 then String.ltb (Name a) (Name b)
    else if column =? 1 then
      Go.Before (State_FirstTime (State a)) (State_FirstTime (State b))
    else if column =? 2 then State_Messages (State a) <? State_Messages (State b)
    else if column =? 3 then Consumers a <? Consumers b
    else false in
  if negb ascending then negb less else less.

(** A clause of [matchesFilter] either returns from the function or falls
    through to the next clause. *)
Inductive Flow := Return (b : bool) | Next.

Definition andThen (f k : Flow) : Flow :=
  match f with Return b => Return b | Next => k end.

Notation "f ;; k" := (andThen f k) (at level 61, right associativity).

(** Modal dialogs (internal/ui/components). *)
Inductive BulkAction := Delete | Purge.

Inductive NameLine :=
| Bullet (name : string)       (* "  - <name>" *)
| AndMore (n : nat).           (* "  ... and <n> more" *)

Inductive Modal :=
| ErrorModal (message : string)
| ConfirmModal (onConfirm : BulkAction) (count : nat) (streamNames : list NameLine)
| InfoModal (title : string) (successCount failCount : nat).

(** The first five names and a count of the rest, as listed by the
    confirmation dialogs. *)
Definition confirmLines (matched : list Stream) : list NameLine :=
  map (fun s => Bullet (Name s)) (firstn 5 matched)
  ++ (if (5 <? List.length matched)%nat
      then [AndMore (List.length matched - 5)] else []).

(** Requests sent through the RPC client, with the error that came back. *)
Inductive Request :=
| ReqListStreams
| ReqDeleteStream (name : string)
| ReqPurgeStream (name : string).

Inductive Call := Called (request : Request) (err : option string).

(** ** The preset file ~/.config/n2s/filters.yaml *)

(** What [os.ReadFile] followed by [yaml.Unmarshal] finds. *)
Inductive FiltersFile :=
| NoFile                                   (* the file does not exist *)
| Unreadable (err : string)                (* any other read error *)
| Document (filters : list SavedFilter)    (* a YAML document of presets *)
| Garbled (decoded : list SavedFilter) (err : string).
                                           (* Unmarshal fails after [decoded] *)

Record FileSystem := {
  UserHomeDir : string + string;           (* the directory, or the error *)
  MkdirAll : option string;                (* the error of creating the directory *)
  filtersFile : FiltersFile;
  (* the error of [os.WriteFile] and what it leaves on disk, if it fails *)
  WriteFile : option (string * FiltersFile)
}.

Definition set_filtersFile (f : FiltersFile) (fs : FileSystem) : FileSystem :=
  {| UserHomeDir := UserHomeDir fs; MkdirAll := MkdirAll fs;
     filtersFile := f; WriteFile := WriteFile fs |}.

(** [saveFilterToFile]: the returned error ([None] for nil) and the file
    system afterwards.  [yaml.Marshal] of a list of presets does not fail. *)
Definition saveFilterToFile (filter : SavedFilter) (fs : FileSystem)
  : option string * FileSystem :=
  match UserHomeDir fs with
  | inr err => (Some ("failed to get home directory: " ++ err)%string, fs)
  | inl homeDir =>
      match MkdirAll fs with
      | Some err => (Some ("failed to create config directory: " ++ err)%string, fs)
      | None =>
          (* Load existing filters; errors of reading and decoding are dropped *)
          let config :=
            match filtersFile fs with
            | Document filters => filters
            | Garbled decoded _ => decoded
            | NoFile | Unreadable _ => []
            end in
          (* Check for duplicate filter name *)
          if existsb (fun f => String.eqb (sf_Name f) (sf_Name filter)) config
          then (Some ("filter '" ++ sf_Name filter ++ "' already exists")%string, fs)
          else
            (* Add new filter *)
            let config := config ++ [filter] in
            match WriteFile fs with
            | Some (err, remains) =>
                (Some ("failed to write filters file: " ++ err)%string,
                 set_filtersFile remains fs)
            | None => (None, set_filtersFile (Document config) fs)
            end
      end
  end.

(** [loadSavedFilters]: the stored presets, or an error. *)
Definition loadSavedFilters (fs : FileSystem) : list SavedFilter + string :=
  match UserHomeDir fs with
  | inr err => inr err
  | inl homeDir =>
      match filtersFile fs with
      | NoFile => inl []
      | Unreadable err => inr err
      | Document filters => inl filters
      | Garbled _ err => inr err
      end
  end.

(** [UIManager], as far as the query builder uses it, over the type of the
    server behind the RPC client. *)
Record UIManager (World : Type) := {
  client : World;
  readOnly : bool;
  currentPage : string;
  modal : option Modal;                    (* the page "modal", if shown *)
  queryBuilderView : QueryBuilderView;
  calls : list Call                        (* the requests made so far *)
}.

Arguments client {World}.
Arguments readOnly {World}.
Arguments currentPage {World}.
Arguments modal {World}.
Arguments queryBuilderView {World}.
Arguments calls {World}.

(** ** A simulated server and sample data

    A small streaming server to run the controller against: deleting removes
    the stream, purging empties it, and the streams listed in [locked] refuse
    both. *)

Module Sim.

Record Server := {
  streams : list Stream;
  locked : list string
}.

Definition mkStream (name : string) (firstTime : Go.Time) (messages consumers : Z)
  : Stream :=
  {| Name := name; Messages := messages; Bytes := 0; Consumers := consumers;
     State := {| State_Messages := messages; State_Bytes := 0;
                 State_FirstTime := firstTime; State_Consumers := consumers |} |}.

Definition purged (s : Stream) : Stream :=
  mkStream (Name s) (State_FirstTime (State s)) 0 (Consumers s).

Definition isLocked (name : string) (w : Server) : bool :=
  existsb (String.eqb name) (locked w).

Definition hasStream (name : string) (w : Server) : bool :=
  existsb (fun s => String.eqb (Name s) name) (streams w).

Definition ListStreams (w : Server) : (list Stream + string) * Server :=
  (inl (streams w), w).

Definition DeleteStream (name : string) (w : Server) : option string * Server :=
  if isLocked name w then (Some "failed to delete stream: locked", w)
  else if hasStream name w then
    (None,
     {| streams := filter (fun s => negb (String.eqb (Name s) name)) (streams w);
        locked := locked w |})
  else (Some "failed to delete stream: stream not found", w).

Definition PurgeStream (name : string) (w : Server) : option string * Server :=
  if isLocked name w then (Some "failed to purge stream: locked", w)
  else if hasStream name w then
    (None,
     {| streams :=
          map (fun s => if String.eqb (Name s) name then purged s else s) (streams w);
        locked := locked w |})
  else (Some "failed to purge stream: stream not found", w).

(** A clock that stands still at [now]. *)
Definition clockAt (now : Go.Time) : nat -> Go.Time := fun _ => now.

(** Stands in for the large-slice sorting routine where no slice has more
    than [Go.maxInsertion] elements. *)
Definition noLargeSlices (less : Stream -> Stream -> bool) (data : list Stream)
  : list Stream := data.


(** Sample data. *)
Definition orders : Stream := mkStream "orders" 0 150 2.
Definition audit : Stream := mkStream "audit" 0 50 2.
Definition events : Stream := mkStream "events" 0 300 0.

(** Three streams, of which [audit] refuses deletion and purge. *)
Definition server : Server :=
  {| streams := [orders; audit; events]; locked := ["audit"] |}.

Definition start (w : Server) (ro : bool) (v : QueryBuilderView) : UIManager Server :=
  {| client := w; readOnly := ro; currentPage := "query-builder";
     modal := None; queryBuilderView := v; calls := [] |}.

(** The query builder as opened on [server]. *)
Definition ui0 : UIManager Server := start server false NewQueryBuilderView.

(** Age [> -] hours and consumers [= 5]: the age value does not scan. *)
Definition brokenAge : QueryBuilderView :=
  set_consumerValue "5" (set_consumerOp "="
    (set_ageValue "-" (set_ageOp ">" NewQueryBuilderView))).

(** Age [< 1] hour. *)
Definition youngerThanAnHour : QueryBuilderView :=
  set_ageValue "1" (set_ageOp "<" NewQueryBuilderView).

Definition halfAnHour : Go.Time := 30 * Go.Minute.
Definition twoHours : Go.Time := 2 * Go.Hour.

Definition preset (name pattern : string) : SavedFilter :=
  {| sf_Name := name; sf_NamePattern := pattern; sf_AgeOp := "any";
     sf_AgeValue := 0; sf_AgeUnit := "h"; sf_ConsumerOp := "any";
     sf_ConsumerValue := 0; sf_MessagesOp := "any"; sf_MessagesValue := 0 |}.

(** A home directory whose preset file holds the preset [big]. *)
Definition disk : FileSystem :=
  {| UserHomeDir := inl "/home/operator"; MkdirAll := None;
     filtersFile := Document [preset "big" "order-*"]; WriteFile := None |}.

End Sim.

(** ** The controller, over its collaborators *)

Section Controller.

(** [regexp.MatchString(pattern, s)]: [None] stands for a non-nil error. *)
Variable regexp_MatchString : string -> string -> option bool.

(** [sort.Slice] beyond [Go.maxInsertion] elements. *)
Variable pdqsort_large : (Stream -> Stream -> bool) -> list Stream -> list Stream.

(** The streaming server behind the RPC client: each call returns its
    result and the server afterwards. *)
Context {World : Type}.
Variable ListStreams : World -> (list Stream + string) * World.
Variable DeleteStream : string -> World -> option string * World.
Variable PurgeStream : string -> World -> option string * World.

Definition set_modal (m : option Modal) (ui : UIManager World) : UIManager World :=
  {| client := client ui; readOnly := readOnly ui; currentPage := currentPage ui;
     modal := m; queryBuilderView := queryBuilderView ui; calls := calls ui |}.

Definition set_view (v : QueryBuilderView) (ui : UIManager World) : UIManager World :=
  {| client := client ui; readOnly := readOnly ui; currentPage := currentPage ui;
     modal := modal ui; queryBuilderView := v; calls := calls ui |}.

Definition set_client (w : World) (log : list Call) (ui : UIManager World) : UIManager World :=
  {| client := w; readOnly := readOnly ui; currentPage := currentPage ui;
     modal := modal ui; queryBuilderView := queryBuilderView ui; calls := log |}.

Definition ShowModal (m : Modal) (ui : UIManager World) : UIManager World := set_modal (Some m) ui.
Definition CloseModal (ui : UIManager World) : UIManager World := set_modal None ui.
Definition ShowError (message : string) (ui : UIManager World) : UIManager World :=
  ShowModal (ErrorModal message) ui.

(** *** Filter evaluation *)

Definition nameClause (v : QueryBuilderView) (stream : Stream) : Flow :=
  if negb (String.eqb (namePattern v) "*") && negb (String.eqb (namePattern v) "") then
    (* Convert wildcard to regex *)
    let pattern := Go.ReplaceAll_star (namePattern v) in
    let pattern := ("^" ++ pattern ++ "$")%string in
    match regexp_MatchString pattern (Name stream) with
    | Some true => Next
    | _ => Return false
    end
  else Next.

Definition ageClause (now : Go.Time) (v : QueryBuilderView) (stream : Stream) : Flow :=
  if negb (String.eqb (ageOp v) "any") && negb (String.eqb (ageValue v) "") then
    let age := Go.Since now (State_FirstTime (State stream)) in
    match Go.Sscanf_d (ageValue v) with
    | None => Return true (* Skip if invalid value *)
    | Some ageVal =>
        let targetDuration :=
          if String.eqb (ageUnit v) "m" then Go.mul64 ageVal Go.Minute
          else Go.mul64 ageVal Go.Hour in
        if negb (compareAge age (ageOp v) targetDuration) then Return false
        else Next
    end
  else Next.

Definition consumerClause (v : QueryBuilderView) (stream : Stream) : Flow :=
  if negb (String.eqb (consumerOp v) "any") && negb (String.eqb (consumerValue v) "") then
    match Go.Sscanf_d (consumerValue v) with
    | None => Return true (* Skip if invalid value *)
    | Some consVal =>
        if negb (compareInt (Consumers stream) (consumerOp v) consVal)
        then Return false else Next
    end
  else Next.

Definition messagesClause (v : QueryBuilderView) (stream : Stream) : Flow :=
  if negb (String.eqb (messagesOp v) "any") && negb (String.eqb (messagesValue v) "") then
    match Go.Sscanf_d (messagesValue v) with
    | None => Return true (* Skip if invalid value *)
    | Some msgVal =>
        if negb (compareInt64 (Go.int64_of_uint64 (State_Messages (State stream)))
                   (messagesOp v) msgVal)
        then Return false else Next
    end
  else Next.

(** [matchesFilter], evaluated when the clock reads [now]. *)
Definition matchesFilter (now : Go.Time) (v : QueryBuilderView) (stream : Stream) : bool :=
  match nameClause v stream ;; ageClause now v stream ;;
        consumerClause v stream ;; messagesClause v stream ;; Return true
  with
  | Return b => b
  | Next => true
  end.

(** [filterStreams]: the stream at index [i] of the snapshot is tested
    when the clock reads [clock i]. *)
Fixpoint filterStreamsFrom (clock : nat -> Go.Time) (v : QueryBuilderView)
    (i : nat) (streams : list Stream) : list Stream :=
  match streams with
  | [] => []
  | stream :: rest =>
      if matchesFilter (clock i) v stream
      then stream :: filterStreamsFrom clock v (S i) rest
      else filterStreamsFrom clock v (S i) rest
  end.

Definition filterStreams (clock : nat -> Go.Time) (v : QueryBuilderView)
    (streams : list Stream) : list Stream :=
  filterStreamsFrom clock v 0 streams.

Definition previewMatches (clock : nat -> Go.Time) (ui : UIManager World) : UIManager World :=
  (* Get all streams *)
  let '(result, w) := ListStreams (client ui) in
  match result with
  | inr err =>
      ShowError ("Failed to list streams: " ++ err)%string
        (set_client w (calls ui ++ [Called ReqListStreams (Some err)]) ui)
  | inl streams =>
      let ui := set_client w (calls ui ++ [Called ReqListStreams None]) ui in
      let v := queryBuilderView ui in
      (* Filter streams *)
      let v := set_matchedStreams (filterStreams clock v streams) v in
      (* Update preview table *)
      let v := updatePreviewTable v in
      let v := updateStatus (List.length (matchedStreams v)) v in
      set_view v ui
  end.

(** *** Sorting *)

Definition sortPreview (v : QueryBuilderView) : QueryBuilderView :=
  match matchedStreams v with
  | [] => v
  | _ =>
      let sorted :=
        Go.Slice (sortLess (sortColumn v) (sortAscending v)) pdqsort_large
          (matchedStreams v) in
      updatePreviewTable (set_matchedStreams sorted v)
  end.

(** The selection callback of the preview table. *)
Definition previewSelected (row column : Z) (v : QueryBuilderView) : QueryBuilderView :=
  if row =? 0 then
    (* Header clicked - sort by this column *)
    let v :=
      if sortColumn v =? column then set_sortAscending (negb (sortAscending v)) v
      else set_sortAscending true (set_sortColumn column v) in
    sortPreview v
  else v.

(** *** Bulk actions *)

(** The loop of [performBulkDelete] and [performBulkPurge] over the
    matched streams, [op] being the client call. *)
Fixpoint bulkLoop (op : string -> World -> option string * World)
    (request : string -> Request) (streams : list Stream)
    (successCount failCount : nat) (w : World) (log : list Call)
    : nat * nat * World * list Call :=
  match streams with
  | [] => (successCount, failCount, w, log)
  | stream :: rest =>
      let '(err, w') := op (Name stream) w in
      let log' := log ++ [Called (request (Name stream)) err] in
      match err with
      | Some _ => bulkLoop op request rest successCount (S failCount) w' log'
      | None => bulkLoop op request rest (S successCount) failCount w' log'
      end
  end.

Definition performBulkDelete (ui : UIManager World) : UIManager World :=
  let '(successCount, failCount, w, log) :=
    bulkLoop DeleteStream ReqDeleteStream (matchedStreams (queryBuilderView ui))
      0%nat 0%nat (client ui) (calls ui) in
  (* Show success message (not error) *)
  ShowModal (InfoModal "Bulk Delete Result" successCount failCount)
    (set_client w log ui).

(** [performBulkPurge] up to the display of its result. *)
Definition performBulkPurge_result (ui : UIManager World) : UIManager World :=
  let '(successCount, failCount, w, log) :=
    bulkLoop PurgeStream ReqPurgeStream (matchedStreams (queryBuilderView ui))
      0%nat 0%nat (client ui) (calls ui) in
  (* Show result *)
  ShowModal (InfoModal "Bulk Purge Result" successCount failCount)
    (set_client w log ui).

Definition performBulkPurge (clock : nat -> Go.Time) (ui : UIManager World) : UIManager World :=
  (* Refresh preview to show updated message counts *)
  previewMatches clock (performBulkPurge_result ui).

Definition deleteMatched (ui : UIManager World) : UIManager World :=
  let v := queryBuilderView ui in
  match matchedStreams v with
  | [] => ShowError "No streams matched. Press 'Preview Matches' first." ui
  | _ =>
      if readOnly ui then ShowError "Cannot delete in read-only mode" ui
      else
        (* Create confirmation with stream names *)
        ShowModal (ConfirmModal Delete (List.length (matchedStreams v))
                     (confirmLines (matchedStreams v))) ui
  end.

Definition purgeMatched (ui : UIManager World) : UIManager World :=
  let v := queryBuilderView ui in
  match matchedStreams v with
  | [] => ShowError "No streams matched. Press 'Preview Matches' first." ui
  | _ =>
      if readOnly ui then ShowError "Cannot purge in read-only mode" ui
      else
        ShowModal (ConfirmModal Purge (List.length (matchedStreams v))
                     (confirmLines (matchedStreams v))) ui
  end.

(** The done callback of the confirmation dialog shown by [deleteMatched]
    and [purgeMatched]. *)
Definition confirmDone (clock : nat -> Go.Time) (buttonLabel : string)
    (ui : UIManager World) : UIManager World :=
  match modal ui with
  | Some (ConfirmModal onConfirm _ _) =>
      if String.eqb buttonLabel "[ Yes ]" then
        match onConfirm with
        | Delete => performBulkDelete (CloseModal ui)
        | Purge => performBulkPurge clock (CloseModal ui)
        end
      else if String.eqb buttonLabel "[ No ]" then CloseModal ui
      else ui
  | _ => ui
  end.

(** [clearFilter]. *)
Definition clearFilter (ui : UIManager World) : UIManager World :=
  let v := queryBuilderView ui in
  set_view
    {| namePattern := "*"; ageOp := "any"; ageValue := ""; ageUnit := "h";
       consumerOp := "any"; consumerValue := ""; messagesOp := "any";
       messagesValue := "";
       (* Clear matched streams *)
       matchedStreams := [];
       sortColumn := sortColumn v; sortAscending := sortAscending v;
       previewTable := []; statusText := StatusPrompt |} ui.

(** A requested delete or purge is rejected when it ends in an error
    dialog, and accepted when it ends in the confirmation dialog. *)
Definition rejected (ui : UIManager World) : bool :=
  match modal ui with Some (ErrorModal _) => true | _ => false end.

(** A run of client calls [op] over [names], in order: the error of each
    call and the server at the end. *)
Inductive Runs (op : string -> World -> option string * World)
  : World -> list string -> list (option string) -> World -> Prop :=
| Runs_nil : forall w, Runs op w [] [] w
| Runs_cons : forall w name err w' names errs w'',
    op name w = (err, w') ->
    Runs op w' names errs w'' ->
    Runs op w (name :: names) (err :: errs) w''.

Definition noError (err : option string) : bool :=
  match err with None => true | Some _ => false end.

(** The numeric clauses of the predicate. *)
Inductive Clause := AgeClause | ConsumerClause | MessagesClause.

Definition clauseOp (c : Clause) (v : QueryBuilderView) : string :=
  match c with
  | AgeClause => ageOp v
  | ConsumerClause => consumerOp v
  | MessagesClause => messagesOp v
  end.

Definition clauseValue (c : Clause) (v : QueryBuilderView) : string :=
  match c with
  | AgeClause => ageValue v
  | ConsumerClause => consumerValue v
  | MessagesClause => messagesValue v
  end.

Definition set_clauseOp (c : Clause) (op : string) (v : QueryBuilderView)
  : QueryBuilderView :=
  match c with
  | AgeClause => set_ageOp op v
  | ConsumerClause => set_consumerOp op v
  | MessagesClause => set_messagesOp op v
  end.

Definition clauseFlow (c : Clause) (now : Go.Time) (v : QueryBuilderView)
    (stream : Stream) : Flow :=
  match c with
  | AgeClause => ageClause now v stream
  | ConsumerClause => consumerClause v stream
  | MessagesClause => messagesClause v stream
  end.

(** Every clause before [c] falls through, so that [c] is evaluated. *)
Definition reached (c : Clause) (now : Go.Time) (v : QueryBuilderView)
    (stream : Stream) : Prop :=
  match c with
  | AgeClause => nameClause v stream = Next
  | ConsumerClause =>
      nameClause v stream = Next /\ ageClause now v stream = Next
  | MessagesClause =>
      nameClause v stream = Next /\ ageClause now v stream = Next /\
      consumerClause v stream = Next
  end.

(** [c] has a comparator and a value, and the value does not scan as an
    integer. *)
Definition invalidValue (c : Clause) (v : QueryBuilderView) : Prop :=
  clauseOp c v <> "any" /\ clauseValue c v <> "" /\
  Go.Sscanf_d (clauseValue c v) = None.

(** What a sequence of clauses decides: the value of the first one that
    returns, and [true] when all fall through. *)
Fixpoint decided (flows : list Flow) : bool :=
  match flows with
  | [] => true
  | Return b :: _ => b
  | Next :: rest => decided rest
  end.

(** The clauses other than the numeric clause [c], in the order of
    evaluation. *)
Definition otherClauses (c : Clause) (now : Go.Time) (v : QueryBuilderView)
    (stream : Stream) : list Flow :=
  match c with
  | AgeClause =>
      [nameClause v stream; consumerClause v stream; messagesClause v stream]
  | ConsumerClause =>
      [nameClause v stream; ageClause now v stream; messagesClause v stream]
  | MessagesClause =>
      [nameClause v stream; ageClause now v stream; consumerClause v stream]
  end.

(** [Subsequence l' l]: [l'] is [l] with some elements left out, the
    others in their order. *)
Inductive Subsequence {A : Type} : list A -> list A -> Prop :=
| Subsequence_nil : Subsequence [] []
| Subsequence_keep : forall x l' l, Subsequence l' l -> Subsequence (x :: l') (x :: l)
| Subsequence_drop : forall x l' l, Subsequence l' l -> Subsequence l' (x :: l).

(** The snapshot with the position of each stream. *)
Definition indexed (i : nat) (streams : list Stream) : list (Stream * nat) :=
  combine streams (seq i (List.length streams)).

(** A predicate with every clause set to "any". *)
Definition allAny (v : QueryBuilderView) : Prop :=
  namePattern v = "*" /\ ageOp v = "any" /\ consumerOp v = "any" /\
  messagesOp v = "any".

(** The age clause does not look at the clock. *)
Definition ageInactive (v : QueryBuilderView) : Prop :=
  ageOp v = "any" \/ ageValue v = "".

(** The fields of the predicate, and the field a change of the form is
    about with the text it carries. *)
Inductive Field :=
| NamePatternField | AgeOpField | AgeValueField | AgeUnitField
| ConsumerOpField | ConsumerValueField | MessagesOpField | MessagesValueField.

Definition fieldOf (f : Field) (v : QueryBuilderView) : string :=
  match f with
  | NamePatternField => namePattern v
  | AgeOpField => ageOp v
  | AgeValueField => ageValue v
  | AgeUnitField => ageUnit v
  | ConsumerOpField => consumerOp v
  | ConsumerValueField => consumerValue v
  | MessagesOpField => messagesOp v
  | MessagesValueField => messagesValue v
  end.

Definition editedField (e : FormEdit) : Field :=
  match e with
  | NamePatternChanged _ => NamePatternField
  | AgeOperatorSelected _ => AgeOpField
  | AgeValueChanged _ => AgeValueField
  | AgeUnitSelected _ => AgeUnitField
  | ConsumerOpSelected _ => ConsumerOpField
  | ConsumerValueChanged _ => ConsumerValueField
  | MessagesOpSelected _ => MessagesOpField
  | MessagesValueChanged _ => MessagesValueField
  end.

Definition editedText (e : FormEdit) : string :=
  match e with
  | NamePatternChanged text | AgeValueChanged text
  | ConsumerValueChanged text | MessagesValueChanged text => text
  | AgeOperatorSelected option | AgeUnitSelected option
  | ConsumerOpSelected option | MessagesOpSelected option => option
  end.

(** A change of a form field, on the whole UI. *)
Definition formEdited (e : FormEdit) (ui : UIManager World) : UIManager World :=
  set_view (formChanged e (queryBuilderView ui)) ui.

(** [ui'] is [ui] but for the dialog on display. *)
Definition sameButModal (ui ui' : UIManager World) : Prop :=
  client ui' = client ui /\ calls ui' = calls ui /\
  queryBuilderView ui' = queryBuilderView ui /\
  readOnly ui' = readOnly ui /\ currentPage ui' = currentPage ui.

(** The two bulk actions, side by side. *)
Definition requestBulk (action : BulkAction) : UIManager World -> UIManager World :=
  match action with Delete => deleteMatched | Purge => purgeMatched end.

Definition clientCall (action : BulkAction) : string -> World -> option string * World :=
  match action with Delete => DeleteStream | Purge => PurgeStream end.

Definition requestOf (action : BulkAction) : string -> Request :=
  match action with Delete => ReqDeleteStream | Purge => ReqPurgeStream end.

Definition resultTitle (action : BulkAction) : string :=
  match action with
  | Delete => "Bulk Delete Result"
  | Purge => "Bulk Purge Result"
  end.

(** The executor, up to the display of its result. *)
Definition executed (action : BulkAction) : UIManager World -> UIManager World :=
  match action with
  | Delete => performBulkDelete
  | Purge => performBulkPurge_result
  end.

Definition succeededIn (errs : list (option string)) : nat :=
  List.length (filter noError errs).

Definition failedIn (errs : list (option string)) : nat :=
  List.length (filter (fun err => negb (noError err)) errs).

(** The log entries of calls [request] on [names] that returned [errs]. *)
Definition logged (request : string -> Request) (names : list string)
    (errs : list (option string)) : list Call :=
  map (fun p => Called (request (fst p)) (snd p)) (combine names errs).

(** [sortPreview] under a given sort state. *)
Definition sortedBy (column : Z) (ascending : bool) (v : QueryBuilderView)
  : QueryBuilderView :=
  sortPreview (set_sortAscending ascending (set_sortColumn column v)).

(** Neither of [a] and [y] is less than the other. *)
Definition tie {A : Type} (lt : A -> A -> bool) (a y : A) : bool :=
  negb (lt a y) && negb (lt y a).

(** No element is less than an earlier one. *)
Definition NonDecreasing {A : Type} (lt : A -> A -> bool) (l : list A) : Prop :=
  StronglySorted (fun a b => lt b a = false) l.

(** No element is less than a later one. *)
Definition NonIncreasing {A : Type} (lt : A -> A -> bool) (l : list A) : Prop :=
  StronglySorted (fun a b => lt a b = false) l.

(** Neither stream sorts before the other in [column]. *)
Definition sameKey (column : Z) (a b : Stream) : bool :=
  tie (sortLess column true) a b.

(** No stream sorts before an earlier one in [column]. *)
Definition Ascending (column : Z) (l : list Stream) : Prop :=
  NonDecreasing (sortLess column true) l.

(** The natural ordering of a column as the specification words it: the
    name as a string, the age by the time of the first message, the counts of
    messages and of consumers as numbers. *)
Inductive Key := TextKey (text : string) | NumberKey (n : Z).

(** The columns of the preview table: name, age, messages, consumers. *)
Definition isColumn (column : Z) : Prop := 0 <= column <= 3.

Definition columnKey (column : Z) (s : Stream) : Key :=
  if column =? 0 then TextKey (Name s)
  else if column =? 1 then NumberKey (State_FirstTime (State s))
  else if column =? 2 then NumberKey (State_Messages (State s))
  else NumberKey (Consumers s).

(** String comparison between texts, numeric comparison between numbers. *)
Definition keyLeb (a b : Key) : bool :=
  match a, b with
  | TextKey x, TextKey y => String.leb x y
  | NumberKey x, NumberKey y => x <=? y
  | _, _ => false
  end.


(** [l] is in the order of the keys of [column]: no key is greater than a
    later one when [ascending], none is smaller than a later one otherwise. *)
Definition KeyOrdered (column : Z) (ascending : bool) (l : list Stream) : Prop :=
  StronglySorted
    (fun a b =>
       if ascending then keyLeb (columnKey column a) (columnKey column b) = true
       else keyLeb (columnKey column b) (columnKey column a) = true) l.




(** No element comes before one that is strictly less than it. *)
Definition InOrder {A : Type} (less : A -> A -> bool) (l : list A) : Prop :=
  StronglySorted (fun a b => less a b = true \/ less b a = false) l.


(** The name clause as the specification words it: an anchored glob in
which [*] stands for any sequence of characters and every other character
for itself. *)
Fixpoint globMatch (pattern : string) : string -> bool :=
  match pattern with
  | EmptyString => fun s => String.eqb s ""
  | String c rest =>
      if Ascii.eqb c "*" then
        fix star (s : string) : bool :=
          globMatch rest s
          || match s with
             | String _ s' => star s'
             | EmptyString => false
             end
      else
        fun s =>
          match s with
          | String d s' => Ascii.eqb c d && globMatch rest s'
          | EmptyString => false
          end
  end.

(** A pattern of ASCII characters of which none but [*] means something to
the regular-expression engine. *)
Definition plainGlob (pattern : string) : bool :=
  forallb (fun c => (Ascii.eqb c "*" || negb (Go.isMeta c)) && (Go.code c <? 128))
    (list_ascii_of_string pattern).

(** A name of ASCII characters on one line. *)
Definition plainName (name : string) : bool :=
  forallb (fun c => (Go.code c <? 128) && negb (Go.code c =? 10))
    (list_ascii_of_string name).

(** The translation of a plain pattern, item by item. *)
Definition globItems (pattern : string) : list Go.item :=
  map (fun c => if Ascii.eqb c "*" then Go.Star Go.Dot else Go.One (Go.Lit c))
    (list_ascii_of_string pattern).

(** ** Properties *)

(** *** Filter evaluation *)

Lemma clauseFlow_any (c : Clause) now v stream :
  clauseFlow c now (set_clauseOp c "any" v) stream = Next.
Proof. destruct c; reflexivity. Qed.

Lemma matchesFilter_clauses now v stream :
  matchesFilter now v stream =
  match nameClause v stream with
  | Return b => b
  | Next =>
      match ageClause now v stream with
      | Return b => b
      | Next =>
          match consumerClause v stream with
          | Return b => b
          | Next =>
              match messagesClause v stream with
              | Return b => b
              | Next => true
              end
          end
      end
  end.
Proof.
  unfold matchesFilter, andThen.
  destruct (nameClause v stream), (ageClause now v stream),
    (consumerClause v stream), (messagesClause v stream); reflexivity.
Qed.

(** C10. A numeric clause whose value string is empty falls through
    whatever its comparator: it lets every entity pass, the predicate matches
    exactly as it does with that comparator set to "any", and the other
    clauses alone decide: [matchesFilter] is what the name clause and the two
    other numeric clauses decide, in their order. *)
Theorem C10_empty_value_is_any (c : Clause) now v stream :
  clauseValue c v = "" ->
  clauseFlow c now v stream = Next /\
  matchesFilter now v stream = matchesFilter now (set_clauseOp c "any" v) stream /\
  matchesFilter now v stream = decided (otherClauses c now v stream).
Proof.
  intros Hempty.
  assert (Hflow : clauseFlow c now v stream = Next).
  { destruct c; simpl in *;
      unfold ageClause, consumerClause, messagesClause; rewrite Hempty;
      simpl; rewrite andb_false_r; reflexivity. }
  split; [exact Hflow|].
  rewrite !matchesFilter_clauses.
  pose proof (clauseFlow_any c now v stream) as Hany.
  split.
  - destruct c; cbn [set_clauseOp clauseFlow] in *; rewrite Hflow, Hany;
      reflexivity.
  - destruct c; cbn [clauseFlow otherClauses decided] in *; rewrite Hflow;
      destruct (nameClause v stream), (ageClause now v stream),
        (consumerClause v stream), (messagesClause v stream);
      try reflexivity; discriminate.
Qed.

Lemma eqb_neq_false (a b : string) : a <> b -> String.eqb a b = false.
Proof. intros H. apply String.eqb_neq. exact H. Qed.

(** A numeric clause with a comparator, a value, and a value that does
    not scan as an integer returns [true] from [matchesFilter]. *)
Lemma invalid_value_returns_true (c : Clause) now v stream :
  invalidValue c v -> clauseFlow c now v stream = Return true.
Proof.
  intros (Hop & Hval & Hscan).
  apply eqb_neq_false in Hop. apply eqb_neq_false in Hval.
  destruct c; simpl in *;
    unfold ageClause, consumerClause, messagesClause;
    rewrite Hop, Hval, Hscan; reflexivity.
Qed.

(** C1. When evaluation reaches a numeric clause whose value does not
    scan, [matchesFilter] returns [true] at once: the clauses after it are
    not evaluated, and a stream that one of them rejects is matched all the
    same. *)
Theorem C1_invalid_value_ends_the_evaluation (c : Clause) now v stream :
  reached c now v stream -> invalidValue c v ->
  matchesFilter now v stream = true.
Proof.
  intros Hreached Hinvalid.
  pose proof (invalid_value_returns_true c now v stream Hinvalid) as Hflow.
  rewrite matchesFilter_clauses.
  destruct c; cbn [reached clauseFlow] in *.
  - rewrite Hreached, Hflow. reflexivity.
  - destruct Hreached as [-> ->]. rewrite Hflow. reflexivity.
  - destruct Hreached as (-> & -> & ->). rewrite Hflow. reflexivity.
Qed.

(** With an unparseable value in the last clause (messages), the other
    clauses decide alone. *)
Lemma invalid_messages_value_fails_open now v stream :
  messagesOp v <> "any" -> messagesValue v <> "" ->
  Go.Sscanf_d (messagesValue v) = None ->
  matchesFilter now v stream = matchesFilter now (set_messagesOp "any" v) stream.
Proof.
  intros Hop Hval Hscan.
  rewrite !matchesFilter_clauses.
  pose proof (invalid_value_returns_true MessagesClause now v stream
                (conj Hop (conj Hval Hscan))) as H.
  cbn [clauseFlow] in H. rewrite H.
  change (messagesClause (set_messagesOp "any" v) stream) with Next.
  reflexivity.
Qed.

Lemma matchesFilter_ageInactive now now' v stream :
  ageInactive v -> matchesFilter now v stream = matchesFilter now' v stream.
Proof.
  intros Hin. rewrite !matchesFilter_clauses.
  assert (H : forall t, ageClause t v stream = Next).
  { intros t. unfold ageClause. destruct Hin as [-> | ->]; [reflexivity|].
    rewrite andb_false_r. reflexivity. }
  rewrite !H. reflexivity.
Qed.

Lemma matchesFilter_allAny now v stream :
  allAny v -> matchesFilter now v stream = true.
Proof.
  intros (Hn & Ha & Hc & Hm). rewrite matchesFilter_clauses.
  unfold nameClause, ageClause, consumerClause, messagesClause.
  rewrite Hn, Ha, Hc, Hm. reflexivity.
Qed.

Lemma filterStreamsFrom_Subsequence clock v streams :
  forall i, Subsequence (filterStreamsFrom clock v i streams) streams.
Proof.
  induction streams as [|s rest IH]; intros i; simpl.
  - constructor.
  - destruct (matchesFilter (clock i) v s); constructor; apply IH.
Qed.

Lemma filterStreamsFrom_indexed clock v streams :
  forall i,
    filterStreamsFrom clock v i streams =
    map fst (filter (fun p => matchesFilter (clock (snd p)) v (fst p))
               (indexed i streams)).
Proof.
  unfold indexed.
  induction streams as [|s rest IH]; intros i; simpl; [reflexivity|].
  rewrite IH. destruct (matchesFilter (clock i) v s); reflexivity.
Qed.

Lemma filterStreamsFrom_ageInactive clock clock' v streams :
  ageInactive v ->
  forall i, filterStreamsFrom clock' v i streams = filterStreamsFrom clock v i streams.
Proof.
  intros Hin. induction streams as [|s rest IH]; intros i; simpl; [reflexivity|].
  rewrite (matchesFilter_ageInactive (clock' i) (clock i) v s Hin), IH.
  reflexivity.
Qed.

Lemma filterStreamsFrom_allAny clock v streams :
  allAny v -> forall i, filterStreamsFrom clock v i streams = streams.
Proof.
  intros Hall. induction streams as [|s rest IH]; intros i; simpl; [reflexivity|].
  rewrite (matchesFilter_allAny _ _ _ Hall), IH. reflexivity.
Qed.

(** C8, as the code has it. The matched set is a function of the
    predicate, the snapshot and the clock readings taken while the snapshot
    is scanned; it is the subsequence of the snapshot made of the streams
    that match when they are tested; it does not depend on the clock when
    the age clause is inactive; and it is the whole snapshot, in snapshot
    order, when every clause is "any". *)
Theorem C8_filterStreams_subsequence_of_matches clock v snapshot :
  Subsequence (filterStreams clock v snapshot) snapshot /\
  filterStreams clock v snapshot =
    map fst (filter (fun p => matchesFilter (clock (snd p)) v (fst p))
               (indexed 0 snapshot)) /\
  (ageInactive v ->
   forall clock', filterStreams clock' v snapshot = filterStreams clock v snapshot) /\
  (allAny v -> filterStreams clock v snapshot = snapshot).
Proof.
  unfold filterStreams. repeat split.
  - apply filterStreamsFrom_Subsequence.
  - apply filterStreamsFrom_indexed.
  - intros Hin clock'. apply filterStreamsFrom_ageInactive. exact Hin.
  - intros Hall. apply filterStreamsFrom_allAny. exact Hall.
Qed.

(** *** The name clause on plain patterns *)

Lemma isMeta_false (c : ascii) :
  Go.isMeta c = false ->
  Ascii.eqb c "." = false /\ Ascii.eqb c "*" = false /\ Ascii.eqb c "$" = false.
Proof.
  unfold Go.isMeta. cbn [existsb]. intros H.
  repeat (apply orb_false_iff in H; destruct H as [? H]).
  repeat split; assumption.
Qed.

Lemma parseItems_globItems (pattern : string) :
  plainGlob pattern = true ->
  Go.parseItems (Go.ReplaceAll_star pattern ++ "$") = Some (globItems pattern).
Proof.
  unfold plainGlob, globItems.
  induction pattern as [|c rest IH]; [reflexivity|].
  cbn [list_ascii_of_string forallb map Go.ReplaceAll_star].
  intros H. apply andb_true_iff in H. destruct H as [Hc Hrest].
  apply andb_true_iff in Hc. destruct Hc as [Hc Hascii].
  specialize (IH Hrest).
  destruct (Ascii.eqb c "*") eqn:Hstar.
  - cbn. rewrite IH. reflexivity.
  - cbn [orb negb] in Hc. apply negb_true_iff in Hc.
    destruct (isMeta_false c Hc) as (Hdot & _ & Hdollar).
    cbn [append Go.parseItems]. rewrite Hdollar, Hc, Hdot. cbn [andb orb].
    assert (Hhigh : (128 <=? Go.code c) = false) by lia. rewrite Hhigh.
    rewrite IH. destruct rest as [|d rest']; [reflexivity|].
    cbn [Go.ReplaceAll_star append].
    destruct (Ascii.eqb d "*") eqn:Hd; cbn [append]; [reflexivity|].
    rewrite Hd. reflexivity.
Qed.

Lemma matchItems_star (a : Go.atom) (rest : list Go.item) (s : string) :
  Go.matchItems (Go.Star a :: rest) s =
  Go.matchItems rest s
  || match s with
     | String c s' => Go.atomMatches a c && Go.matchItems (Go.Star a :: rest) s'
     | EmptyString => false
     end.
Proof. destruct s; reflexivity. Qed.

Lemma globMatch_star (rest s : string) :
  globMatch (String "*" rest) s =
  globMatch rest s
  || match s with
     | String _ s' => globMatch (String "*" rest) s'
     | EmptyString => false
     end.
Proof. destruct s; reflexivity. Qed.

Lemma matchItems_globItems (pattern : string) :
  forall s, plainName s = true ->
            Go.matchItems (globItems pattern) s = globMatch pattern s.
Proof.
  unfold globItems, plainName.
  induction pattern as [|c rest IH]; intros s Hs; [reflexivity|].
  cbn [list_ascii_of_string map].
  destruct (Ascii.eqb c "*") eqn:Hstar.
  - apply Ascii.eqb_eq in Hstar. subst c.
    induction s as [|d s' IHs].
    + rewrite matchItems_star, globMatch_star, (IH "" Hs). reflexivity.
    + rewrite matchItems_star, globMatch_star, (IH _ Hs).
      cbn [list_ascii_of_string forallb] in Hs.
      apply andb_true_iff in Hs. destruct Hs as [Hd Hs'].
      apply andb_true_iff in Hd. destruct Hd as [_ Hnl].
      rewrite (IHs Hs'). cbn [Go.atomMatches]. rewrite Hnl. reflexivity.
  - cbn [Go.matchItems globMatch]. rewrite Hstar.
    destruct s as [|d s']; [reflexivity|].
    cbn [list_ascii_of_string forallb] in Hs.
    apply andb_true_iff in Hs. destruct Hs as [_ Hs'].
    cbn [Go.atomMatches]. rewrite (IH s' Hs'). reflexivity.
Qed.

Lemma plainName_isASCII (name : string) :
  plainName name = true -> Go.isASCII name = true.
Proof.
  unfold plainName, Go.isASCII.
  induction (list_ascii_of_string name) as [|c l IH]; [reflexivity|].
  cbn [forallb]. intros H. apply andb_true_iff in H. destruct H as [Hc Hl].
  apply andb_true_iff in Hc. destruct Hc as [-> _]. exact (IH Hl).
Qed.

(** On a plain pattern and a plain name the name clause is the anchored
    glob, for every engine that follows the fragment. *)
Lemma nameClause_is_glob v stream :
  Go.MatchString_on_fragment regexp_MatchString ->
  namePattern v <> "*" -> namePattern v <> "" ->
  plainGlob (namePattern v) = true -> plainName (Name stream) = true ->
  nameClause v stream =
  if globMatch (namePattern v) (Name stream) then Next else Return false.
Proof.
  intros Hre Hstar Hempty Hp Hn. unfold nameClause.
  rewrite (eqb_neq_false _ _ Hstar), (eqb_neq_false _ _ Hempty). cbn [negb andb].
  rewrite (Hre _ (Name stream) (globItems (namePattern v))).
  - rewrite (matchItems_globItems _ _ Hn).
    destruct (globMatch (namePattern v) (Name stream)); reflexivity.
  - cbn [append Go.parseFragment]. apply parseItems_globItems. exact Hp.
  - apply plainName_isASCII. exact Hn.
Qed.

(** C4. The pattern reaches the regular-expression engine unescaped, so
    a [.] typed in the name pattern stands for any character: pattern
    [a.c] matches the stream named [abc]. *)
Theorem C4_dot_in_pattern_matches_any_character now :
  Go.MatchString_on_fragment regexp_MatchString ->
  matchesFilter now (set_namePattern "a.c" NewQueryBuilderView)
    (Sim.mkStream "abc" 0 0 0) = true.
Proof.
  intros Hre. rewrite matchesFilter_clauses.
  unfold nameClause. cbn.
  rewrite (Hre "^a.c$" "abc" [Go.One (Go.Lit "a"); Go.One Go.Dot; Go.One (Go.Lit "c")]%char
             eq_refl eq_refl).
  reflexivity.
Qed.

(** *** Guards of the bulk actions *)

Lemma ShowError_sameButModal message ui : sameButModal ui (ShowError message ui).
Proof. repeat split. Qed.

Lemma requestBulk_guarded (action : BulkAction) ui :
  matchedStreams (queryBuilderView ui) = [] \/ readOnly ui = true ->
  exists message, requestBulk action ui = ShowError message ui.
Proof.
  intros Hguard.
  destruct action; cbn [requestBulk]; unfold deleteMatched, purgeMatched;
    destruct (matchedStreams (queryBuilderView ui)) as [|s rest] eqn:Hm;
    try (eexists; reflexivity);
    destruct Hguard as [Hnil | Hro]; try discriminate Hnil;
    rewrite Hro; eexists; reflexivity.
Qed.

(** C3. A delete or purge requested with an empty matched set, or in
    read-only mode whatever the matched set, ends in an error dialog; the
    server, the log of requests, the predicate, the matched set and the sort
    state are as before. *)
Theorem C3_empty_or_read_only_is_rejected (action : BulkAction) ui :
  matchedStreams (queryBuilderView ui) = [] \/ readOnly ui = true ->
  rejected (requestBulk action ui) = true /\
  sameButModal ui (requestBulk action ui).
Proof.
  intros Hguard.
  destruct (requestBulk_guarded action ui Hguard) as [message ->].
  split; [reflexivity | apply ShowError_sameButModal].
Qed.

Lemma rejected_requestBulk action ui :
  rejected (requestBulk action ui) = true <->
  matchedStreams (queryBuilderView ui) = [] \/ readOnly ui = true.
Proof.
  split.
  - destruct action; cbn [requestBulk]; unfold deleteMatched, purgeMatched;
      destruct (matchedStreams (queryBuilderView ui)); auto;
      destruct (readOnly ui); auto; discriminate.
  - intros H. destruct (requestBulk_guarded action ui H) as [message ->].
    reflexivity.
Qed.

(** C2, as the code has it. A change of a predicate field changes that
    field only: the field takes the text of the change, every other field of
    the predicate, the sort state, the preview table and the status line are
    as before, and the matched set of the last preview stays; a delete or
    purge requested next ends in the same dialog as it would have before the
    change (rejected exactly when the matched set is empty or the UI is
    read-only), and the executor then sends the same requests.  Clear
    Filter, which resets every field, does empty the matched set. *)
Theorem C2_edit_keeps_the_matched_set (e : FormEdit) (action : BulkAction) ui :
  let v := queryBuilderView ui in
  let v' := queryBuilderView (formEdited e ui) in
  (fieldOf (editedField e) v' = editedText e /\
   (forall f, f <> editedField e -> fieldOf f v' = fieldOf f v) /\
   sortColumn v' = sortColumn v /\ sortAscending v' = sortAscending v /\
   previewTable v' = previewTable v /\ statusText v' = statusText v) /\
  matchedStreams v' = matchedStreams v /\
  modal (requestBulk action (formEdited e ui)) = modal (requestBulk action ui) /\
  (rejected (requestBulk action (formEdited e ui)) = true <->
   matchedStreams (queryBuilderView ui) = [] \/ readOnly ui = true) /\
  calls (executed action (formEdited e ui)) = calls (executed action ui) /\
  matchedStreams (queryBuilderView (clearFilter ui)) = [].
Proof.
  cbn zeta.
  assert (Hm : matchedStreams (queryBuilderView (formEdited e ui)) =
               matchedStreams (queryBuilderView ui)) by (destruct e; reflexivity).
  split.
  { split; [destruct e; reflexivity|].
    split; [|destruct e; repeat split; reflexivity].
    intros f Hf. destruct e, f; try reflexivity; exfalso; apply Hf; reflexivity. }
  repeat split.
  - exact Hm.
  - destruct action; cbn [requestBulk]; unfold deleteMatched, purgeMatched;
      rewrite Hm; destruct (matchedStreams (queryBuilderView ui)); try reflexivity;
      change (readOnly (formEdited e ui)) with (readOnly ui);
      destruct (readOnly ui); reflexivity.
  - intros H. apply rejected_requestBulk in H. rewrite Hm in H. exact H.
  - intros H. apply rejected_requestBulk. rewrite Hm. exact H.
  - destruct action; cbn [executed];
      unfold performBulkDelete, performBulkPurge_result; rewrite Hm;
      change (client (formEdited e ui)) with (client ui);
      change (calls (formEdited e ui)) with (calls ui);
      match goal with |- context [bulkLoop ?a ?b ?c ?d ?e' ?f ?g] =>
        destruct (bulkLoop a b c d e' f g) as [[[sc fc] w] lg] end;
      reflexivity.
Qed.

(** *** The bulk executor *)

Lemma Runs_length op w names errs w' :
  Runs op w names errs w' -> List.length errs = List.length names.
Proof. induction 1; simpl; congruence. Qed.

Lemma succeeded_plus_failed errs :
  (succeededIn errs + failedIn errs = List.length errs)%nat.
Proof.
  unfold succeededIn, failedIn.
  induction errs as [|[e|] errs IH]; simpl in *; lia.
Qed.

Lemma bulkLoop_runs op request streams :
  forall successCount failCount w log,
  exists errs w',
    Runs op w (map Name streams) errs w' /\
    bulkLoop op request streams successCount failCount w log =
      ((successCount + succeededIn errs)%nat, (failCount + failedIn errs)%nat, w',
       log ++ logged request (map Name streams) errs).
Proof.
  induction streams as [|s rest IH]; intros sc fc w log; simpl.
  - exists [], w. split; [constructor|].
    unfold succeededIn, failedIn, logged; simpl.
    rewrite !Nat.add_0_r, app_nil_r. reflexivity.
  - destruct (op (Name s) w) as [err w1] eqn:Hop.
    destruct err as [e|].
    + destruct (IH sc (S fc) w1 (log ++ [Called (request (Name s)) (Some e)]))
        as (errs & w' & Hruns & Heq).
      exists (Some e :: errs), w'. split; [econstructor; eassumption|].
      rewrite Heq. unfold succeededIn, failedIn, logged; simpl.
      rewrite <- app_assoc. simpl. f_equal. f_equal. f_equal. lia.
    + destruct (IH (S sc) fc w1 (log ++ [Called (request (Name s)) None]))
        as (errs & w' & Hruns & Heq).
      exists (None :: errs), w'. split; [econstructor; eassumption|].
      rewrite Heq. unfold succeededIn, failedIn, logged; simpl.
      rewrite <- app_assoc. simpl. f_equal. f_equal. f_equal. f_equal. lia.
Qed.

Lemma executed_outcome (action : BulkAction) ui :
  exists errs,
    Runs (clientCall action) (client ui)
      (map Name (matchedStreams (queryBuilderView ui))) errs
      (client (executed action ui)) /\
    executed action ui =
      ShowModal (InfoModal (resultTitle action) (succeededIn errs) (failedIn errs))
        (set_client (client (executed action ui))
           (calls ui ++ logged (requestOf action)
                          (map Name (matchedStreams (queryBuilderView ui))) errs)
           ui).
Proof.
  destruct action; cbn [executed clientCall requestOf resultTitle];
    unfold performBulkDelete, performBulkPurge_result.
  - destruct (bulkLoop_runs DeleteStream ReqDeleteStream
                (matchedStreams (queryBuilderView ui)) 0%nat 0%nat (client ui) (calls ui))
      as (errs & w' & Hruns & ->).
    exists errs. split; [exact Hruns | reflexivity].
  - destruct (bulkLoop_runs PurgeStream ReqPurgeStream
                (matchedStreams (queryBuilderView ui)) 0%nat 0%nat (client ui) (calls ui))
      as (errs & w' & Hruns & ->).
    exists errs. split; [exact Hruns | reflexivity].
Qed.

Lemma executed_view (action : BulkAction) ui :
  queryBuilderView (executed action ui) = queryBuilderView ui.
Proof.
  destruct (executed_outcome action ui) as (errs & _ & ->). reflexivity.
Qed.

(** C5. The executor, for delete and for purge alike, calls the client
    once per matched stream, in the order of the matched set and each call
    on the server the previous one left, whether or not calls fail; the
    counts it reports are the number of calls that returned no error and the
    number that returned one, and they add up to the size of the matched
    set. *)
Theorem C5_executor_calls_each_stream_once_and_tallies (action : BulkAction) ui :
  exists errs,
    Runs (clientCall action) (client ui)
      (map Name (matchedStreams (queryBuilderView ui))) errs
      (client (executed action ui)) /\
    calls (executed action ui) =
      calls ui ++ logged (requestOf action)
                    (map Name (matchedStreams (queryBuilderView ui))) errs /\
    modal (executed action ui) =
      Some (InfoModal (resultTitle action) (succeededIn errs) (failedIn errs)) /\
    (succeededIn errs + failedIn errs)%nat =
      List.length (matchedStreams (queryBuilderView ui)).
Proof.
  destruct (executed_outcome action ui) as (errs & Hruns & Heq).
  exists errs. split; [exact Hruns|].
  rewrite Heq at 1 2. repeat split.
  rewrite succeeded_plus_failed, (Runs_length _ _ _ _ _ Hruns).
  apply length_map.
Qed.

(** C6, as the code has it. Confirming a purge runs the executor and then
    a preview: when the snapshot is fetched, the matched set and the preview
    table are the filter of the snapshot taken after the purge, under the
    unchanged predicate, and the result dialog stays.  Confirming a delete
    runs the executor only: the view, its matched set and its preview table
    are left as they were. *)
Theorem C6_purge_previews_again_delete_does_not
    clock (action : BulkAction) count names streams w ui :
  modal ui = Some (ConfirmModal action count names) ->
  ListStreams (client (executed action (CloseModal ui))) = (inl streams, w) ->
  let ui' := confirmDone clock "[ Yes ]" ui in
  match action with
  | Purge =>
      matchedStreams (queryBuilderView ui') =
        filterStreams clock (queryBuilderView ui) streams /\
      previewTable (queryBuilderView ui') = matchedStreams (queryBuilderView ui') /\
      client ui' = w /\
      modal ui' = modal (executed Purge (CloseModal ui))
  | Delete =>
      ui' = executed Delete (CloseModal ui) /\
      queryBuilderView ui' = queryBuilderView ui
  end.
Proof.
  intros Hmodal Hlist ui'. subst ui'. unfold confirmDone. rewrite Hmodal.
  cbn [String.eqb Ascii.eqb Bool.eqb].
  destruct action.
  - split; [reflexivity|]. apply (executed_view Delete (CloseModal ui)).
  - cbn [executed] in *. unfold performBulkPurge, previewMatches.
    rewrite Hlist.
    pose proof (executed_view Purge (CloseModal ui)) as Hview.
    cbn [executed] in Hview.
    cbn. rewrite Hview. cbn.
    unfold updateStatus.
    destruct (Nat.eqb _ 0); repeat split.
Qed.

(** *** The preset file *)

Lemma existsb_name_In (name : string) (filters : list SavedFilter) :
  In name (map sf_Name filters) ->
  existsb (fun f => String.eqb (sf_Name f) name) filters = true.
Proof.
  induction filters as [|f rest IH]; simpl; [contradiction|].
  intros [<- | Hin].
  - rewrite String.eqb_refl. reflexivity.
  - rewrite (IH Hin). apply orb_true_r.
Qed.

(** C9. With the presets [stored] in the file: saving a preset under a
    name already stored returns an error and leaves the file system, so
    every stored preset and their number, as it was; and a save that returns
    no error leaves the stored presets followed by the new one. *)
Theorem C9_duplicate_preset_name_is_refused (filter : SavedFilter) fs stored :
  loadSavedFilters fs = inl stored ->
  (In (sf_Name filter) (map sf_Name stored) ->
   exists err, saveFilterToFile filter fs = (Some err, fs)) /\
  (forall fs', saveFilterToFile filter fs = (None, fs') ->
               loadSavedFilters fs' = inl (stored ++ [filter])).
Proof.
  unfold loadSavedFilters, saveFilterToFile.
  destruct (UserHomeDir fs) as [home|e] eqn:Hhome; [|discriminate].
  intros Hload. split.
  - intros Hdup. destruct (MkdirAll fs) as [e|]; [eexists; reflexivity|].
    destruct (filtersFile fs) as [|e|filters|decoded e]; try discriminate;
      injection Hload as <-; [contradiction|].
    rewrite (existsb_name_In _ _ Hdup). eexists; reflexivity.
  - intros fs'. destruct (MkdirAll fs) as [e|]; [discriminate|].
    destruct (filtersFile fs) as [|e|filters|decoded e]; try discriminate;
      injection Hload as <-;
      destruct (existsb _ _); try discriminate;
      destruct (WriteFile fs) as [[e remains]|]; try discriminate;
      intros [= <-]; simpl; rewrite Hhome; reflexivity.
Qed.

(** *** Sorting *)

Lemma Ascii_compare_N (a b : ascii) :
  Ascii.compare a b = N.compare (N_of_ascii a) (N_of_ascii b).
Proof. reflexivity. Qed.

Lemma String_compare_cotrans (x : string) :
  forall y z, String.compare x z = Lt ->
              String.compare x y = Lt \/ String.compare y z = Lt.
Proof.
  induction x as [|a x IH]; intros [|d y] [|c z]; simpl; auto; try discriminate.
  rewrite !Ascii_compare_N.
  destruct (N.compare_spec (N_of_ascii a) (N_of_ascii c)) as [Hac|Hac|Hac];
    try discriminate;
    destruct (N.compare_spec (N_of_ascii a) (N_of_ascii d)) as [Had|Had|Had];
    destruct (N.compare_spec (N_of_ascii d) (N_of_ascii c)) as [Hdc|Hdc|Hdc];
    auto; lia.
Qed.

Lemma String_ltb_asym (x y : string) :
  String.ltb x y = true -> String.ltb y x = false.
Proof.
  unfold String.ltb. rewrite (String.compare_antisym y x).
  destruct (String.compare x y); simpl; congruence.
Qed.

Lemma String_ltb_cotrans (x y z : string) :
  String.ltb x z = true -> String.ltb x y = true \/ String.ltb y z = true.
Proof.
  unfold String.ltb. intros H.
  destruct (String_compare_cotrans x y z) as [-> | ->]; auto.
  destruct (String.compare x z); congruence.
Qed.

Section InsertionSort.

Context {A : Type}.

Lemma Forall_head (P : A -> Prop) (l : list A) :
  Forall P l -> match l with [] => True | y :: _ => P y end.
Proof. intros H. destruct H; auto. Qed.


Lemma StronglySorted_snoc (P : A -> A -> Prop) (l : list A) (x : A) :
  StronglySorted P l -> Forall (fun a => P a x) l -> StronglySorted P (l ++ [x]).
Proof.
  induction 1 as [|a l Hs IH Ha]; intros Hx; simpl.
  - repeat constructor.
  - inversion Hx; subst. constructor; [apply IH; assumption|].
    apply Forall_app. split; [assumption | repeat constructor; assumption].
Qed.

Lemma StronglySorted_rev (P : A -> A -> Prop) (l : list A) :
  StronglySorted P l -> StronglySorted (fun a b => P b a) (rev l).
Proof.
  induction 1 as [|a l Hs IH Ha]; simpl; [constructor|].
  apply StronglySorted_snoc; [exact IH|].
  apply Forall_rev. exact Ha.
Qed.

Lemma StronglySorted_before (P : A -> A -> Prop) (l1 l2 : list A) (x y : A) :
  StronglySorted P (l1 ++ x :: l2) -> In y l1 -> P y x.
Proof.
  induction l1 as [|a l1 IH]; simpl; [contradiction|].
  intros Hs [<- | Hin].
  - apply StronglySorted_inv in Hs. destruct Hs as [_ Hall].
    rewrite Forall_forall in Hall. apply Hall.
    apply in_or_app. right. left. reflexivity.
  - apply StronglySorted_inv in Hs. apply IH; tauto.
Qed.

(** Facts that hold of any comparison. *)
Section AnyLess.
Variable less : A -> A -> bool.

Lemma sinkLeft_app (x : A) (pre post : list A) :
  Forall (fun y => less x y = true) pre ->
  Go.sinkLeft less x (pre ++ post) = pre ++ Go.sinkLeft less x post.
Proof.
  induction 1 as [|y pre Hy _ IH]; simpl; [reflexivity|].
  rewrite Hy, IH. reflexivity.
Qed.

Lemma sinkLeft_stop (x : A) (post : list A) :
  match post with [] => True | y :: _ => less x y = false end ->
  Go.sinkLeft less x post = x :: post.
Proof. destruct post as [|y post]; simpl; [|intros ->]; reflexivity. Qed.

Lemma sinkLeft_Permutation (x : A) (before : list A) :
  Permutation (Go.sinkLeft less x before) (x :: before).
Proof.
  induction before as [|y r IH]; simpl; [reflexivity|].
  destruct (less x y); [|reflexivity].
  rewrite IH. apply perm_swap.
Qed.

Lemma fold_sinkLeft_Permutation (data : list A) :
  forall sorted,
    Permutation (fold_left (fun s x => Go.sinkLeft less x s) data sorted)
      (rev data ++ sorted).
Proof.
  induction data as [|x data IH]; intros sorted; simpl; [reflexivity|].
  rewrite IH, sinkLeft_Permutation, <- app_assoc. simpl.
  apply Permutation_app_head. reflexivity.
Qed.

Lemma insertionSort_Permutation (data : list A) :
  Permutation (Go.insertionSort_func less data) data.
Proof.
  unfold Go.insertionSort_func.
  rewrite <- Permutation_rev, fold_sinkLeft_Permutation, app_nil_r.
  symmetry. apply Permutation_rev.
Qed.
End AnyLess.

(** Facts that need the comparison to be a strict weak order. *)
Variable lt : A -> A -> bool.
Hypothesis lt_asym : forall x y, lt x y = true -> lt y x = false.
Hypothesis lt_cotrans :
  forall x y z, lt x z = true -> lt x y = true \/ lt y z = true.

(* During the sort the sorted prefix is kept nearest element first, so it
   is [NonIncreasing]. *)

Lemma not_lt_tail (x y : A) (r : list A) :
  NonIncreasing lt (y :: r) -> lt x y = false -> Forall (fun z => lt x z = false) (y :: r).
Proof.
  intros Hd Hxy. apply StronglySorted_inv in Hd. destruct Hd as [_ Hall].
  constructor; [exact Hxy|].
  rewrite Forall_forall in *. intros z Hz.
  destruct (lt x z) eqn:Hxz; [|reflexivity].
  destruct (lt_cotrans x y z Hxz) as [H | H]; [congruence|].
  rewrite (Hall z Hz) in H. discriminate.
Qed.

Lemma sinkLeft_split (x : A) (before : list A) :
  NonIncreasing lt before ->
  exists pre post,
    before = pre ++ post /\
    Forall (fun y => lt x y = true) pre /\
    Forall (fun y => lt x y = false) post.
Proof.
  induction before as [|y r IH]; intros Hd.
  - exists [], []. repeat split; constructor.
  - destruct (lt x y) eqn:Hxy.
    + destruct IH as (pre & post & -> & Hpre & Hpost).
      { apply StronglySorted_inv in Hd. tauto. }
      exists (y :: pre), post. repeat split; [constructor|]; assumption.
    + exists [], (y :: r). repeat split; [constructor|].
      apply not_lt_tail; assumption.
Qed.

Lemma sinkLeft_between (x : A) (pre post : list A) :
  Forall (fun y => lt x y = true) pre ->
  Forall (fun y => lt x y = false) post ->
  Go.sinkLeft lt x (pre ++ post) = pre ++ x :: post.
Proof.
  intros Hpre Hpost. rewrite (sinkLeft_app lt x pre post Hpre).
  rewrite sinkLeft_stop; [reflexivity|].
  apply (Forall_head _ _ Hpost).
Qed.

Lemma sinkLeft_NonIncreasing (x : A) (before : list A) :
  NonIncreasing lt before -> NonIncreasing lt (Go.sinkLeft lt x before).
Proof.
  induction before as [|y r IH]; intros Hd; simpl.
  - repeat constructor.
  - destruct (lt x y) eqn:Hxy.
    + pose proof (StronglySorted_inv Hd) as [Hr Hall].
      constructor; [apply IH; exact Hr|].
      rewrite sinkLeft_Permutation.
      constructor; [apply lt_asym; exact Hxy | exact Hall].
    + constructor; [exact Hd|]. apply not_lt_tail; assumption.
Qed.

Lemma fold_sinkLeft_NonIncreasing (data : list A) :
  forall sorted, NonIncreasing lt sorted ->
                 NonIncreasing lt (fold_left (fun s x => Go.sinkLeft lt x s) data sorted).
Proof.
  induction data as [|x data IH]; intros sorted Hd; simpl; [exact Hd|].
  apply IH, sinkLeft_NonIncreasing, Hd.
Qed.

(** One step of the descending sort mirrors one step of the ascending
    sort. *)
Lemma sinkLeft_mirror (x : A) (before : list A) :
  NonIncreasing lt before ->
  Go.sinkLeft (fun a b => negb (lt a b)) x (rev before) =
  rev (Go.sinkLeft lt x before).
Proof.
  intros Hd. destruct (sinkLeft_split x before Hd) as (pre & post & -> & Hpre & Hpost).
  rewrite (sinkLeft_between x pre post Hpre Hpost).
  rewrite !rev_app_distr. simpl. rewrite <- app_assoc. simpl.
  rewrite sinkLeft_app.
  - rewrite sinkLeft_stop; [reflexivity|].
    apply (Forall_head (fun y => negb (lt x y) = false)).
    apply Forall_rev. eapply Forall_impl; [|exact Hpre].
    intros y ->. reflexivity.
  - apply Forall_rev. eapply Forall_impl; [|exact Hpost].
    intros y ->. reflexivity.
Qed.

Lemma fold_sinkLeft_mirror (data : list A) :
  forall sorted, NonIncreasing lt sorted ->
    fold_left (fun s x => Go.sinkLeft (fun a b => negb (lt a b)) x s) data (rev sorted) =
    rev (fold_left (fun s x => Go.sinkLeft lt x s) data sorted).
Proof.
  induction data as [|x data IH]; intros sorted Hd; simpl; [reflexivity|].
  rewrite (sinkLeft_mirror x sorted Hd). apply IH, sinkLeft_NonIncreasing, Hd.
Qed.

Lemma insertionSort_negated_is_reverse (data : list A) :
  Go.insertionSort_func (fun a b => negb (lt a b)) data =
  rev (Go.insertionSort_func lt data).
Proof.
  unfold Go.insertionSort_func.
  pose proof (fold_sinkLeft_mirror data [] (SSorted_nil _)) as H.
  simpl in H. rewrite H. reflexivity.
Qed.

Lemma insertionSort_sorted (data : list A) :
  StronglySorted (fun a b => lt b a = false) (Go.insertionSort_func lt data).
Proof.
  unfold Go.insertionSort_func.
  apply (StronglySorted_rev (fun a b => lt a b = false)).
  apply fold_sinkLeft_NonIncreasing. constructor.
Qed.

Lemma fold_sinkLeft_sorted_input (data : list A) :
  forall sorted,
    StronglySorted (fun a b => lt b a = false) (rev sorted ++ data) ->
    fold_left (fun s x => Go.sinkLeft lt x s) data sorted = rev data ++ sorted.
Proof.
  induction data as [|x data IH]; intros sorted Hs; simpl; [reflexivity|].
  rewrite sinkLeft_stop.
  - rewrite IH; [rewrite <- app_assoc; reflexivity|].
    simpl. rewrite <- app_assoc. exact Hs.
  - destruct sorted as [|y r]; [exact I|].
    apply (StronglySorted_before _ _ _ _ y Hs).
    simpl. apply in_or_app. right. left. reflexivity.
Qed.

Lemma insertionSort_of_sorted (data : list A) :
  StronglySorted (fun a b => lt b a = false) data ->
  Go.insertionSort_func lt data = data.
Proof.
  intros Hs. unfold Go.insertionSort_func.
  rewrite fold_sinkLeft_sorted_input; [|exact Hs].
  rewrite app_nil_r. apply rev_involutive.
Qed.


(** Elements that tie with [a] keep their order. *)




End InsertionSort.

Lemma StronglySorted_weaken {A : Type} (P Q : A -> A -> Prop) (l : list A) :
  (forall a b, P a b -> Q a b) -> StronglySorted P l -> StronglySorted Q l.
Proof.
  intros HPQ. induction 1 as [|a l Hs IH Ha]; constructor; [exact IH|].
  eapply Forall_impl; [|exact Ha]. apply HPQ.
Qed.





Lemma sortLess_asym column a b :
  sortLess column true a b = true -> sortLess column true b a = false.
Proof.
  unfold sortLess, Go.Before. cbn [negb].
  destruct (column =? 0); [apply String_ltb_asym|].
  destruct (column =? 1); [lia|].
  destruct (column =? 2); [lia|].
  destruct (column =? 3); [lia|reflexivity].
Qed.

Lemma sortLess_cotrans column a b c :
  sortLess column true a c = true ->
  sortLess column true a b = true \/ sortLess column true b c = true.
Proof.
  unfold sortLess, Go.Before. cbn [negb].
  destruct (column =? 0); [apply String_ltb_cotrans|].
  destruct (column =? 1); [lia|].
  destruct (column =? 2); [lia|].
  destruct (column =? 3); [lia|discriminate].
Qed.

Lemma sortPreview_matchedStreams v :
  (List.length (matchedStreams v) <= Go.maxInsertion)%nat ->
  matchedStreams (sortPreview v) =
  Go.insertionSort_func (sortLess (sortColumn v) (sortAscending v))
    (matchedStreams v).
Proof.
  intros Hlen. unfold sortPreview.
  destruct (matchedStreams v) as [|s rest] eqn:Hm.
  - rewrite Hm. reflexivity.
  - cbn [matchedStreams updatePreviewTable set_matchedStreams set_previewTable].
    unfold Go.Slice. apply Nat.leb_le in Hlen. rewrite Hlen. reflexivity.
Qed.

Lemma sortedBy_matchedStreams column ascending v :
  (List.length (matchedStreams v) <= Go.maxInsertion)%nat ->
  matchedStreams (sortedBy column ascending v) =
  Go.insertionSort_func (sortLess column ascending) (matchedStreams v).
Proof.
  intros Hlen. unfold sortedBy.
  rewrite sortPreview_matchedStreams; [reflexivity | exact Hlen].
Qed.

(** Selecting the header of the column the preview is sorted on, in
    ascending order, reverses the preview. *)
Lemma header_again_reverses column v :
  (List.length (matchedStreams v) <= Go.maxInsertion)%nat ->
  sortColumn v = column -> sortAscending v = true ->
  Ascending column (matchedStreams v) ->
  matchedStreams (previewSelected 0 column v) = rev (matchedStreams v).
Proof.
  intros Hlen Hcol Hasc Hsorted. unfold previewSelected.
  cbn [Z.eqb]. rewrite Hcol, Z.eqb_refl, Hasc.
  rewrite sortPreview_matchedStreams; [|exact Hlen].
  cbn [sortColumn sortAscending set_sortAscending matchedStreams negb].
  rewrite Hcol.
  change (sortLess column false)
    with (fun a b => negb (sortLess column true a b)).
  rewrite (insertionSort_negated_is_reverse (sortLess column true)
             (sortLess_asym column) (sortLess_cotrans column)).
  rewrite (insertionSort_of_sorted (sortLess column true) _ Hsorted).
  reflexivity.
Qed.

Lemma sortLess_descending column a b :
  sortLess column false a b = negb (sortLess column true a b).
Proof. reflexivity. Qed.


Lemma String_ltb_leb (x y : string) : String.ltb x y = negb (String.leb y x).
Proof.
  unfold String.ltb, String.leb. rewrite (String.compare_antisym y x).
  destruct (String.compare x y); reflexivity.
Qed.


(** The comparison of [sortPreview] is the comparison of the keys. *)
Lemma sortLess_key column a b :
  isColumn column ->
  sortLess column true a b = negb (keyLeb (columnKey column b) (columnKey column a)).
Proof.
  intros Hcolumn. unfold isColumn in Hcolumn.
  unfold sortLess, columnKey, keyLeb, Go.Before. cbn [negb].
  destruct (column =? 0) eqn:H0; [apply String_ltb_leb|].
  destruct (column =? 1) eqn:H1; [apply Z.ltb_antisym|].
  destruct (column =? 2) eqn:H2; [apply Z.ltb_antisym|].
  destruct (column =? 3) eqn:H3; [apply Z.ltb_antisym|]. lia.
Qed.


Lemma InOrder_KeyOrdered column ascending l :
  isColumn column ->
  InOrder (sortLess column ascending) l -> KeyOrdered column ascending l.
Proof.
  intros Hcolumn. apply StronglySorted_weaken. intros a b H.
  destruct ascending.
  - assert (Hba : sortLess column true b a = false)
      by (destruct H as [H | H]; [apply sortLess_asym|]; exact H).
    rewrite (sortLess_key column b a Hcolumn) in Hba.
    apply negb_false_iff. exact Hba.
  - rewrite !sortLess_descending in H.
    assert (Hab : sortLess column true a b = false).
    { destruct H as [H | H].
      - apply negb_true_iff. exact H.
      - apply negb_false_iff in H. apply sortLess_asym. exact H. }
    rewrite (sortLess_key column a b Hcolumn) in Hab.
    apply negb_false_iff. exact Hab.
Qed.



End Controller.

(** ** The properties on the simulated server *)

Lemma fragmentMatchString_on_fragment :
  Go.MatchString_on_fragment Go.fragmentMatchString.
Proof.
  intros pattern s items Hparse Hascii. unfold Go.fragmentMatchString.
  rewrite Hparse, Hascii. reflexivity.
Qed.

(** C1 at a concrete predicate: age [> -], consumers [= 5].  The stream
    [orders] has two consumers, the consumer clause rejects it, and it is
    matched. *)
Lemma C1_orders_matched_despite_consumer_clause :
  consumerClause Sim.brokenAge Sim.orders = Return false /\
  matchesFilter Go.fragmentMatchString 0 Sim.brokenAge Sim.orders = true.
Proof.
  split; [reflexivity|].
  apply (C1_invalid_value_ends_the_evaluation Go.fragmentMatchString AgeClause).
  - reflexivity.
  - repeat split; discriminate.
Defined.

(** What [fmt.Sscanf] reads for the verb [%d]: the digits up to the first
    character that is none, after white space and a sign; nothing of a lone
    sign or of a text that starts with a letter. *)
Example Sscanf_d_reads_the_leading_digits :
  Go.Sscanf_d "5_0" = Some 5 /\ Go.Sscanf_d " -42abc" = Some (-42) /\
  Go.Sscanf_d "-" = None /\ Go.Sscanf_d "abc" = None /\ Go.Sscanf_d "" = None.
Proof. repeat split. Qed.

(** A message value [5_0] is read as 5 and applies: [orders], with 150
    messages, is rejected by messages [= 5_0]. *)
Example value_with_an_underscore_applies :
  matchesFilter Go.fragmentMatchString 0
    (set_messagesValue "5_0" (set_messagesOp "=" NewQueryBuilderView)) Sim.orders
  = false.
Proof. reflexivity. Qed.

(** C10 at a concrete predicate: names [*s], age [>] with no value,
    consumers [= 2].  The age clause lets the three streams pass; the name
    clause rejects [audit], the consumer clause rejects [events] (no
    consumer) and accepts [orders] (two consumers): [orders] alone is
    matched. *)
Lemma C10_age_operator_without_value :
  let v := set_consumerValue "2" (set_consumerOp "="
             (set_ageOp ">" (set_namePattern "*s" NewQueryBuilderView))) in
  map (clauseFlow AgeClause 0 v) (Sim.streams Sim.server) = [Next; Next; Next] /\
  map (matchesFilter Go.fragmentMatchString 0 v) (Sim.streams Sim.server)
    = [true; false; false] /\
  map (matchesFilter Go.fragmentMatchString 0 (set_clauseOp AgeClause "any" v))
      (Sim.streams Sim.server)
    = [true; false; false].
Proof.
  intros v.
  destruct (C10_empty_value_is_any Go.fragmentMatchString AgeClause 0 v Sim.orders
              eq_refl) as (Hf1 & Ha1 & Hd1).
  destruct (C10_empty_value_is_any Go.fragmentMatchString AgeClause 0 v Sim.audit
              eq_refl) as (Hf2 & Ha2 & Hd2).
  destruct (C10_empty_value_is_any Go.fragmentMatchString AgeClause 0 v Sim.events
              eq_refl) as (Hf3 & Ha3 & Hd3).
  cbn [map Sim.streams Sim.server].
  split; [rewrite Hf1, Hf2, Hf3; reflexivity|].
  split.
  - rewrite Hd1, Hd2, Hd3. reflexivity.
  - rewrite <- Ha1, <- Ha2, <- Ha3, Hd1, Hd2, Hd3. reflexivity.
Defined.

(** C8 refuted as stated: the same predicate on the same snapshot gives
    two matched sets at two readings of the clock. *)
Lemma C8_same_snapshot_matched_then_not :
  filterStreams Go.fragmentMatchString (Sim.clockAt Sim.halfAnHour)
    Sim.youngerThanAnHour [Sim.orders] = [Sim.orders] /\
  filterStreams Go.fragmentMatchString (Sim.clockAt Sim.twoHours)
    Sim.youngerThanAnHour [Sim.orders] = [].
Proof. split; reflexivity. Qed.

(** C8 at the default predicate: the matched set is the snapshot. *)
Lemma C8_default_predicate_matches_all :
  filterStreams Go.fragmentMatchString (Sim.clockAt 0) NewQueryBuilderView
    (Sim.streams Sim.server) = Sim.streams Sim.server.
Proof.
  apply (C8_filterStreams_subsequence_of_matches Go.fragmentMatchString (Sim.clockAt 0)
           NewQueryBuilderView (Sim.streams Sim.server)).
  repeat split.
Defined.

(** C4 on the engine that knows the fragment. *)
Lemma C4_abc_matches_pattern_a_dot_c :
  matchesFilter Go.fragmentMatchString 0
    (set_namePattern "a.c" NewQueryBuilderView) (Sim.mkStream "abc" 0 0 0) = true.
Proof.
  apply C4_dot_in_pattern_matches_any_character.
  exact fragmentMatchString_on_fragment.
Defined.

(** C3 in read-only mode with a matched set of one stream. *)
Lemma C3_read_only_delete_is_rejected :
  let ui := Sim.start Sim.server true
              (set_matchedStreams [Sim.orders] NewQueryBuilderView) in
  rejected (requestBulk Delete ui) = true /\ sameButModal ui (requestBulk Delete ui).
Proof.
  apply C3_empty_or_read_only_is_rejected. right. reflexivity.
Defined.

(** C2 refuted as stated: after a preview that matched three streams the
    name pattern is changed; the delete requested next is not rejected, and
    confirming it sends a delete request for each stream of the old matched
    set. *)
Lemma C2_delete_after_edit_is_accepted :
  let ui1 := previewMatches Go.fragmentMatchString Sim.ListStreams (Sim.clockAt 0) Sim.ui0 in
  let ui2 := formEdited (NamePatternChanged "nothing-*") ui1 in
  let ui3 := deleteMatched ui2 in
  rejected ui3 = false /\
  calls (confirmDone Go.fragmentMatchString Sim.ListStreams Sim.DeleteStream
           Sim.PurgeStream (Sim.clockAt 0) "[ Yes ]" ui3) =
    [Called ReqListStreams None;
     Called (ReqDeleteStream "orders") None;
     Called (ReqDeleteStream "audit") (Some "failed to delete stream: locked");
     Called (ReqDeleteStream "events") None].
Proof. split; reflexivity. Qed.

(** C5 on three matched streams of which the second cannot be deleted:
    three requests in order, two reported as deleted and one as failed. *)
Lemma C5_three_streams_second_fails :
  let ui := Sim.start Sim.server false
              (set_matchedStreams (Sim.streams Sim.server) NewQueryBuilderView) in
  let ui' := performBulkDelete Sim.DeleteStream ui in
  map (fun c => match c with Called request _ => request end) (calls ui') =
    [ReqDeleteStream "orders"; ReqDeleteStream "audit"; ReqDeleteStream "events"] /\
  modal ui' = Some (InfoModal "Bulk Delete Result" 2 1).
Proof.
  intros ui ui'.
  destruct (C5_executor_calls_each_stream_once_and_tallies
              Sim.DeleteStream Sim.PurgeStream Delete ui)
    as (errs & Hruns & Hcalls & Hmodal & Hsum).
  change (executed Sim.DeleteStream Sim.PurgeStream Delete ui) with ui' in *.
  cbn [clientCall] in Hruns.
  inversion Hruns as [|w1 n1 e1 w1' ns1 es1 w1'' H1 Hruns1]; subst.
  inversion Hruns1 as [|w2 n2 e2 w2' ns2 es2 w2'' H2 Hruns2]; subst.
  inversion Hruns2 as [|w3 n3 e3 w3' ns3 es3 w3'' H3 Hruns3]; subst.
  inversion Hruns3; subst.
  vm_compute in H1. apply pair_equal_spec in H1. destruct H1 as [<- <-].
  vm_compute in H2. apply pair_equal_spec in H2. destruct H2 as [<- <-].
  vm_compute in H3. apply pair_equal_spec in H3. destruct H3 as [<- _].
  split; [rewrite Hcalls | rewrite Hmodal]; reflexivity.
Defined.

(** C6 refuted as stated: after a confirmed delete of the three matched
    streams the server holds [audit] alone, and the matched set and the
    preview table still list the three streams. *)
Lemma C6_deleted_streams_stay_in_the_matched_set :
  let engine := Go.fragmentMatchString in
  let ui1 := previewMatches engine Sim.ListStreams (Sim.clockAt 0) Sim.ui0 in
  let ui2 := confirmDone engine Sim.ListStreams Sim.DeleteStream Sim.PurgeStream
               (Sim.clockAt 0) "[ Yes ]" (deleteMatched ui1) in
  map Name (Sim.streams (client ui2)) = ["audit"] /\
  map Name (matchedStreams (queryBuilderView ui2)) = ["orders"; "audit"; "events"] /\
  map Name (previewTable (queryBuilderView ui2)) = ["orders"; "audit"; "events"] /\
  map Name (filterStreams engine (Sim.clockAt 0) (queryBuilderView ui2)
              (Sim.streams (client ui2))) = ["audit"].
Proof. repeat split. Qed.

(** C6 on a confirmed purge: the matched set is the filter of the streams
    as the purge left them. *)
Lemma C6_purged_streams_are_previewed_again :
  let engine := Go.fragmentMatchString in
  let ui1 := previewMatches engine Sim.ListStreams (Sim.clockAt 0) Sim.ui0 in
  let ui2 := confirmDone engine Sim.ListStreams Sim.DeleteStream Sim.PurgeStream
               (Sim.clockAt 0) "[ Yes ]" (purgeMatched ui1) in
  matchedStreams (queryBuilderView ui2) =
    filterStreams engine (Sim.clockAt 0) NewQueryBuilderView
      [Sim.purged Sim.orders; Sim.audit; Sim.purged Sim.events] /\
  previewTable (queryBuilderView ui2) = matchedStreams (queryBuilderView ui2) /\
  Sim.streams (client ui2) = [Sim.purged Sim.orders; Sim.audit; Sim.purged Sim.events] /\
  modal ui2 = Some (InfoModal "Bulk Purge Result" 2 1).
Proof.
  intros engine ui1 ui2.
  pose proof (C6_purge_previews_again_delete_does_not engine Sim.ListStreams
                Sim.DeleteStream Sim.PurgeStream (Sim.clockAt 0) Purge
                3%nat (confirmLines (Sim.streams Sim.server))
                [Sim.purged Sim.orders; Sim.audit; Sim.purged Sim.events]
                {| Sim.streams := [Sim.purged Sim.orders; Sim.audit; Sim.purged Sim.events];
                   Sim.locked := ["audit"] |}
                (purgeMatched ui1) eq_refl eq_refl) as (Hm & Ht & Hc & Hmodal).
  split; [exact Hm|]. split; [exact Ht|]. split; [|exact Hmodal].
  fold ui2 in Hc. rewrite Hc. reflexivity.
Defined.




(** C9 on a preset file that holds [big]: a second preset named [big] is
    refused and the file system is as before; a preset named [small] is
    stored after [big]. *)
Lemma C9_big_saved_twice :
  (exists err,
     saveFilterToFile (Sim.preset "big" "audit-*") Sim.disk = (Some err, Sim.disk)) /\
  loadSavedFilters (snd (saveFilterToFile (Sim.preset "small" "a*") Sim.disk)) =
    inl [Sim.preset "big" "order-*"; Sim.preset "small" "a*"].
Proof.
  split.
  - apply (C9_duplicate_preset_name_is_refused (Sim.preset "big" "audit-*") Sim.disk
             [Sim.preset "big" "order-*"] eq_refl).
    simpl. left. reflexivity.
  - apply (C9_duplicate_preset_name_is_refused (Sim.preset "small" "a*") Sim.disk
             [Sim.preset "big" "order-*"] eq_refl).
    reflexivity.
Defined.

(** ** The scenarios of the specification *)

(** Pattern [order-*] with more than 100 messages, on three streams. *)
Example order_streams_over_100_messages :
  let v := set_messagesValue "100" (set_messagesOp ">"
             (set_namePattern "order-*" NewQueryBuilderView)) in
  map Name
    (filterStreams Go.fragmentMatchString (Sim.clockAt 0) v
       [Sim.mkStream "order-processing" 0 150 0;
        Sim.mkStream "order-archive" 0 50 0;
        Sim.mkStream "user-events" 0 300 0]) = ["order-processing"].
Proof. reflexivity. Qed.

(** Age [= 100] minutes: a stream matches at 100 and at 109 minutes of
    age, and does not at 111. *)
Example age_equal_within_a_tenth :
  let v := set_ageUnit "m" (set_ageValue "100" (set_ageOp "=" NewQueryBuilderView)) in
  let matches minutes :=
    matchesFilter Go.fragmentMatchString (minutes * Go.Minute) v Sim.orders in
  matches 100 = true /\ matches 109 = true /\ matches 111 = false.
Proof. repeat split. Qed.

(** The name pattern is case-sensitive. *)
Example name_pattern_is_case_sensitive :
  let v := set_namePattern "Orders" NewQueryBuilderView in
  matchesFilter Go.fragmentMatchString 0 v Sim.orders = false /\
  matchesFilter Go.fragmentMatchString 0 v (Sim.mkStream "Orders" 0 0 0) = true.
Proof. split; reflexivity. Qed.

(** * The query builder as a machine of events *)

(** What the form, the preview table and the confirmation dialog can send
    to the view: the change of a field, the buttons Preview Matches, Delete
    All, Purge All and Clear Filter, the selection of a cell of the preview
    table, and a button of the confirmation dialog. *)
Inductive Event :=
| FormChanged (e : FormEdit)
| PreviewPressed
| BulkPressed (action : BulkAction)
| ClearPressed
| PreviewSelected (row column : Z)
| ConfirmButton (buttonLabel : string).

(** The request of a logged call. *)
Definition callRequest (c : Call) : Request :=
  match c with Called request _ => request end.

(** The logged calls that change the server. *)
Definition isMutation (c : Call) : bool :=
  match callRequest c with
  | ReqDeleteStream _ | ReqPurgeStream _ => true
  | ReqListStreams => false
  end.

Definition mutations (log : list Call) : list Call := filter isMutation log.

Section Workflow.

Variable regexp_MatchString : string -> string -> option bool.
Variable pdqsort_large : (Stream -> Stream -> bool) -> list Stream -> list Stream.
Context {World : Type}.
Variable ListStreams : World -> (list Stream + string) * World.
Variable DeleteStream : string -> World -> option string * World.
Variable PurgeStream : string -> World -> option string * World.

(** The handler of an event; [clock] gives the readings of the clock
    while the handler runs. *)
Definition handle (clock : nat -> Go.Time) (e : Event) (ui : UIManager World)
  : UIManager World :=
  match e with
  | FormChanged f => formEdited f ui
  | PreviewPressed => previewMatches regexp_MatchString ListStreams clock ui
  | BulkPressed action => requestBulk action ui
  | ClearPressed => clearFilter ui
  | PreviewSelected row column =>
      set_view (previewSelected pdqsort_large row column (queryBuilderView ui)) ui
  | ConfirmButton buttonLabel =>
      confirmDone regexp_MatchString ListStreams DeleteStream PurgeStream
        clock buttonLabel ui
  end.

(** A sequence of events, each with the clock of its handler. *)
Fixpoint run (events : list ((nat -> Go.Time) * Event)) (ui : UIManager World)
  : UIManager World :=
  match events with
  | [] => ui
  | (clock, e) :: rest => run rest (handle clock e ui)
  end.

(** A confirmation dialog is open. *)
Definition confirming (ui : UIManager World) : bool :=
  match modal ui with Some (ConfirmModal _ _ _) => true | _ => false end.

(** The preview table shows the matched set. *)
Definition tableShowsMatched (ui : UIManager World) : Prop :=
  previewTable (queryBuilderView ui) = matchedStreams (queryBuilderView ui).

Lemma mutations_app (l1 l2 : list Call) :
  mutations (l1 ++ l2) = mutations l1 ++ mutations l2.
Proof. apply filter_app. Qed.

Lemma previewMatches_frame clock ui :
  let ui' := previewMatches regexp_MatchString ListStreams clock ui in
  mutations (calls ui') = mutations (calls ui) /\
  readOnly ui' = readOnly ui /\
  (confirming ui = false -> confirming ui' = false) /\
  (tableShowsMatched ui -> tableShowsMatched ui').
Proof.
  unfold previewMatches, tableShowsMatched, confirming.
  destruct (ListStreams (client ui)) as [[streams | err] w]; cbn.
  - rewrite mutations_app, app_nil_r. repeat split; auto.
    unfold updateStatus. destruct (Nat.eqb _ 0); reflexivity.
  - rewrite mutations_app, app_nil_r. repeat split; auto.
Qed.

Lemma handle_unconfirmed_frame clock e ui :
  confirming ui = false ->
  mutations (calls (handle clock e ui)) = mutations (calls ui) /\
  readOnly (handle clock e ui) = readOnly ui.
Proof.
  intros Hc. destruct e as [f| |action| |row column|label]; cbn [handle].
  - split; reflexivity.
  - pose proof (previewMatches_frame clock ui) as H. cbn zeta in H. tauto.
  - destruct action; cbn [requestBulk]; unfold deleteMatched, purgeMatched;
      destruct (matchedStreams (queryBuilderView ui)); try (split; reflexivity);
      destruct (readOnly ui) eqn:Hro; split; cbn; auto.
  - split; reflexivity.
  - split; reflexivity.
  - unfold confirmDone. unfold confirming in Hc.
    destruct (modal ui) as [[m|a n l|t s f]|]; try discriminate; split; reflexivity.
Qed.

Lemma handle_readOnly_stays_unconfirmed clock e ui :
  readOnly ui = true -> confirming ui = false ->
  confirming (handle clock e ui) = false.
Proof.
  intros Hro Hc. destruct e as [f| |action| |row column|label]; cbn [handle].
  - exact Hc.
  - pose proof (previewMatches_frame clock ui) as H. cbn zeta in H. tauto.
  - destruct action; cbn [requestBulk]; unfold deleteMatched, purgeMatched;
      destruct (matchedStreams (queryBuilderView ui)); try reflexivity;
      rewrite Hro; reflexivity.
  - exact Hc.
  - exact Hc.
  - unfold confirmDone. unfold confirming in Hc |- *.
    destruct (modal ui) as [[m|a n l|t s f]|] eqn:Hm; try discriminate;
      rewrite Hm; reflexivity.
Qed.

(** X1. In read-only mode, starting with no confirmation dialog open, no
    sequence of events of the query builder sends a delete or a purge request:
    the mutating requests in the log stay as they were. *)
Theorem X1_read_only_never_sends_a_mutation events :
  forall ui,
    readOnly ui = true -> confirming ui = false ->
    mutations (calls (run events ui)) = mutations (calls ui).
Proof.
  induction events as [|[clock e] rest IH]; intros ui Hro Hc; [reflexivity|].
  cbn [run].
  destruct (handle_unconfirmed_frame clock e ui Hc) as [Hm Hro'].
  rewrite IH.
  - exact Hm.
  - rewrite Hro'. exact Hro.
  - apply handle_readOnly_stays_unconfirmed; assumption.
Qed.

Lemma handle_other_events_frame clock e ui :
  (forall buttonLabel, e <> ConfirmButton buttonLabel) ->
  mutations (calls (handle clock e ui)) = mutations (calls ui).
Proof.
  intros He. destruct e as [f| |action| |row column|label]; cbn [handle].
  - reflexivity.
  - pose proof (previewMatches_frame clock ui) as H. cbn zeta in H. tauto.
  - destruct action; cbn [requestBulk]; unfold deleteMatched, purgeMatched;
      destruct (matchedStreams (queryBuilderView ui)); try reflexivity;
      destruct (readOnly ui); reflexivity.
  - reflexivity.
  - reflexivity.
  - destruct (He label eq_refl).
Qed.

(** X2. A delete or purge request reaches the server from one event only:
    the Yes button of an open confirmation dialog.  Every other event, and
    every event while no confirmation dialog is open, leaves the mutating
    requests of the log as they were. *)
Theorem X2_only_a_confirmed_action_mutates clock e ui :
  e <> ConfirmButton "[ Yes ]" \/ confirming ui = false ->
  mutations (calls (handle clock e ui)) = mutations (calls ui).
Proof.
  intros [He | Hc].
  - destruct e as [f| |action| |row column|label];
      try (apply handle_other_events_frame; intros l; discriminate).
    cbn [handle]. unfold confirmDone.
    destruct (modal ui) as [[m|a n l|t s f]|]; try reflexivity.
    destruct (String.eqb label "[ Yes ]") eqn:Hyes.
    + apply String.eqb_eq in Hyes. subst label. destruct (He eq_refl).
    + destruct (String.eqb label "[ No ]"); reflexivity.
  - apply handle_unconfirmed_frame. exact Hc.
Qed.

Lemma set_modal_back (ui : UIManager World) (m : Modal) :
  modal ui = None -> CloseModal (ShowModal m ui) = ui.
Proof. destruct ui as [w ro page md v log]. cbn. intros ->. reflexivity. Qed.

(** X3. With no dialog open, a delete or purge request that is accepted
    and then answered with the No button leaves the UI exactly as it was
    before the request. *)
Theorem X3_cancel_restores_the_ui clock (action : BulkAction) ui :
  modal ui = None ->
  matchedStreams (queryBuilderView ui) <> [] -> readOnly ui = false ->
  confirmDone regexp_MatchString ListStreams DeleteStream PurgeStream clock
    "[ No ]" (requestBulk action ui) = ui.
Proof.
  intros Hm Hne Hro.
  destruct action; cbn [requestBulk]; unfold deleteMatched, purgeMatched;
    destruct (matchedStreams (queryBuilderView ui)) as [|s l] eqn:Hs;
    try (destruct (Hne eq_refl)); rewrite Hro;
    unfold confirmDone; cbn; apply (set_modal_back ui _ Hm).
Qed.

Lemma sortPreview_table v :
  previewTable v = matchedStreams v ->
  previewTable (sortPreview pdqsort_large v) =
  matchedStreams (sortPreview pdqsort_large v).
Proof.
  intros H. unfold sortPreview.
  destruct (matchedStreams v) eqn:Hm; [rewrite Hm; exact H | reflexivity].
Qed.

Lemma handle_tableShowsMatched clock e ui :
  tableShowsMatched ui -> tableShowsMatched (handle clock e ui).
Proof.
  intros Ht. destruct e as [f| |action| |row column|label]; cbn [handle].
  - unfold tableShowsMatched in *. destruct f; exact Ht.
  - pose proof (previewMatches_frame clock ui) as H. cbn zeta in H. tauto.
  - destruct action; cbn [requestBulk]; unfold deleteMatched, purgeMatched;
      destruct (matchedStreams (queryBuilderView ui)) eqn:Hm; try exact Ht;
      destruct (readOnly ui); exact Ht.
  - reflexivity.
  - unfold tableShowsMatched in *. cbn. unfold previewSelected.
    destruct (row =? 0); [|exact Ht].
    apply sortPreview_table.
    destruct (sortColumn (queryBuilderView ui) =? column); exact Ht.
  - unfold confirmDone.
    destruct (modal ui) as [[m|a n l|t s f]|]; try exact Ht.
    destruct (String.eqb label "[ Yes ]").
    + destruct a.
      * pose proof (executed_view DeleteStream PurgeStream Delete (CloseModal ui)) as Hv.
        cbn [executed] in Hv. unfold tableShowsMatched. rewrite Hv. exact Ht.
      * pose proof (executed_view DeleteStream PurgeStream Purge (CloseModal ui)) as Hv.
        cbn [executed] in Hv. unfold performBulkPurge.
        pose proof (previewMatches_frame clock
                      (performBulkPurge_result PurgeStream (CloseModal ui))) as H.
        cbn zeta in H. apply H. unfold tableShowsMatched. rewrite Hv. exact Ht.
    + destruct (String.eqb label "[ No ]"); exact Ht.
Qed.

(** X4. The preview table shows the matched set, the one a bulk action
    acts on, after every sequence of events, once it does (as it does when
    the view is created). *)
Theorem X4_table_always_shows_the_matched_set events :
  forall ui, tableShowsMatched ui -> tableShowsMatched (run events ui).
Proof.
  induction events as [|[clock e] rest IH]; intros ui Ht; [exact Ht|].
  cbn [run]. apply IH, handle_tableShowsMatched, Ht.
Qed.

(** X6. Clear Filter puts the predicate back to its defaults and empties
    the matched set without a request to the server: a delete or purge
    requested next is rejected, and the next preview that fetches the
    snapshot matches the whole of it. *)
Theorem X6_clear_filter_starts_over clock (action : BulkAction) streams w ui :
  ListStreams (client ui) = (inl streams, w) ->
  let cleared := clearFilter ui in
  calls cleared = calls ui /\ client cleared = client ui /\
  rejected (requestBulk action cleared) = true /\
  matchedStreams
    (queryBuilderView (previewMatches regexp_MatchString ListStreams clock cleared))
  = streams.
Proof.
  intros Hlist. cbn zeta. repeat split.
  - destruct action; reflexivity.
  - unfold previewMatches. cbn [clearFilter client set_view].
    rewrite Hlist. cbn.
    unfold updateStatus. destruct (Nat.eqb _ 0); cbn;
      apply (filterStreamsFrom_allAny regexp_MatchString); repeat split.
Qed.

Lemma sortPreview_sort_state v :
  sortColumn (sortPreview pdqsort_large v) = sortColumn v /\
  sortAscending (sortPreview pdqsort_large v) = sortAscending v.
Proof. unfold sortPreview. destruct (matchedStreams v); split; reflexivity. Qed.

(** X7. On a matched set of at most twelve streams, selecting the header
    of a column (name, age, messages or consumers) other than the current sort
    column sorts the preview on that column in ascending order: the rows are
    the same, in non-decreasing order of the column's keys; selecting the same
    header again shows them in exactly the reverse order, which is
    non-increasing; selecting a cell below the header changes nothing. *)
Theorem X7_header_sorts_then_reverses column v :
  (List.length (matchedStreams v) <= Go.maxInsertion)%nat ->
  isColumn column ->
  sortColumn v <> column ->
  let first := previewSelected pdqsort_large 0 column v in
  let second := previewSelected pdqsort_large 0 column first in
  (sortColumn first = column /\ sortAscending first = true) /\
  Permutation (matchedStreams first) (matchedStreams v) /\
  KeyOrdered column true (matchedStreams first) /\
  (sortColumn second = column /\ sortAscending second = false) /\
  matchedStreams second = rev (matchedStreams first) /\
  KeyOrdered column false (matchedStreams second) /\
  (forall row, row <> 0 -> previewSelected pdqsort_large row column v = v).
Proof.
  intros Hlen Hcolumn Hcol first second.
  assert (Hfirst : first = sortedBy pdqsort_large column true v).
  { unfold first, previewSelected, sortedBy. cbn [Z.eqb].
    apply Z.eqb_neq in Hcol. rewrite Hcol. reflexivity. }
  assert (Hstate : sortColumn first = column /\ sortAscending first = true).
  { rewrite Hfirst. unfold sortedBy.
    destruct (sortPreview_sort_state
                (set_sortAscending true (set_sortColumn column v))) as [-> ->].
    split; reflexivity. }
  assert (Hm : matchedStreams first =
               Go.insertionSort_func (sortLess column true) (matchedStreams v)).
  { rewrite Hfirst. apply sortedBy_matchedStreams. exact Hlen. }
  assert (Hsorted : Ascending column (matchedStreams first)).
  { rewrite Hm. apply insertionSort_sorted;
      [apply sortLess_asym | apply sortLess_cotrans]. }
  assert (Hkeys : KeyOrdered column true (matchedStreams first)).
  { apply (InOrder_KeyOrdered column true _ Hcolumn).
    apply (StronglySorted_weaken
             (fun a b => sortLess column true b a = false)); [auto | exact Hsorted]. }
  assert (Hperm : Permutation (matchedStreams first) (matchedStreams v)).
  { rewrite Hm. apply insertionSort_Permutation. }
  assert (Hlen1 : (List.length (matchedStreams first) <= Go.maxInsertion)%nat).
  { rewrite (Permutation_length Hperm). exact Hlen. }
  assert (Hrev : matchedStreams second = rev (matchedStreams first)).
  { destruct Hstate as [Hc1 Ha1].
    apply (header_again_reverses pdqsort_large column first Hlen1 Hc1 Ha1 Hsorted). }
  destruct Hstate as [Hc1 Ha1].
  subst second. clear Hfirst Hm. clearbody first.
  split; [split; assumption|]. split; [exact Hperm|]. split; [exact Hkeys|].
  split; [split|]; [| |split; [exact Hrev|split]].
  - unfold previewSelected. cbn [Z.eqb]. rewrite Hc1, Z.eqb_refl.
    destruct (sortPreview_sort_state
                (set_sortAscending (negb (sortAscending first)) first)) as [-> _].
    exact Hc1.
  - unfold previewSelected. cbn [Z.eqb]. rewrite Hc1, Z.eqb_refl.
    destruct (sortPreview_sort_state
                (set_sortAscending (negb (sortAscending first)) first)) as [_ ->].
    cbn [sortAscending set_sortAscending]. rewrite Ha1. reflexivity.
  - rewrite Hrev.
    apply (StronglySorted_rev
             (fun a b => keyLeb (columnKey column a) (columnKey column b) = true)).
    exact Hkeys.
  - intros row Hrow. unfold previewSelected. apply Z.eqb_neq in Hrow.
    rewrite Hrow. reflexivity.
Qed.

End Workflow.

(** * package nats: what the client lists *)

(** [nats.StreamInfo], as far as [Client.ListStreams] copies it into the
    fields of [Stream] kept here. *)
Record StreamInfo := {
  info_Config_Name : string;
  info_State_Msgs : Z;                     (* uint64 *)
  info_State_Bytes : Z;                    (* uint64 *)
  info_State_FirstTime : Go.Time;
  info_State_Consumers : Z                 (* int *)
}.

(** The [models.Stream] built in the body of the loop of [ListStreams]. *)
Definition streamOfInfo (info : StreamInfo) : Stream :=
  {| Name := info_Config_Name info;
     Messages := info_State_Msgs info;
     Bytes := info_State_Bytes info;
     Consumers := info_State_Consumers info;
     State := {| State_Messages := info_State_Msgs info;
                 State_Bytes := info_State_Bytes info;
                 State_FirstTime := info_State_FirstTime info;
                 State_Consumers := info_State_Consumers info |} |}.

Section ClientListing.

Variable regexp_MatchString : string -> string -> option bool.
Context {World : Type}.

(** What the channel of [js.StreamsInfo()] delivers until it is closed, and
    the server afterwards. *)
Variable StreamsInfo : World -> list StreamInfo * World.

(** [Client.ListStreams]: one stream for each delivered info, in order; the
    error returned is nil in every case. *)
Definition Client_ListStreams (w : World) : (list Stream + string) * World :=
  let '(infos, w') := StreamsInfo w in
  (inl (map streamOfInfo infos), w').

(** X5. The client never reports an error of listing: it returns the
    streams that were delivered, in order, and a nil error.  So a preview never
    ends in the dialog "Failed to list streams": it leaves the dialog on
    display as it is, sends no delete or purge, and replaces the matched set
    and the preview table by the filter of the delivered streams.  When
    nothing is delivered, as from a server that has stopped answering, the
    matched set of the previous preview is emptied, the status line goes back
    to the prompt, and a delete or purge requested next is rejected. *)
Theorem X5_preview_never_reports_a_listing_error
  (clock : nat -> Go.Time) (ui : UIManager World) :
  let delivered := fst (StreamsInfo (client ui)) in
  let ui' := previewMatches regexp_MatchString Client_ListStreams clock ui in
  Client_ListStreams (client ui) =
    (inl (map streamOfInfo delivered), snd (StreamsInfo (client ui))) /\
  modal ui' = modal ui /\
  mutations (calls ui') = mutations (calls ui) /\
  matchedStreams (queryBuilderView ui') =
    filterStreams regexp_MatchString clock (queryBuilderView ui)
      (map streamOfInfo delivered) /\
  previewTable (queryBuilderView ui') = matchedStreams (queryBuilderView ui') /\
  (delivered = [] ->
   matchedStreams (queryBuilderView ui') = [] /\
   statusText (queryBuilderView ui') = StatusPrompt /\
   forall action, rejected (requestBulk action ui') = true).
Proof.
  cbn zeta. unfold previewMatches, Client_ListStreams.
  destruct (StreamsInfo (client ui)) as [infos w'] eqn:Hinfos.
  cbn [fst snd]. cbn [modal set_view set_client calls queryBuilderView matchedStreams
                      previewTable updatePreviewTable set_previewTable
                      set_matchedStreams].
  split; [reflexivity|]. split; [reflexivity|].
  split; [rewrite mutations_app, app_nil_r; reflexivity|].
  assert (Hmatched : forall n v, matchedStreams (updateStatus n v) = matchedStreams v)
    by (intros n v; unfold updateStatus; destruct (Nat.eqb n 0); reflexivity).
  assert (Htable : forall n v, previewTable (updateStatus n v) = previewTable v)
    by (intros n v; unfold updateStatus; destruct (Nat.eqb n 0); reflexivity).
  split; [rewrite Hmatched; reflexivity|].
  split; [rewrite Hmatched, Htable; reflexivity|].
  intros ->. cbn [map]. split; [rewrite Hmatched; reflexivity|].
  split; [reflexivity|].
  intros action. apply rejected_requestBulk. left.
  cbn [queryBuilderView set_view]. rewrite Hmatched. reflexivity.
Qed.

End ClientListing.

(** ** The confirmation text *)

(** The number of streams a list of lines of the confirmation dialog stands
    for: one for each name, and the count of a line "... and n more". *)
Fixpoint accountedFor (lines : list NameLine) : nat :=
  match lines with
  | [] => 0
  | Bullet _ :: rest => S (accountedFor rest)
  | AndMore n :: rest => (n + accountedFor rest)%nat
  end.

Lemma accountedFor_app (l1 l2 : list NameLine) :
  accountedFor (l1 ++ l2) = (accountedFor l1 + accountedFor l2)%nat.
Proof.
  induction l1 as [|[name|n] l1 IH]; simpl; [reflexivity | |]; rewrite IH; lia.
Qed.

Lemma accountedFor_bullets (streams : list Stream) :
  accountedFor (map (fun s => Bullet (Name s)) streams) = List.length streams.
Proof. induction streams as [|s l IH]; simpl; [|rewrite IH]; reflexivity. Qed.

(** X8. The lines of the confirmation dialog: for at most five matched
    streams, one line for the name of each, in order, and nothing else; for
    more than five, the names of the first five in order, followed by one line
    "... and N more" where N is the number of the others.  So every matched
    stream is accounted for, by name or in that count, on at most six lines. *)
Theorem X8_confirmation_accounts_for_every_stream (matched : list Stream) :
  ((List.length matched <= 5)%nat ->
   confirmLines matched = map (fun s => Bullet (Name s)) matched) /\
  ((5 < List.length matched)%nat ->
   confirmLines matched =
     map (fun s => Bullet (Name s)) (firstn 5 matched)
     ++ [AndMore (List.length matched - 5)] /\
   List.length (firstn 5 matched) = 5%nat /\
   (0 < List.length matched - 5)%nat) /\
  accountedFor (confirmLines matched) = List.length matched /\
  (List.length (confirmLines matched) <= 6)%nat /\
  firstn (Nat.min 5 (List.length matched)) (confirmLines matched) =
    map (fun s => Bullet (Name s)) (firstn 5 matched).
Proof.
  unfold confirmLines.
  set (bullets := map (fun s => Bullet (Name s)) (firstn 5 matched)).
  assert (Hb : List.length bullets = Nat.min 5 (List.length matched))
    by (unfold bullets; rewrite length_map, length_firstn; reflexivity).
  assert (Hacc : accountedFor bullets = Nat.min 5 (List.length matched))
    by (unfold bullets; rewrite accountedFor_bullets, length_firstn; reflexivity).
  split; [|split; [|split; [|split]]].
  - intros Hshort. apply Nat.ltb_ge in Hshort. rewrite Hshort, app_nil_r.
    unfold bullets. rewrite firstn_all2; [reflexivity|].
    apply Nat.ltb_ge. exact Hshort.
  - intros Hlong. pose proof Hlong as Hlt. apply Nat.ltb_lt in Hlt. rewrite Hlt.
    split; [reflexivity|]. split; [|lia].
    rewrite length_firstn. lia.
  - rewrite accountedFor_app, Hacc.
    destruct (5 <? List.length matched)%nat eqn:Hn;
      [apply Nat.ltb_lt in Hn | apply Nat.ltb_ge in Hn]; cbn [accountedFor]; lia.
  - rewrite length_app, Hb.
    destruct (5 <? List.length matched)%nat; cbn [List.length]; lia.
  - rewrite <- Hb, firstn_app, Nat.sub_diag. cbn [firstn].
    rewrite app_nil_r. apply firstn_all.
Qed.

(** * Saved filters: from the form to the file and back *)

(** ** [fmt.Sprintf("%d", n)] *)

Module GoFmt.

Definition digitChar (d : Z) : ascii := ascii_of_N (Z.to_N (48 + d)).

(** The loop of [fmtInteger] in base 10: the digits of [u] are written in
    front of [buf], the last one first.  Twenty rounds are enough for 64
    bits. *)
Fixpoint formatBits (rounds : nat) (u : Z) (buf : string) : string :=
  match rounds with
  | O => buf
  | S rounds' =>
      if u <? 10 then String (digitChar u) buf
      else
        let next := u / 10 in
        formatBits rounds' next (String (digitChar (u - next * 10)) buf)
  end.

(** [fmt.Sprintf("%d", n)] of a 64-bit integer. *)
Definition Sprintf_d (n : Z) : string :=
  if n <? 0 then String "-" (formatBits 20 (- n) "") else formatBits 20 n "".

Definition allDigits (s : string) : bool :=
  forallb Go.isDigit (list_ascii_of_string s).

Lemma code_digitChar (d : Z) : 0 <= d <= 9 -> Go.code (digitChar d) = 48 + d.
Proof.
  intros Hd. unfold Go.code, digitChar.
  rewrite N_ascii_embedding; lia.
Qed.

Lemma isDigit_digitChar (d : Z) : 0 <= d <= 9 -> Go.isDigit (digitChar d) = true.
Proof. intros Hd. unfold Go.isDigit. rewrite (code_digitChar d Hd). lia. Qed.

Lemma parseDigits_digitChar (d acc : Z) (buf : string) :
  0 <= d <= 9 ->
  Go.parseDigits acc (String (digitChar d) buf) = Go.parseDigits (10 * acc + d) buf.
Proof.
  intros Hd. cbn [Go.parseDigits].
  rewrite (isDigit_digitChar d Hd), (code_digitChar d Hd). f_equal. lia.
Qed.

Lemma parseDigits_formatBits (rounds : nat) :
  forall u buf, 0 <= u < 10 ^ Z.of_nat rounds ->
    exists m, forall acc,
      Go.parseDigits acc (formatBits rounds u buf) = Go.parseDigits (acc * m + u) buf.
Proof.
  induction rounds as [|rounds IH]; intros u buf Hu.
  - exists 1. intros acc. cbn [formatBits]. f_equal. cbn in Hu. lia.
  - cbn [formatBits]. destruct (u <? 10) eqn:Hsmall.
    + exists 10. intros acc. rewrite parseDigits_digitChar by lia. f_equal. lia.
    + rewrite Nat2Z.inj_succ, Z.pow_succ_r in Hu by lia.
      assert (Hnext : 0 <= u / 10 < 10 ^ Z.of_nat rounds).
      { split; [apply Z.div_pos; lia | apply Z.div_lt_upper_bound; lia]. }
      destruct (IH (u / 10) (String (digitChar (u - u / 10 * 10)) buf) Hnext)
        as [m Hm].
      exists (10 * m). intros acc. rewrite Hm.
      pose proof (Z.mod_pos_bound u 10 ltac:(lia)) as Hmod.
      pose proof (Z.div_mod u 10 ltac:(lia)) as Hdiv.
      rewrite parseDigits_digitChar by lia. f_equal. lia.
Qed.

Lemma allDigits_formatBits (rounds : nat) :
  forall u buf, 0 <= u -> allDigits buf = true ->
                allDigits (formatBits rounds u buf) = true.
Proof.
  unfold allDigits.
  induction rounds as [|rounds IH]; intros u buf Hu Hbuf; cbn [formatBits];
    [exact Hbuf|].
  destruct (u <? 10) eqn:Hsmall.
  - cbn. rewrite isDigit_digitChar by lia. exact Hbuf.
  - apply IH; [apply Z.div_pos; lia|].
    pose proof (Z.mod_pos_bound u 10 ltac:(lia)) as Hmod.
    pose proof (Z.div_mod u 10 ltac:(lia)) as Hdiv.
    cbn. rewrite isDigit_digitChar by lia. exact Hbuf.
Qed.

Lemma formatBits_not_empty (rounds : nat) :
  forall u buf, formatBits (S rounds) u buf <> "".
Proof.
  induction rounds as [|rounds IH]; intros u buf; cbn [formatBits];
    destruct (u <? 10); try discriminate.
  apply IH.
Qed.

Lemma scanNumber_allDigits (s : string) :
  allDigits s = true -> Go.scanNumber s = s.
Proof.
  unfold allDigits. induction s as [|c s IH]; [reflexivity|].
  cbn. intros H. apply andb_true_iff in H. destruct H as [Hc Hs].
  rewrite Hc, (IH Hs). reflexivity.
Qed.

Lemma SkipSpace_number (c : ascii) (r : string) :
  45 <= Go.code c <= 57 -> Go.SkipSpace (String c r) = Some (String c r).
Proof.
  intros Hc. cbn [Go.SkipSpace]. unfold Go.isSpaceByte.
  replace (Go.code c =? 10) with false by lia.
  replace ((9 <=? Go.code c) && (Go.code c <=? 13) || (Go.code c =? 32))
    with false by lia.
  replace (Go.code c =? 194) with false by lia.
  replace ((Go.code c =? 225) || (Go.code c =? 226) || (Go.code c =? 227))
    with false by lia.
  reflexivity.
Qed.

Lemma Sscanf_d_digits (neg : bool) (s : string) :
  s <> "" -> allDigits s = true ->
  Go.Sscanf_d (if neg then String "-" s else s) = Go.ParseInt neg s.
Proof.
  intros Hne Hd. destruct s as [|c r]; [destruct (Hne eq_refl)|].
  assert (Hc : 48 <= Go.code c <= 57).
  { unfold allDigits in Hd. cbn in Hd. apply andb_true_iff in Hd.
    destruct Hd as [Hd _]. unfold Go.isDigit in Hd. lia. }
  unfold Go.Sscanf_d. destruct neg.
  - rewrite SkipSpace_number by (cbn; lia).
    cbn [Go.isSign Ascii.eqb Bool.eqb orb].
    rewrite (scanNumber_allDigits _ Hd). reflexivity.
  - rewrite SkipSpace_number by lia.
    assert (Hsign : Go.isSign c = false).
    { unfold Go.isSign. apply orb_false_iff. split; apply Ascii.eqb_neq;
        intros ->; cbn in Hc; lia. }
    rewrite Hsign, (scanNumber_allDigits _ Hd). reflexivity.
Qed.

(** A 64-bit integer, printed with [%d] and scanned with [%d], comes back. *)
Lemma Sscanf_Sprintf (n : Z) :
  Go.minInt64 <= n <= Go.maxInt64 -> Go.Sscanf_d (Sprintf_d n) = Some n.
Proof.
  unfold Go.minInt64, Go.maxInt64. intros Hn. unfold Sprintf_d.
  destruct (n <? 0) eqn:Hneg.
  - assert (Hu : 0 <= - n < 10 ^ Z.of_nat 20) by (cbn; lia).
    rewrite (Sscanf_d_digits true);
      [|apply formatBits_not_empty | apply allDigits_formatBits; [lia|reflexivity]].
    destruct (parseDigits_formatBits 20 (- n) "" Hu) as [m Hm].
    unfold Go.ParseInt. rewrite (Hm 0). cbn [Go.parseDigits Z.mul Z.add].
    replace (- n <=? 2 ^ 63) with true by lia. f_equal. lia.
  - assert (Hu : 0 <= n < 10 ^ Z.of_nat 20) by (cbn; lia).
    rewrite (Sscanf_d_digits false);
      [|apply formatBits_not_empty | apply allDigits_formatBits; [lia|reflexivity]].
    destruct (parseDigits_formatBits 20 n "" Hu) as [m Hm].
    unfold Go.ParseInt. rewrite (Hm 0). cbn [Go.parseDigits Z.mul Z.add].
    unfold Go.maxInt64. replace (n <=? 2 ^ 63 - 1) with true by lia. reflexivity.
Qed.

End GoFmt.

(** ** [saveFilter] and [loadFilter] *)

(** [fmt.Sscanf(text, "%d", &field)] on a field that holds 0: the field
    keeps 0 when nothing is scanned. *)
Definition scanned (text : string) : Z :=
  match Go.Sscanf_d text with
  | Some n => n
  | None => 0
  end.

(** The [models.SavedFilter] that [saveFilter] builds from the form. *)
Definition filterOfForm (name : string) (v : QueryBuilderView) : SavedFilter :=
  {| sf_Name := name;
     sf_NamePattern := namePattern v;
     sf_AgeOp := ageOp v;
     sf_AgeValue := scanned (ageValue v);
     sf_AgeUnit := ageUnit v;
     sf_ConsumerOp := consumerOp v;
     sf_ConsumerValue := scanned (consumerValue v);
     sf_MessagesOp := messagesOp v;
     sf_MessagesValue := scanned (messagesValue v) |}.

(** The dialog [saveFilter] ends in. *)
Inductive SaveDialog :=
| SaveRefused (message : string)   (* the error dialog *)
| FilterSaved (name : string).     (* "Filter '<name>' saved successfully!" *)

(** The submit callback of [saveFilter], on the name typed in the input
    dialog. *)
Definition saveFilter (name : string) (v : QueryBuilderView) (fs : FileSystem)
  : SaveDialog * FileSystem :=
  if String.eqb name "" then (SaveRefused "Filter name cannot be empty", fs)
  else
    (* Save to config file *)
    match saveFilterToFile (filterOfForm name v) fs with
    | (Some err, fs') => (SaveRefused ("Failed to save filter: " ++ err)%string, fs')
    | (None, fs') => (FilterSaved name, fs')
    end.

(** [buildFormFields], on the fields of the view.  Adding a drop-down
    selects its initial option, which runs its callback: the three comparators
    are set to the option 0, "any", and the unit to the option 1, "h".  An
    input field is given its text before its callback is set, so that no text
    changes. *)
Definition buildFormFields (v : QueryBuilderView) : QueryBuilderView :=
  let v := set_ageOp "any" v in
  let v := set_ageUnit "h" v in
  let v := set_consumerOp "any" v in
  set_messagesOp "any" v.

(** [loadFilter] up to its preview: the assignments from the saved filter,
    then the form rebuilt with the loaded values. *)
Definition loadFilter_form (filter : SavedFilter) (v : QueryBuilderView)
  : QueryBuilderView :=
  let v := set_namePattern (sf_NamePattern filter) v in
  let v := set_ageOp (sf_AgeOp filter) v in
  let v :=
    if 0 <? sf_AgeValue filter
    then set_ageValue (GoFmt.Sprintf_d (sf_AgeValue filter)) v
    else set_ageValue "" v in
  let v := set_ageUnit (sf_AgeUnit filter) v in
  let v := set_consumerOp (sf_ConsumerOp filter) v in
  let v :=
    if (0 <? sf_ConsumerValue filter) || String.eqb (sf_ConsumerOp filter) "="
    then set_consumerValue (GoFmt.Sprintf_d (sf_ConsumerValue filter)) v
    else set_consumerValue "" v in
  let v := set_messagesOp (sf_MessagesOp filter) v in
  let v :=
    if (0 <? sf_MessagesValue filter) || String.eqb (sf_MessagesOp filter) "="
    then set_messagesValue (GoFmt.Sprintf_d (sf_MessagesValue filter)) v
    else set_messagesValue "" v in
  (* Rebuild form with loaded values *)
  buildFormFields v.

(** A sequence of saves, each of a name and the form at that time. *)
Fixpoint saveAll (saves : list (string * QueryBuilderView)) (fs : FileSystem)
  : FileSystem :=
  match saves with
  | [] => fs
  | (name, v) :: rest => saveAll rest (snd (saveFilter name v fs))
  end.

(** The preset file is absent or a document of presets with distinct,
    non-empty names, and writing it does not fail. *)
Definition tidy (fs : FileSystem) : Prop :=
  WriteFile fs = None /\
  match filtersFile fs with
  | NoFile => True
  | Document filters =>
      NoDup (map sf_Name filters) /\ ~ In "" (map sf_Name filters)
  | Unreadable _ | Garbled _ _ => False
  end.

Lemma parseDigits_nonneg (s : string) :
  forall acc m, 0 <= acc -> Go.parseDigits acc s = Some m -> 0 <= m.
Proof.
  induction s as [|c s IH]; intros acc m Hacc; cbn [Go.parseDigits].
  - intros [= <-]. exact Hacc.
  - destruct (Go.isDigit c) eqn:Hc; [|discriminate].
    apply IH. unfold Go.isDigit in Hc. lia.
Qed.

Lemma Sscanf_d_range (s : string) (n : Z) :
  Go.Sscanf_d s = Some n -> Go.minInt64 <= n <= Go.maxInt64.
Proof.
  unfold Go.Sscanf_d, Go.minInt64, Go.maxInt64.
  destruct (Go.SkipSpace s) as [s1|]; [|discriminate].
  destruct (match s1 with
            | String c r => if Go.isSign c then (Ascii.eqb c "-", r) else (false, s1)
            | EmptyString => (false, s1)
            end) as [neg s2].
  destruct (Go.scanNumber s2) as [|c tok]; [discriminate|].
  unfold Go.ParseInt, Go.maxInt64.
  destruct (Go.parseDigits 0 (String c tok)) as [m|] eqn:Hm; [|discriminate].
  apply parseDigits_nonneg in Hm; [|lia].
  destruct neg.
  - destruct (m <=? 2 ^ 63) eqn:Hr; [|discriminate]. intros [= <-]. lia.
  - destruct (m <=? 2 ^ 63 - 1) eqn:Hr; [|discriminate]. intros [= <-]. lia.
Qed.

Lemma scanned_range (text : string) :
  Go.minInt64 <= scanned text <= Go.maxInt64.
Proof.
  unfold scanned. destruct (Go.Sscanf_d text) as [n|] eqn:Hs.
  - apply (Sscanf_d_range _ _ Hs).
  - unfold Go.minInt64, Go.maxInt64. lia.
Qed.

Lemma scanned_positive (text : string) :
  0 < scanned text -> Go.Sscanf_d text = Some (scanned text).
Proof. unfold scanned. destruct (Go.Sscanf_d text); [reflexivity | lia]. Qed.

Section LoadFilter.

Variable regexp_MatchString : string -> string -> option bool.
Context {World : Type}.
Variable ListStreams : World -> (list Stream + string) * World.

(** [loadFilter]: the form is loaded and rebuilt, then the preview runs. *)
Definition loadFilter (filter : SavedFilter) (clock : nat -> Go.Time)
    (ui : UIManager World) : UIManager World :=
  let v := loadFilter_form filter (queryBuilderView ui) in
  (* Auto-preview *)
  previewMatches regexp_MatchString ListStreams clock (set_view v ui).

(** The preview leaves the fields of the predicate alone. *)
Lemma previewMatches_fields (f : Field) clock (ui : UIManager World) :
  fieldOf f (queryBuilderView (previewMatches regexp_MatchString ListStreams clock ui))
  = fieldOf f (queryBuilderView ui).
Proof.
  unfold previewMatches.
  destruct (ListStreams (client ui)) as [[streams | err] w]; [|reflexivity].
  cbn [queryBuilderView set_view]. unfold updateStatus.
  destruct (Nat.eqb _ 0); destruct f; reflexivity.
Qed.

(** X9. What a form that is saved as a preset holds when the preset has
    been loaded again.  The name pattern is as typed.  The three comparators
    are "any" and the unit is "h", whatever was saved: the rebuilt drop-downs
    select their initial options.  An age value is a text for the same number
    when it scans to a positive integer, and empty otherwise; a consumer or
    message value is a text for the same number when it scans to a positive
    integer, empty when it is zero, negative or unreadable and the saved
    comparator is not [=], and the text of the scanned number (0 when nothing
    scans) when the saved comparator is [=]. *)
Theorem X9_values_after_save_and_load
  (name : string) (v : QueryBuilderView) (clock : nat -> Go.Time)
  (ui : UIManager World) :
  let v' := queryBuilderView (loadFilter (filterOfForm name v) clock ui) in
  namePattern v' = namePattern v /\
  (ageOp v' = "any" /\ ageUnit v' = "h" /\
   consumerOp v' = "any" /\ messagesOp v' = "any") /\
  (0 < scanned (ageValue v) -> Go.Sscanf_d (ageValue v') = Go.Sscanf_d (ageValue v)) /\
  (scanned (ageValue v) <= 0 -> ageValue v' = "") /\
  (0 < scanned (consumerValue v) ->
   Go.Sscanf_d (consumerValue v') = Go.Sscanf_d (consumerValue v)) /\
  (scanned (consumerValue v) <= 0 -> consumerOp v <> "=" -> consumerValue v' = "") /\
  (consumerOp v = "=" ->
   Go.Sscanf_d (consumerValue v') = Some (scanned (consumerValue v))) /\
  (0 < scanned (messagesValue v) ->
   Go.Sscanf_d (messagesValue v') = Go.Sscanf_d (messagesValue v)) /\
  (scanned (messagesValue v) <= 0 -> messagesOp v <> "=" -> messagesValue v' = "") /\
  (messagesOp v = "=" ->
   Go.Sscanf_d (messagesValue v') = Some (scanned (messagesValue v))).
Proof.
  cbn zeta. unfold loadFilter.
  set (loaded := loadFilter_form (filterOfForm name v) (queryBuilderView ui)).
  pose proof (fun f => previewMatches_fields f clock (set_view loaded ui)) as Hfields.
  pose proof (Hfields NamePatternField) as Hpattern.
  pose proof (Hfields AgeOpField) as HageOp.
  pose proof (Hfields AgeValueField) as HageValue.
  pose proof (Hfields AgeUnitField) as HageUnit.
  pose proof (Hfields ConsumerOpField) as HconsumerOp.
  pose proof (Hfields ConsumerValueField) as HconsumerValue.
  pose proof (Hfields MessagesOpField) as HmessagesOp.
  pose proof (Hfields MessagesValueField) as HmessagesValue.
  cbn [fieldOf queryBuilderView set_view] in *.
  rewrite Hpattern, HageOp, HageValue, HageUnit, HconsumerOp, HconsumerValue,
    HmessagesOp, HmessagesValue.
  clear Hfields Hpattern HageOp HageValue HageUnit HconsumerOp HconsumerValue
    HmessagesOp HmessagesValue.
  subst loaded. unfold loadFilter_form, buildFormFields.
  cbn [filterOfForm sf_NamePattern sf_AgeOp
    sf_AgeValue sf_AgeUnit sf_ConsumerOp sf_ConsumerValue sf_MessagesOp
    sf_MessagesValue].
  pose proof (scanned_range (ageValue v)) as Ha.
  pose proof (scanned_range (consumerValue v)) as Hc.
  pose proof (scanned_range (messagesValue v)) as Hm.
  destruct (0 <? scanned (ageValue v)) eqn:Ea;
    destruct ((0 <? scanned (consumerValue v)) || String.eqb (consumerOp v) "=") eqn:Ec;
    destruct ((0 <? scanned (messagesValue v)) || String.eqb (messagesOp v) "=") eqn:Em;
    cbn;
    repeat match goal with
           | |- _ /\ _ => split
           | |- _ -> _ => intro
           end;
    try reflexivity; try lia;
    try (rewrite GoFmt.Sscanf_Sprintf by assumption;
         first [reflexivity | symmetry; apply scanned_positive; assumption]);
    try (apply orb_true_iff in Ec; destruct Ec as [Ec | Ec];
         [lia | apply String.eqb_eq in Ec; contradiction]);
    try (apply orb_true_iff in Em; destruct Em as [Em | Em];
         [lia | apply String.eqb_eq in Em; contradiction]);
    try (apply orb_false_iff in Ec; destruct Ec as [_ Ec];
         apply String.eqb_neq in Ec; contradiction);
    try (apply orb_false_iff in Em; destruct Em as [_ Em];
         apply String.eqb_neq in Em; contradiction).
Qed.

End LoadFilter.

Lemma existsb_name_not_In (name : string) (filters : list SavedFilter) :
  existsb (fun f => String.eqb (sf_Name f) name) filters = false ->
  ~ In name (map sf_Name filters).
Proof.
  intros He Hin. rewrite (existsb_name_In _ _ Hin) in He. discriminate.
Qed.

Lemma saveFilter_tidy (name : string) (v : QueryBuilderView) (fs : FileSystem) :
  tidy fs -> tidy (snd (saveFilter name v fs)).
Proof.
  intros [Hw Hf]. unfold saveFilter.
  destruct (String.eqb name "") eqn:Hname; [split; assumption|].
  apply String.eqb_neq in Hname.
  unfold saveFilterToFile.
  destruct (UserHomeDir fs) as [home|e]; [|split; assumption].
  destruct (MkdirAll fs) as [e|]; [split; assumption|].
  rewrite Hw.
  destruct (filtersFile fs) as [|e|filters|decoded e] eqn:Hfile;
    try contradiction; cbn [existsb sf_Name filterOfForm].
  - split; [exact Hw|]. cbn. split.
    + constructor; [intros []|constructor].
    + intros [H|[]]. congruence.
  - destruct (existsb _ filters) eqn:Hdup; cbn [snd].
    + split; [exact Hw|]. rewrite Hfile. exact Hf.
    + apply existsb_name_not_In in Hdup. destruct Hf as [Hnd Hne].
      split; [exact Hw|]. cbn [filtersFile set_filtersFile].
      rewrite map_app. cbn [map sf_Name]. split.
      * apply NoDup_app_remove_l with (l := []). cbn.
        apply Permutation_NoDup with (l := name :: map sf_Name filters).
        -- apply Permutation_cons_append.
        -- constructor; assumption.
      * rewrite in_app_iff. intros [H|[H|[]]]; [contradiction | cbn in H; congruence].
Qed.

(** X10. Presets saved from the dialog keep the file tidy: starting from no
    file, or from a file of presets with distinct non-empty names, any
    sequence of saves (refused or not) leaves a file of presets with distinct
    non-empty names, as long as writing the file does not fail. *)
Theorem X10_saved_names_stay_distinct (saves : list (string * QueryBuilderView)) :
  forall fs, tidy fs -> tidy (saveAll saves fs).
Proof.
  induction saves as [|[name v] rest IH]; intros fs Hfs; cbn [saveAll].
  - exact Hfs.
  - apply IH, saveFilter_tidy, Hfs.
Qed.


(** X12. A save does not stop at a preset file that cannot be read or
    decoded: where [loadSavedFilters] reports the error, [saveFilterToFile]
    drops it and writes a new file over the old one, which then holds the new
    preset alone (after what was decoded before the decoding error, if any). *)
Theorem X12_save_overwrites_an_undecodable_file
  (filter : SavedFilter) (fs : FileSystem) (home err : string)
  (decoded : list SavedFilter) :
  UserHomeDir fs = inl home -> MkdirAll fs = None -> WriteFile fs = None ->
  (filtersFile fs = Unreadable err /\ decoded = [] \/
   filtersFile fs = Garbled decoded err /\ ~ In (sf_Name filter) (map sf_Name decoded)) ->
  loadSavedFilters fs = inr err /\
  fst (saveFilterToFile filter fs) = None /\
  loadSavedFilters (snd (saveFilterToFile filter fs)) = inl (decoded ++ [filter]).
Proof.
  intros Hh Hm Hw Hfile. unfold loadSavedFilters, saveFilterToFile.
  rewrite Hh, Hm, Hw.
  destruct Hfile as [[-> ->] | [-> Hnew]].
  - cbn. rewrite Hh. auto.
  - destruct (existsb _ decoded) eqn:Hdup.
    + exfalso. apply Hnew. apply existsb_exists in Hdup.
      destruct Hdup as [f [Hin Heq]]. apply String.eqb_eq in Heq.
      rewrite <- Heq. apply in_map, Hin.
    + cbn. rewrite Hh. auto.
Qed.

(** * The age clause and 64-bit arithmetic *)

Lemma wrap64_small (z : Z) : - 2 ^ 63 <= z < 2 ^ 63 -> Go.wrap64 z = z.
Proof. intros Hz. unfold Go.wrap64. rewrite Z.mod_small; lia. Qed.

Lemma wrap64_period (z k : Z) : Go.wrap64 (z + k * 2 ^ 64) = Go.wrap64 z.
Proof.
  unfold Go.wrap64.
  replace (z + k * 2 ^ 64 + 2 ^ 63) with (z + 2 ^ 63 + k * 2 ^ 64) by ring.
  rewrite Z_mod_plus_full. reflexivity.
Qed.

Lemma Sscanf_d_empty : Go.Sscanf_d "" = None.
Proof. reflexivity. Qed.

Lemma Sscanf_d_not_empty (text : string) (n : Z) :
  Go.Sscanf_d text = Some n -> String.eqb text "" = false.
Proof.
  intros Hs. apply String.eqb_neq. intros ->.
  rewrite Sscanf_d_empty in Hs. discriminate.
Qed.

(** The unit of the age value in nanoseconds: minutes for ["m"], hours for
    every other unit. *)
Definition unitOf (v : QueryBuilderView) : Go.Duration :=
  if String.eqb (ageUnit v) "m" then Go.Minute else Go.Hour.

(** The number of age values after which the threshold [ageVal * unit]
    comes back to the same 64-bit value. *)
Definition agePeriod (v : QueryBuilderView) : Z :=
  if String.eqb (ageUnit v) "m" then 2 ^ 53 else 2 ^ 51.

Lemma compareAge_window (age n unit : Z) :
  unit = Go.Minute \/ unit = Go.Hour ->
  - 2 ^ 63 <= 11 * n * unit < 2 ^ 63 ->
  compareAge age "=" (Go.mul64 n unit) =
  (9 * n * unit <=? 10 * age) && (10 * age <=? 11 * n * unit).
Proof.
  intros Hu Hr.
  assert (Hten : exists u, unit = u * 10 /\ 0 < u).
  { destruct Hu as [-> | ->]; [exists 6000000000 | exists 360000000000];
      unfold Go.Hour, Go.Minute; lia. }
  destruct Hten as [u [-> Hu0]].
  unfold compareAge. cbn [String.eqb Ascii.eqb Bool.eqb].
  unfold Go.mul64, Go.div64.
  rewrite (wrap64_small (n * (u * 10))) by nia.
  rewrite (wrap64_small (n * (u * 10) * 9)) by nia.
  rewrite (wrap64_small (n * (u * 10) * 11)) by nia.
  replace (n * (u * 10) * 9) with (9 * n * u * 10) by ring.
  replace (n * (u * 10) * 11) with (11 * n * u * 10) by ring.
  rewrite !Z.quot_mul by lia.
  rewrite (wrap64_small (9 * n * u)) by nia.
  rewrite (wrap64_small (11 * n * u)) by nia.
  f_equal.
  - destruct (9 * n * u <=? age) eqn:E1; destruct (9 * n * (u * 10) <=? 10 * age) eqn:E2;
      try reflexivity; lia.
  - destruct (age <=? 11 * n * u) eqn:E1; destruct (10 * age <=? 11 * n * (u * 10)) eqn:E2;
      try reflexivity; lia.
Qed.

(** X13. The age comparator [=] is a window of ten per cent around the
    value: as long as eleven times the value does not overflow 64-bit
    nanoseconds, a stream passes the age clause exactly when its age lies
    between 0.9 and 1.1 times the value (in the chosen unit), and is rejected
    otherwise.  So a stream of exactly that age passes, and a negative value
    rejects every stream. *)
Theorem X13_age_equal_is_a_ten_percent_window
  (now : Go.Time) (v : QueryBuilderView) (stream : Stream) (n : Z) :
  ageOp v = "=" ->
  Go.Sscanf_d (ageValue v) = Some n ->
  - 2 ^ 63 <= 11 * n * unitOf v < 2 ^ 63 ->
  let age := Go.Since now (State_FirstTime (State stream)) in
  ageClause now v stream =
    (if (9 * n * unitOf v <=? 10 * age) && (10 * age <=? 11 * n * unitOf v)
     then Next else Return false) /\
  (0 <= n -> age = n * unitOf v -> ageClause now v stream = Next) /\
  (n < 0 -> ageClause now v stream = Return false).
Proof.
  intros Hop Hs Hr age.
  assert (Hc : ageClause now v stream =
               if (9 * n * unitOf v <=? 10 * age) && (10 * age <=? 11 * n * unitOf v)
               then Next else Return false).
  { unfold ageClause. rewrite Hop, Hs, (Sscanf_d_not_empty _ _ Hs).
    cbn [String.eqb Ascii.eqb Bool.eqb negb andb].
    fold age.
    replace (if String.eqb (ageUnit v) "m" then Go.mul64 n Go.Minute
             else Go.mul64 n Go.Hour) with (Go.mul64 n (unitOf v))
      by (unfold unitOf; destruct (String.eqb (ageUnit v) "m"); reflexivity).
    rewrite compareAge_window.
    - destruct ((9 * n * unitOf v <=? 10 * age) && (10 * age <=? 11 * n * unitOf v));
        reflexivity.
    - unfold unitOf. destruct (String.eqb (ageUnit v) "m"); auto.
    - exact Hr. }
  assert (Hu : 0 < unitOf v).
  { unfold unitOf, Go.Hour, Go.Minute. destruct (String.eqb (ageUnit v) "m"); lia. }
  split; [exact Hc|]. split.
  - intros Hn Hage. rewrite Hc.
    replace ((9 * n * unitOf v <=? 10 * age) && (10 * age <=? 11 * n * unitOf v))
      with true; [reflexivity|].
    symmetry. apply andb_true_iff. split; apply Z.leb_le; nia.
  - intros Hn. rewrite Hc.
    replace ((9 * n * unitOf v <=? 10 * age) && (10 * age <=? 11 * n * unitOf v))
      with false; [reflexivity|].
    symmetry. apply andb_false_iff.
    destruct (Z_le_gt_dec (9 * n * unitOf v) (10 * age)).
    + right. apply Z.leb_gt. nia.
    + left. apply Z.leb_gt. lia.
Qed.

Section Overflow.

Variable regexp_MatchString : string -> string -> option bool.

(** X14. The age threshold is computed in 64-bit nanoseconds and wraps
    around: two age values that differ by 2^51 hours (2^53 minutes) give the
    same threshold, so the filter matches the same streams with either. *)
Theorem X14_age_threshold_wraps_around
  (now : Go.Time) (v : QueryBuilderView) (stream : Stream) (text : string) (n : Z) :
  Go.Sscanf_d (ageValue v) = Some n ->
  Go.Sscanf_d text = Some (n + agePeriod v) ->
  matchesFilter regexp_MatchString now (set_ageValue text v) stream =
  matchesFilter regexp_MatchString now v stream.
Proof.
  intros Hs Ht. rewrite !matchesFilter_clauses.
  assert (Ha : ageClause now (set_ageValue text v) stream = ageClause now v stream).
  { unfold ageClause. cbn [ageOp ageValue ageUnit set_ageValue].
    rewrite Hs, Ht, (Sscanf_d_not_empty _ _ Hs), (Sscanf_d_not_empty _ _ Ht).
    unfold agePeriod, Go.mul64, Go.Hour, Go.Minute.
    destruct (String.eqb (ageUnit v) "m").
    - replace ((n + 2 ^ 53) * (60 * 1000000000))
        with (n * (60 * 1000000000) + 29296875 * 2 ^ 64) by lia.
      rewrite wrap64_period. reflexivity.
    - replace ((n + 2 ^ 51) * (60 * (60 * 1000000000)))
        with (n * (60 * (60 * 1000000000)) + 439453125 * 2 ^ 64) by lia.
      rewrite wrap64_period. reflexivity. }
  rewrite Ha. reflexivity.
Qed.

End Overflow.

(** * Contexts: the configuration, the context view and the switch *)

(** ** package config *)

Module config.

Record Context := {
  Name : string;
  Server : string;
  Token : string;
  Creds : string;
  MetricsPlugin : string
}.

(** [Config], as far as the user interface uses it.  [currentContext]
    points to an element of [Contexts]; no element is written once the
    configuration is loaded, so the pointer is modelled by the element. *)
Record Config := {
  Contexts : list Context;
  DefaultContext : string;
  RefreshInterval : string;
  currentContext : option Context
}.

Definition CurrentContext (c : Config) : Context :=
  match currentContext c with
  | Some ctx => ctx
  | None =>
      (* Return default context *)
      {| Name := "default"; Server := "nats://localhost:4222";
         Token := ""; Creds := ""; MetricsPlugin := "" |}
  end.

Definition CurrentContextName (c : Config) : string :=
  match currentContext c with
  | Some ctx => Name ctx
  | None => "unknown"
  end.

(** [SetContext]: the error ([None] for nil) and the configuration
    afterwards.  The loop stops at the first context of that name. *)
Definition SetContext (name : string) (c : Config) : option string * Config :=
  match find (fun ctx => String.eqb (Name ctx) name) (Contexts c) with
  | Some ctx =>
      (None,
       {| Contexts := Contexts c; DefaultContext := name;
          RefreshInterval := RefreshInterval c; currentContext := Some ctx |})
  | None => (Some ("context '" ++ name ++ "' not found")%string, c)
  end.

End config.

(** ** package strings *)

(** [strings.Contains(s, substr)]. *)
Fixpoint strings_Contains (s substr : string) : bool :=
  String.prefix substr s ||
  match s with
  | EmptyString => false
  | String _ rest => strings_Contains rest substr
  end.

(** ** The stream list and the context view *)

Record StreamListView := {
  allStreams : list Stream;
  streams : list Stream;
  filterText : string
}.

(** The user interface with its configuration and the stream list. *)
Record Session (World : Type) := {
  manager : UIManager World;
  cfg : config.Config;                     (* the field [config] *)
  streamListView : StreamListView
}.

Arguments manager {World}.
Arguments cfg {World}.
Arguments streamListView {World}.

Section Contexts.

Context {World : Type}.

(** The RPC client: listing the streams, closing the connection, and
    [nats.NewClient], which gives the server reached under a context or the
    error of connecting. *)
Variable ListStreams : World -> (list Stream + string) * World.
Variable Close : World -> World.
Variable NewClient : config.Context -> World + string.

(** [strings.ToLower]. *)
Variable strings_ToLower : string -> string.

Definition set_currentPage (page : string) (ui : UIManager World) : UIManager World :=
  {| client := client ui; readOnly := readOnly ui; currentPage := page;
     modal := modal ui; queryBuilderView := queryBuilderView ui; calls := calls ui |}.

Definition set_manager (ui : UIManager World) (s : Session World) : Session World :=
  {| manager := ui; cfg := cfg s; streamListView := streamListView s |}.

(** [StreamListView.applyFilter], up to the table it fills from [streams]. *)
Definition applyFilter (v : StreamListView) : StreamListView :=
  if String.eqb (filterText v) "" then
    {| allStreams := allStreams v; streams := allStreams v; filterText := filterText v |}
  else
    let filterLower := strings_ToLower (filterText v) in
    {| allStreams := allStreams v;
       streams := filter (fun stream =>
                          strings_Contains (strings_ToLower (Name stream)) filterLower)
                       (allStreams v);
       filterText := filterText v |}.

(** [StreamListView.Refresh]. *)
Definition StreamListView_Refresh (s : Session World) : Session World :=
  (* Fetch streams from NATS *)
  let ui := manager s in
  let '(result, w) := ListStreams (client ui) in
  match result with
  | inr err =>
      set_manager
        (ShowError ("Failed to list streams: " ++ err)%string
           (set_client w (calls ui ++ [Called ReqListStreams (Some err)]) ui)) s
  | inl listed =>
      {| manager := set_client w (calls ui ++ [Called ReqListStreams None]) ui;
         cfg := cfg s;
         streamListView :=
           applyFilter {| allStreams := listed;
                          streams := streams (streamListView s);
                          filterText := filterText (streamListView s) |} |}
  end.

(** [UIManager.ShowStreamList]. *)
Definition ShowStreamList (s : Session World) : Session World :=
  StreamListView_Refresh (set_manager (set_currentPage "streams" (manager s)) s).

(** [UIManager.SwitchContext]: the error and the session afterwards.  The
    header, which [updateHeader] rewrites at the end, is not part of the
    session. *)
Definition SwitchContext (contextName : string) (s : Session World)
  : option string * Session World :=
  (* Set the context in config *)
  match config.SetContext contextName (cfg s) with
  | (Some err, _) => (Some err, s)
  | (None, c) =>
      (* Close old connection *)
      let ui := set_client (Close (client (manager s))) (calls (manager s)) (manager s) in
      (* Create new client with new context *)
      match NewClient (config.CurrentContext c) with
      | inr err =>
          (Some ("failed to connect to new context: " ++ err)%string,
           {| manager := ui; cfg := c; streamListView := streamListView s |})
      | inl newClient =>
          (None,
           {| manager := set_client newClient (calls ui) ui; cfg := c;
              streamListView := streamListView s |})
      end
  end.

(** [ContextView.onEnter] with the table selection at [row]. *)
Definition onEnter (row : Z) (s : Session World) : Session World :=
  if (0 <? row) && (row <=? Z.of_nat (List.length (config.Contexts (cfg s)))) then
    match nth_error (config.Contexts (cfg s)) (Z.to_nat (row - 1)) with
    | None => s (* not reached: the index is in range *)
    | Some ctx =>
        (* Switch to selected context *)
        match SwitchContext (config.Name ctx) s with
        | (Some err, s) =>
            set_manager (ShowError ("Failed to switch context: " ++ err)%string (manager s)) s
        | (None, s) =>
            (* Navigate to stream list *)
            ShowStreamList s
        end
    end
  else s.

(** The rows [ContextView.Refresh] puts under the header: the name with its
    marker, and the server. *)
Definition ContextView_Refresh (s : Session World) : list (string * string) :=
  let currentCtx := config.CurrentContextName (cfg s) in
  map (fun ctx =>
         ((if String.eqb (config.Name ctx) currentCtx then "> " else "  ")
            ++ config.Name ctx,
          config.Server ctx)%string)
      (config.Contexts (cfg s)).

(** The first context of a name. *)
Definition firstNamed (name : string) (contexts : list config.Context)
  : option config.Context :=
  find (fun ctx => String.eqb (config.Name ctx) name) contexts.

Lemma firstNamed_In (ctx : config.Context) (contexts : list config.Context) :
  In ctx contexts ->
  exists first, firstNamed (config.Name ctx) contexts = Some first /\
                config.Name first = config.Name ctx /\ In first contexts.
Proof.
  induction contexts as [|c rest IH]; [intros []|].
  intros Hin. cbn [firstNamed find].
  destruct (String.eqb (config.Name c) (config.Name ctx)) eqn:Hc.
  - exists c. apply String.eqb_eq in Hc. repeat split; [exact Hc | left; reflexivity].
  - destruct Hin as [-> | Hin]; [rewrite String.eqb_refl in Hc; discriminate|].
    destruct (IH Hin) as [first [Hf [Hn Hi]]].
    exists first. repeat split; [exact Hf | exact Hn | right; exact Hi].
Qed.

Lemma firstNamed_NoDup (ctx : config.Context) (contexts : list config.Context) :
  NoDup (map config.Name contexts) -> In ctx contexts ->
  firstNamed (config.Name ctx) contexts = Some ctx.
Proof.
  induction contexts as [|c rest IH]; [intros _ []|].
  cbn [map]. intros Hnd Hin. inversion Hnd as [|? ? Hnotin Hrest]; subst.
  cbn [firstNamed find].
  destruct (String.eqb (config.Name c) (config.Name ctx)) eqn:Hc.
  - apply String.eqb_eq in Hc. destruct Hin as [-> | Hin]; [reflexivity|].
    exfalso. apply Hnotin. rewrite Hc. apply in_map, Hin.
  - destruct Hin as [-> | Hin]; [rewrite String.eqb_refl in Hc; discriminate|].
    apply IH; assumption.
Qed.

Lemma selected_row (row : Z) (contexts : list config.Context) :
  0 < row <= Z.of_nat (List.length contexts) ->
  exists ctx, nth_error contexts (Z.to_nat (row - 1)) = Some ctx /\ In ctx contexts.
Proof.
  intros Hrow.
  destruct (nth_error contexts (Z.to_nat (row - 1))) as [ctx|] eqn:Hn.
  - exists ctx. split; [reflexivity|]. apply (nth_error_In _ _ Hn).
  - apply nth_error_None in Hn. lia.
Qed.

(** X15. Enter on the header row, or on a row beyond the contexts, does
    nothing.  Enter on the row of a context never ends in the error
    [context not found]: the configuration is switched to the first context of
    the selected name, which is the selected context itself when the names are
    distinct, and its list of contexts is left as it was. *)
Theorem X15_enter_switches_to_the_first_context_of_the_name
  (row : Z) (s : Session World) :
  let contexts := config.Contexts (cfg s) in
  (row <= 0 \/ Z.of_nat (List.length contexts) < row -> onEnter row s = s) /\
  (0 < row <= Z.of_nat (List.length contexts) ->
   exists ctx first,
     nth_error contexts (Z.to_nat (row - 1)) = Some ctx /\
     firstNamed (config.Name ctx) contexts = Some first /\
     config.currentContext (cfg (onEnter row s)) = Some first /\
     config.CurrentContextName (cfg (onEnter row s)) = config.Name ctx /\
     config.DefaultContext (cfg (onEnter row s)) = config.Name ctx /\
     config.Contexts (cfg (onEnter row s)) = contexts /\
     (NoDup (map config.Name contexts) -> first = ctx)).
Proof.
  cbn zeta. split.
  - intros Hout. unfold onEnter.
    replace ((0 <? row) && (row <=? Z.of_nat (List.length (config.Contexts (cfg s)))))
      with false; [reflexivity|].
    symmetry. apply andb_false_iff. destruct Hout; [left | right]; lia.
  - intros Hrow. destruct (selected_row _ _ Hrow) as [ctx [Hn Hin]].
    destruct (firstNamed_In _ _ Hin) as [first [Hf [Hname Hfin]]].
    exists ctx, first. unfold onEnter.
    replace ((0 <? row) && (row <=? Z.of_nat (List.length (config.Contexts (cfg s)))))
      with true by (symmetry; apply andb_true_iff; lia).
    rewrite Hn. unfold SwitchContext, config.SetContext.
    unfold firstNamed in Hf. rewrite Hf.
    assert (Hnd : NoDup (map config.Name (config.Contexts (cfg s))) -> first = ctx).
    { intros Hnd. pose proof (firstNamed_NoDup _ _ Hnd Hin) as Hc.
      unfold firstNamed in Hc. congruence. }
    destruct (NewClient _) as [w|err].
    + unfold ShowStreamList, StreamListView_Refresh.
      cbn [manager set_manager client set_client set_currentPage cfg].
      destruct (ListStreams w) as [[l|err] w'];
        cbn; rewrite ?Hname; repeat split; auto.
    + cbn; rewrite ?Hname; repeat split; auto.
Qed.

(** X16. When connecting to the selected context fails, the session is
    left half switched: the configuration already names the new context, the
    client is the old one, closed, no request has been sent, an error dialog
    reports the failure, and the page and the stream list are as before. *)
Theorem X16_failed_connection_leaves_the_old_client_closed
  (row : Z) (s : Session World) (ctx first : config.Context) (err : string) :
  0 < row <= Z.of_nat (List.length (config.Contexts (cfg s))) ->
  nth_error (config.Contexts (cfg s)) (Z.to_nat (row - 1)) = Some ctx ->
  firstNamed (config.Name ctx) (config.Contexts (cfg s)) = Some first ->
  NewClient first = inr err ->
  let s' := onEnter row s in
  config.CurrentContextName (cfg s') = config.Name ctx /\
  client (manager s') = Close (client (manager s)) /\
  calls (manager s') = calls (manager s) /\
  modal (manager s') =
    Some (ErrorModal ("Failed to switch context: failed to connect to new context: "
                        ++ err)) /\
  currentPage (manager s') = currentPage (manager s) /\
  streamListView s' = streamListView s.
Proof.
  intros Hrow Hn Hf Hc. cbn zeta. unfold onEnter.
  replace ((0 <? row) && (row <=? Z.of_nat (List.length (config.Contexts (cfg s)))))
    with true by (symmetry; apply andb_true_iff; lia).
  rewrite Hn. unfold SwitchContext, config.SetContext.
  unfold firstNamed in Hf. rewrite Hf.
  cbn [config.CurrentContext config.currentContext]. rewrite Hc.
  apply find_some in Hf. destruct Hf as [_ Hname]. apply String.eqb_eq in Hname.
  cbn. rewrite Hname. repeat split; reflexivity.
Qed.

(** X17. When the names of the contexts are distinct and the connection
    succeeds, Enter on a row makes that row's context the current one, the
    context table then marks that row and no other, the page is the stream
    list, and the streams listed are those of the new server. *)
Theorem X17_enter_selects_the_row_and_lists_the_new_server
  (row : Z) (s : Session World) (ctx : config.Context) (w w' : World)
  (listed : list Stream) :
  NoDup (map config.Name (config.Contexts (cfg s))) ->
  0 < row <= Z.of_nat (List.length (config.Contexts (cfg s))) ->
  nth_error (config.Contexts (cfg s)) (Z.to_nat (row - 1)) = Some ctx ->
  NewClient ctx = inl w ->
  ListStreams w = (inl listed, w') ->
  let s' := onEnter row s in
  config.CurrentContext (cfg s') = ctx /\
  (forall i other,
      nth_error (config.Contexts (cfg s)) i = Some other ->
      nth_error (ContextView_Refresh s') i =
        Some ((if Nat.eqb i (Z.to_nat (row - 1)) then "> " else "  ")
                ++ config.Name other, config.Server other)%string) /\
  currentPage (manager s') = "streams" /\
  client (manager s') = w' /\
  modal (manager s') = modal (manager s) /\
  allStreams (streamListView s') = listed /\
  (filterText (streamListView s) = "" -> streams (streamListView s') = listed).
Proof.
  intros Hnd Hrow Hn Hc Hl. cbn zeta.
  assert (Hin : In ctx (config.Contexts (cfg s))) by apply (nth_error_In _ _ Hn).
  pose proof (firstNamed_NoDup _ _ Hnd Hin) as Hf. unfold firstNamed in Hf.
  assert (Hs : onEnter row s =
               {| manager :=
                    set_client w' (calls (manager s) ++ [Called ReqListStreams None])
                      (set_currentPage "streams" (manager s));
                  cfg := {| config.Contexts := config.Contexts (cfg s);
                            config.DefaultContext := config.Name ctx;
                            config.RefreshInterval := config.RefreshInterval (cfg s);
                            config.currentContext := Some ctx |};
                  streamListView :=
                    applyFilter {| allStreams := listed;
                                   streams := streams (streamListView s);
                                   filterText := filterText (streamListView s) |} |}).
  { unfold onEnter.
    replace ((0 <? row) && (row <=? Z.of_nat (List.length (config.Contexts (cfg s)))))
      with true by (symmetry; apply andb_true_iff; lia).
    rewrite Hn. unfold SwitchContext, config.SetContext. rewrite Hf.
    cbn [config.CurrentContext config.currentContext]. rewrite Hc.
    unfold ShowStreamList, StreamListView_Refresh.
    cbn [manager set_manager client set_client set_currentPage cfg streamListView calls].
    rewrite Hl. reflexivity. }
  rewrite Hs. cbn [manager cfg streamListView]. split; [reflexivity|]. split.
  - intros i other Hi. unfold ContextView_Refresh.
    cbn [cfg config.Contexts config.CurrentContextName config.currentContext].
    rewrite nth_error_map, Hi. cbn [option_map]. do 2 f_equal.
    destruct (Nat.eqb i (Z.to_nat (row - 1))) eqn:Hrowi.
    + apply Nat.eqb_eq in Hrowi. subst i.
      assert (other = ctx) by congruence. subst other.
      rewrite String.eqb_refl. reflexivity.
    + apply Nat.eqb_neq in Hrowi.
      destruct (String.eqb (config.Name other) (config.Name ctx)) eqn:Hname;
        [|reflexivity].
      apply String.eqb_eq in Hname. exfalso. apply Hrowi.
      assert (Hlen : (i < List.length (map config.Name (config.Contexts (cfg s))))%nat).
      { rewrite length_map. apply nth_error_Some. congruence. }
      apply (proj1 (NoDup_nth_error _) Hnd i (Z.to_nat (row - 1)) Hlen).
      rewrite !nth_error_map, Hi, Hn. cbn. congruence.
  - cbn. repeat split; auto.
    + unfold applyFilter. cbn [filterText allStreams].
      destruct (String.eqb (filterText (streamListView s)) ""); reflexivity.
    + intros Hempty. unfold applyFilter. cbn [filterText allStreams].
      rewrite Hempty. reflexivity.
Qed.

(** The stream list shows, in the order of the listing, exactly the
    listed streams whose lower-cased name contains the lower-cased search
    text; an empty search text shows every stream, and filtering again changes
    nothing. *)
Lemma applyFilter_shown (v : StreamListView) :
  (forall stream,
      In stream (streams (applyFilter v)) <->
      In stream (allStreams v) /\
      (filterText v = "" \/
       strings_Contains (strings_ToLower (Name stream))
                        (strings_ToLower (filterText v)) = true)) /\
  (exists keep, streams (applyFilter v) = filter keep (allStreams v)) /\
  (filterText v = "" -> streams (applyFilter v) = allStreams v) /\
  applyFilter (applyFilter v) = applyFilter v.
Proof.
  unfold applyFilter.
  destruct (String.eqb (filterText v) "") eqn:Hf; cbn [streams allStreams filterText].
  - apply String.eqb_eq in Hf. rewrite Hf. cbn [String.eqb].
    repeat split; try tauto.
    + exists (fun _ => true). clear. induction (allStreams v) as [|x l IH];
        [reflexivity | cbn; f_equal; exact IH].
  - pose proof Hf as Hne. apply String.eqb_neq in Hne. rewrite Hf.
    split; [|split; [|split]].
    + intros stream. rewrite filter_In. split.
      * intros [Hin Hc]. auto.
      * intros [Hin [He | Hc]]; [contradiction | auto].
    + eexists. reflexivity.
    + intros He. contradiction.
    + reflexivity.
Qed.

End Contexts.

(** * The properties on the simulated server *)

Module Scenario.

(** A server that has stopped answering: the channel of infos is closed
    before anything is delivered. *)
Definition stopped (w : Sim.Server) : list StreamInfo * Sim.Server := ([], w).

(** Preview, delete all and confirm, purge all and confirm. *)
Definition session : list ((nat -> Go.Time) * Event) :=
  [(Sim.clockAt 0, PreviewPressed);
   (Sim.clockAt 0, BulkPressed Delete);
   (Sim.clockAt 0, ConfirmButton "[ Yes ]");
   (Sim.clockAt 0, PreviewSelected 0 2);
   (Sim.clockAt 0, BulkPressed Purge);
   (Sim.clockAt 0, ConfirmButton "[ Yes ]")].

(** The query builder after a first preview of the three streams. *)
Definition previewed : UIManager Sim.Server :=
  previewMatches Go.fragmentMatchString Sim.ListStreams (Sim.clockAt 0) Sim.ui0.

(** A home directory whose preset file cannot be read. *)
Definition lockedDisk : FileSystem :=
  {| UserHomeDir := inl "/home/operator"; MkdirAll := None;
     filtersFile := Unreadable "permission denied"; WriteFile := None |}.

(** Age [= 2] hours. *)
Definition twoHoursOld : QueryBuilderView :=
  set_ageValue "2" (set_ageOp "=" NewQueryBuilderView).

(** Age [> 1] hour. *)
Definition olderThanAnHour : QueryBuilderView :=
  set_ageValue "1" (set_ageOp ">" NewQueryBuilderView).

Definition dev : config.Context :=
  {| config.Name := "dev"; config.Server := "nats://dev:4222";
     config.Token := ""; config.Creds := ""; config.MetricsPlugin := "" |}.

Definition prod : config.Context :=
  {| config.Name := "prod"; config.Server := "nats://prod:4222";
     config.Token := ""; config.Creds := ""; config.MetricsPlugin := "" |}.

(** Only the server of [dev] answers. *)
Definition reach (ctx : config.Context) : Sim.Server + string :=
  if String.eqb (config.Server ctx) "nats://dev:4222" then inl Sim.server
  else inr "nats: no servers available for connection".

(** Closing the connection leaves the server as it is. *)
Definition hangUp (w : Sim.Server) : Sim.Server := w.

(** The names of the sample streams are in lower case. *)
Definition lowerCase (s : string) : string := s.

(** The context view on two contexts, none of them current, before any
    stream is listed. *)
Definition contexts : Session Sim.Server :=
  {| manager := Sim.ui0;
     cfg := {| config.Contexts := [dev; prod]; config.DefaultContext := "";
               config.RefreshInterval := "2s"; config.currentContext := None |};
     streamListView := {| allStreams := []; streams := []; filterText := "" |} |}.

End Scenario.

(** X1 on the sample session in read-only mode: no delete or purge
    request is sent. *)
Lemma X1_read_only_session_sends_nothing :
  mutations
    (calls (run Go.fragmentMatchString Sim.noLargeSlices Sim.ListStreams
              Sim.DeleteStream Sim.PurgeStream Scenario.session
              (Sim.start Sim.server true NewQueryBuilderView))) = [].
Proof.
  exact (X1_read_only_never_sends_a_mutation Go.fragmentMatchString Sim.noLargeSlices
           Sim.ListStreams Sim.DeleteStream Sim.PurgeStream Scenario.session
           (Sim.start Sim.server true NewQueryBuilderView) eq_refl eq_refl).
Defined.

(** X2 on the button Delete All after a preview: the request for
    confirmation sends nothing. *)
Lemma X2_delete_all_waits_for_the_confirmation :
  mutations
    (calls (handle Go.fragmentMatchString Sim.noLargeSlices Sim.ListStreams
              Sim.DeleteStream Sim.PurgeStream (Sim.clockAt 0) (BulkPressed Delete)
              Scenario.previewed)) = [].
Proof.
  apply (X2_only_a_confirmed_action_mutates Go.fragmentMatchString Sim.noLargeSlices
           Sim.ListStreams Sim.DeleteStream Sim.PurgeStream (Sim.clockAt 0)
           (BulkPressed Delete) Scenario.previewed).
  left. discriminate.
Defined.

(** X3 after a preview of the three streams: Delete All and then No. *)
Lemma X3_delete_all_then_no :
  confirmDone Go.fragmentMatchString Sim.ListStreams Sim.DeleteStream Sim.PurgeStream
    (Sim.clockAt 0) "[ No ]" (requestBulk Delete Scenario.previewed)
  = Scenario.previewed.
Proof.
  apply (X3_cancel_restores_the_ui Go.fragmentMatchString Sim.ListStreams
           Sim.DeleteStream Sim.PurgeStream (Sim.clockAt 0) Delete Scenario.previewed).
  - reflexivity.
  - vm_compute. discriminate.
  - reflexivity.
Defined.

(** X4 on the sample session. *)
Lemma X4_table_after_the_sample_session :
  tableShowsMatched
    (run Go.fragmentMatchString Sim.noLargeSlices Sim.ListStreams
       Sim.DeleteStream Sim.PurgeStream Scenario.session Sim.ui0).
Proof.
  apply (X4_table_always_shows_the_matched_set Go.fragmentMatchString
           Sim.noLargeSlices Sim.ListStreams Sim.DeleteStream Sim.PurgeStream
           Scenario.session Sim.ui0).
  reflexivity.
Defined.

(** X5 when the server stops answering after a first preview of the three
    streams: no error is shown, the matched set is emptied, and Delete All is
    rejected. *)
Lemma X5_preview_of_a_stopped_server :
  let ui' := previewMatches Go.fragmentMatchString
               (Client_ListStreams Scenario.stopped) (Sim.clockAt 0)
               Scenario.previewed in
  map Name (matchedStreams (queryBuilderView Scenario.previewed))
    = ["orders"; "audit"; "events"] /\
  modal ui' = None /\
  matchedStreams (queryBuilderView ui') = [] /\
  statusText (queryBuilderView ui') = StatusPrompt /\
  rejected (requestBulk Delete ui') = true.
Proof.
  intros ui'.
  destruct (X5_preview_never_reports_a_listing_error Go.fragmentMatchString
              Scenario.stopped (Sim.clockAt 0) Scenario.previewed)
    as (_ & Hmodal & _ & _ & _ & Hnone).
  destruct (Hnone eq_refl) as (Hmatched & Hstatus & Hrejected).
  split; [reflexivity|]. split; [exact Hmodal|]. split; [exact Hmatched|].
  split; [exact Hstatus | exact (Hrejected Delete)].
Defined.

(** X6 after a preview with the pattern [order-*]: Clear Filter, then a
    preview lists the three streams again. *)
Lemma X6_clear_after_a_narrow_preview :
  let narrow := handle Go.fragmentMatchString Sim.noLargeSlices Sim.ListStreams
                  Sim.DeleteStream Sim.PurgeStream (Sim.clockAt 0)
                  (FormChanged (NamePatternChanged "order-*")) Sim.ui0 in
  let ui := previewMatches Go.fragmentMatchString Sim.ListStreams (Sim.clockAt 0) narrow in
  let cleared := clearFilter ui in
  rejected (requestBulk Purge cleared) = true /\
  matchedStreams
    (queryBuilderView
       (previewMatches Go.fragmentMatchString Sim.ListStreams (Sim.clockAt 0) cleared))
  = Sim.streams Sim.server.
Proof.
  intros narrow ui cleared.
  destruct (X6_clear_filter_starts_over Go.fragmentMatchString Sim.ListStreams
              (Sim.clockAt 0) Purge (Sim.streams Sim.server) Sim.server ui eq_refl)
    as (_ & _ & Hrejected & Hall).
  split; [exact Hrejected | exact Hall].
Defined.

(** X7 on the three sample streams and the header of the names. *)
Lemma X7_name_header_twice :
  let v := set_sortColumn 2 (set_matchedStreams (Sim.streams Sim.server)
                               NewQueryBuilderView) in
  let first := previewSelected Sim.noLargeSlices 0 0 v in
  let second := previewSelected Sim.noLargeSlices 0 0 first in
  map Name (matchedStreams v) = ["orders"; "audit"; "events"] /\
  map Name (matchedStreams first) = ["audit"; "events"; "orders"] /\
  KeyOrdered 0 true (matchedStreams first) /\
  matchedStreams second = rev (matchedStreams first).
Proof.
  intros v first second.
  assert (Hlen : (List.length (matchedStreams v) <= Go.maxInsertion)%nat)
    by (vm_compute; lia).
  assert (Hname : isColumn 0) by (unfold isColumn; lia).
  assert (Hcolumn : sortColumn v <> 0) by (vm_compute; discriminate).
  destruct (X7_header_sorts_then_reverses Sim.noLargeSlices 0 v Hlen Hname Hcolumn)
    as (_ & _ & Hkeys & _ & Hrev & _).
  split; [reflexivity|]. split; [reflexivity|].
  split; [exact Hkeys | exact Hrev].
Defined.

(** X9 on a form with age [> 24] hours and the consumer comparator [=]
    without a value: after the load the age value is back, the consumer value
    is 0, and both comparators are "any". *)
Lemma X9_consumer_equal_without_value_comes_back_as_zero :
  let v := set_consumerOp "=" (set_ageValue "24" (set_ageOp ">" NewQueryBuilderView)) in
  let v' := queryBuilderView
              (loadFilter Go.fragmentMatchString Sim.ListStreams
                 (filterOfForm "day" v) (Sim.clockAt 0) Sim.ui0) in
  Go.Sscanf_d (ageValue v') = Some 24 /\
  consumerValue v = "" /\
  Go.Sscanf_d (consumerValue v') = Some 0 /\
  ageOp v' = "any" /\ consumerOp v' = "any".
Proof.
  intros v v'.
  destruct (X9_values_after_save_and_load Go.fragmentMatchString Sim.ListStreams
              "day" v (Sim.clockAt 0) Sim.ui0)
    as (_ & (HageOp & _ & HconsumerOp & _) & Hage & _ & _ & _ & Hconsumer & _).
  fold v' in Hage, Hconsumer, HageOp, HconsumerOp.
  split; [apply Hage; reflexivity|]. split; [reflexivity|].
  split; [apply Hconsumer; reflexivity|].
  split; [exact HageOp | exact HconsumerOp].
Defined.

(** X10 on the sample disk: a duplicate, an empty name and a new name. *)
Lemma X10_three_saves_on_the_sample_disk :
  tidy (saveAll [("big", NewQueryBuilderView); ("", NewQueryBuilderView);
                 ("small", NewQueryBuilderView)] Sim.disk).
Proof.
  apply (X10_saved_names_stay_distinct
           [("big", NewQueryBuilderView); ("", NewQueryBuilderView);
            ("small", NewQueryBuilderView)] Sim.disk).
  split; [reflexivity|]. cbn. split.
  - constructor; [intros [] | constructor].
  - intros [H | []]. discriminate.
Defined.


(** X12 on a preset file that cannot be read: loading reports the error,
    saving writes a file with the one preset. *)
Lemma X12_save_on_an_unreadable_file :
  loadSavedFilters Scenario.lockedDisk = inr "permission denied" /\
  loadSavedFilters (snd (saveFilterToFile (Sim.preset "small" "a*") Scenario.lockedDisk))
  = inl [Sim.preset "small" "a*"].
Proof.
  destruct (X12_save_overwrites_an_undecodable_file (Sim.preset "small" "a*")
              Scenario.lockedDisk "/home/operator" "permission denied" []
              eq_refl eq_refl eq_refl (or_introl (conj eq_refl eq_refl)))
    as (Hload & _ & Hsaved).
  split; [exact Hload | exact Hsaved].
Defined.

(** X13 on age [= 2] hours: a stream of two hours passes, a stream of three
    hours is rejected. *)
Lemma X13_two_hours_old :
  ageClause (2 * Go.Hour) Scenario.twoHoursOld Sim.orders = Next /\
  ageClause (3 * Go.Hour) Scenario.twoHoursOld Sim.orders = Return false.
Proof.
  assert (Hrange : - 2 ^ 63 <= 11 * 2 * unitOf Scenario.twoHoursOld < 2 ^ 63)
    by (vm_compute; split; [discriminate | reflexivity]).
  split.
  - destruct (X13_age_equal_is_a_ten_percent_window (2 * Go.Hour) Scenario.twoHoursOld
                Sim.orders 2 eq_refl eq_refl Hrange) as (_ & Hexact & _).
    apply Hexact; [lia | reflexivity].
  - destruct (X13_age_equal_is_a_ten_percent_window (3 * Go.Hour) Scenario.twoHoursOld
                Sim.orders 2 eq_refl eq_refl Hrange) as (Hwindow & _).
    rewrite Hwindow. reflexivity.
Defined.

(** X14 on age [> 1] hour and age [> 2251799813685249] hours. *)
Lemma X14_one_hour_and_two_to_the_51_more :
  matchesFilter Go.fragmentMatchString Sim.twoHours
    (set_ageValue "2251799813685249" Scenario.olderThanAnHour) Sim.orders
  = matchesFilter Go.fragmentMatchString Sim.twoHours Scenario.olderThanAnHour Sim.orders.
Proof.
  exact (X14_age_threshold_wraps_around Go.fragmentMatchString Sim.twoHours
           Scenario.olderThanAnHour Sim.orders "2251799813685249" 1 eq_refl eq_refl).
Defined.

(** X16 on Enter on the row of [prod], whose server does not answer. *)
Lemma X16_prod_does_not_answer :
  let s' := onEnter Sim.ListStreams Scenario.hangUp Scenario.reach Scenario.lowerCase
              2 Scenario.contexts in
  config.CurrentContextName (cfg s') = "prod" /\
  modal (manager s') =
    Some (ErrorModal ("Failed to switch context: failed to connect to new context: "
                        ++ "nats: no servers available for connection")) /\
  currentPage (manager s') = "query-builder".
Proof.
  intros s'.
  destruct (X16_failed_connection_leaves_the_old_client_closed Sim.ListStreams
              Scenario.hangUp Scenario.reach Scenario.lowerCase 2 Scenario.contexts
              Scenario.prod Scenario.prod "nats: no servers available for connection")
    as (Hname & _ & _ & Hmodal & Hpage & _);
    try reflexivity; [cbn; lia|].
  split; [exact Hname|]. split; [exact Hmodal | exact Hpage].
Defined.

(** X17 on Enter on the row of [dev]. *)
Lemma X17_dev_is_selected :
  let s' := onEnter Sim.ListStreams Scenario.hangUp Scenario.reach Scenario.lowerCase
              1 Scenario.contexts in
  ContextView_Refresh s' = [("> dev", "nats://dev:4222"); ("  prod", "nats://prod:4222")] /\
  config.CurrentContext (cfg s') = Scenario.dev /\
  streams (streamListView s') = Sim.streams Sim.server.
Proof.
  intros s'.
  destruct (X17_enter_selects_the_row_and_lists_the_new_server Sim.ListStreams
              Scenario.hangUp Scenario.reach Scenario.lowerCase 1 Scenario.contexts
              Scenario.dev Sim.server Sim.server (Sim.streams Sim.server))
    as (Hcurrent & _ & _ & _ & _ & _ & Hshown);
    try reflexivity.
  - cbn. constructor; [intros [H | []]; discriminate|].
    constructor; [intros [] | constructor].
  - cbn. lia.
  - split; [reflexivity|]. split; [exact Hcurrent | exact (Hshown eq_refl)].
Defined.

(** * From the preview to the requests *)

Section EndToEnd.

Variable regexp_MatchString : string -> string -> option bool.
Variable pdqsort_large : (Stream -> Stream -> bool) -> list Stream -> list Stream.
Context {World : Type}.
Variable ListStreams : World -> (list Stream + string) * World.
Variable DeleteStream : string -> World -> option string * World.
Variable PurgeStream : string -> World -> option string * World.

(** The status line tells the size of the matched set. *)
Definition statusCounts (ui : UIManager World) : Prop :=
  statusText (queryBuilderView ui) =
  match matchedStreams (queryBuilderView ui) with
  | [] => StatusPrompt
  | matched => StatusCount (List.length matched)
  end.

Lemma logged_requests (action : BulkAction) (names : list string) :
  forall errs, List.length errs = List.length names ->
  map callRequest (mutations (logged (requestOf action) names errs)) =
  map (requestOf action) names.
Proof.
  unfold logged, mutations.
  induction names as [|name names IH]; intros [|err errs] Hlen;
    try discriminate; [reflexivity|].
  cbn [combine map filter fst snd].
  replace (isMutation (Called (requestOf action name) err)) with true
    by (destruct action; reflexivity).
  cbn [map callRequest]. f_equal. apply IH. cbn in Hlen. congruence.
Qed.

Lemma executed_requests (action : BulkAction) (ui : UIManager World) :
  map callRequest (mutations (calls (executed DeleteStream PurgeStream action ui))) =
  map callRequest (mutations (calls ui)) ++
  map (fun s => requestOf action (Name s)) (matchedStreams (queryBuilderView ui)).
Proof.
  destruct (executed_outcome DeleteStream PurgeStream action ui) as (errs & Hruns & ->).
  cbn [calls ShowModal set_modal set_client].
  rewrite mutations_app, map_app. f_equal.
  rewrite (logged_requests action _ errs (Runs_length _ _ _ _ _ Hruns)).
  apply map_map.
Qed.

(** X18. Preview, then Delete All (or Purge All), then Yes, outside
    read-only mode and on a server that lists its streams: the delete (purge)
    requests sent are one for each stream of the listing that matches the
    filter when tested, in the order of the listing, and no other, whether or
    not requests fail. *)
Theorem X18_the_requests_are_the_previewed_matches
  (clock1 clock2 clock3 : nat -> Go.Time) (action : BulkAction)
  (snapshot : list Stream) (w : World) (ui : UIManager World) :
  readOnly ui = false ->
  ListStreams (client ui) = (inl snapshot, w) ->
  let matched := filterStreams regexp_MatchString clock1 (queryBuilderView ui) snapshot in
  let final := run regexp_MatchString pdqsort_large ListStreams DeleteStream PurgeStream
                 [(clock1, PreviewPressed); (clock2, BulkPressed action);
                  (clock3, ConfirmButton "[ Yes ]")] ui in
  map callRequest (mutations (calls final)) =
  map callRequest (mutations (calls ui)) ++
  map (fun s => requestOf action (Name s)) matched.
Proof.
  intros Hro Hl matched final. subst final. cbn [run handle].
  set (ui1 := previewMatches regexp_MatchString ListStreams clock1 ui).
  assert (H1 : matchedStreams (queryBuilderView ui1) = matched /\
               readOnly ui1 = false /\
               mutations (calls ui1) = mutations (calls ui)).
  { subst ui1. unfold previewMatches. rewrite Hl. cbn.
    rewrite mutations_app, app_nil_r. repeat split; [|exact Hro].
    unfold updateStatus. destruct (Nat.eqb _ 0); reflexivity. }
  destruct H1 as (Hm & Hro1 & Hcalls). clearbody ui1. clear Hl.
  destruct matched as [|s rest] eqn:Hmatched.
  - destruct (requestBulk_guarded action ui1 (or_introl Hm)) as [message ->].
    unfold confirmDone. cbn [modal ShowError ShowModal set_modal calls map].
    rewrite Hcalls, app_nil_r. reflexivity.
  - assert (Hbulk : requestBulk action ui1 =
                    ShowModal (ConfirmModal action (List.length (s :: rest))
                                 (confirmLines (s :: rest))) ui1).
    { destruct action; cbn [requestBulk]; unfold deleteMatched, purgeMatched;
        rewrite Hm, Hro1; reflexivity. }
    rewrite Hbulk.
    set (ui2 := CloseModal (ShowModal (ConfirmModal action (List.length (s :: rest))
                                         (confirmLines (s :: rest))) ui1)).
    assert (Hdone : confirmDone regexp_MatchString ListStreams DeleteStream PurgeStream
                      clock3 "[ Yes ]"
                      (ShowModal (ConfirmModal action (List.length (s :: rest))
                                    (confirmLines (s :: rest))) ui1) =
                    match action with
                    | Delete => performBulkDelete DeleteStream ui2
                    | Purge =>
                        performBulkPurge regexp_MatchString ListStreams PurgeStream
                          clock3 ui2
                    end) by reflexivity.
    rewrite Hdone. clear Hdone.
    assert (H2 : matchedStreams (queryBuilderView ui2) = s :: rest /\
                 calls ui2 = calls ui1) by (split; [exact Hm | reflexivity]).
    destruct H2 as (Hm2 & Hcalls2). clearbody ui2.
    destruct action.
    + pose proof (executed_requests Delete ui2) as He. cbn [executed] in He.
      rewrite He, Hm2, Hcalls2, Hcalls. reflexivity.
    + unfold performBulkPurge.
      pose proof (previewMatches_frame regexp_MatchString ListStreams clock3
                    (performBulkPurge_result PurgeStream ui2)) as Hp.
      cbn zeta in Hp. destruct Hp as (-> & _).
      pose proof (executed_requests Purge ui2) as He. cbn [executed] in He.
      rewrite He, Hm2, Hcalls2, Hcalls. reflexivity.
Qed.

Lemma Slice_length (less : Stream -> Stream -> bool) (data : list Stream) :
  (forall less data, List.length (pdqsort_large less data) = List.length data) ->
  List.length (Go.Slice less pdqsort_large data) = List.length data.
Proof.
  intros Hlarge. unfold Go.Slice. destruct (_ <=? _)%nat.
  - apply Permutation_length, insertionSort_Permutation.
  - apply Hlarge.
Qed.

Lemma sortPreview_statusCounts (v : QueryBuilderView) :
  (forall less data, List.length (pdqsort_large less data) = List.length data) ->
  statusText (sortPreview pdqsort_large v) = statusText v /\
  List.length (matchedStreams (sortPreview pdqsort_large v)) =
    List.length (matchedStreams v).
Proof.
  intros Hlarge. unfold sortPreview.
  destruct (matchedStreams v) as [|s rest] eqn:Hm; [rewrite Hm; auto|].
  cbn. split; [reflexivity|]. apply (Slice_length _ (s :: rest) Hlarge).
Qed.

Lemma statusCounts_length (v v' : QueryBuilderView) :
  statusText v' = statusText v ->
  List.length (matchedStreams v') = List.length (matchedStreams v) ->
  statusText v = match matchedStreams v with
                 | [] => StatusPrompt
                 | matched => StatusCount (List.length matched)
                 end ->
  statusText v' = match matchedStreams v' with
                  | [] => StatusPrompt
                  | matched => StatusCount (List.length matched)
                  end.
Proof.
  intros -> Hlen ->.
  destruct (matchedStreams v) as [|a l], (matchedStreams v') as [|a' l'];
    try discriminate; [reflexivity|]. rewrite Hlen. reflexivity.
Qed.

Lemma previewMatches_statusCounts clock (ui : UIManager World) :
  statusCounts ui ->
  statusCounts (previewMatches regexp_MatchString ListStreams clock ui).
Proof.
  unfold statusCounts, previewMatches. intros Hs.
  destruct (ListStreams (client ui)) as [[streams | err] w]; [|exact Hs].
  cbn. unfold updateStatus. cbn.
  destruct (filterStreams regexp_MatchString clock (queryBuilderView ui) streams);
    reflexivity.
Qed.

Lemma handle_statusCounts clock e (ui : UIManager World) :
  (forall less data, List.length (pdqsort_large less data) = List.length data) ->
  statusCounts ui ->
  statusCounts (handle regexp_MatchString pdqsort_large ListStreams DeleteStream
                  PurgeStream clock e ui).
Proof.
  intros Hlarge Hs. destruct e as [f| |action| |row column|label]; cbn [handle].
  - destruct f; exact Hs.
  - apply previewMatches_statusCounts, Hs.
  - destruct action; cbn [requestBulk]; unfold deleteMatched, purgeMatched;
      destruct (matchedStreams (queryBuilderView ui)) eqn:Hm; try exact Hs;
      destruct (readOnly ui); exact Hs.
  - reflexivity.
  - unfold statusCounts in *. cbn [queryBuilderView set_view].
    unfold previewSelected. destruct (row =? 0); [|exact Hs].
    destruct (sortColumn (queryBuilderView ui) =? column).
    + destruct (sortPreview_statusCounts
                  (set_sortAscending (negb (sortAscending (queryBuilderView ui)))
                     (queryBuilderView ui)) Hlarge) as [Ht Hlen].
      apply (statusCounts_length _ _ Ht Hlen). exact Hs.
    + destruct (sortPreview_statusCounts
                  (set_sortAscending true (set_sortColumn column (queryBuilderView ui)))
                  Hlarge) as [Ht Hlen].
      apply (statusCounts_length _ _ Ht Hlen). exact Hs.
  - unfold confirmDone.
    destruct (modal ui) as [[message|onConfirm count names|title sc fc]|] eqn:Hmodal;
      try exact Hs.
    destruct (String.eqb label "[ Yes ]").
    + destruct onConfirm.
      * pose proof (executed_view DeleteStream PurgeStream Delete (CloseModal ui)) as Hv.
        cbn [executed] in Hv. unfold statusCounts. rewrite Hv. exact Hs.
      * unfold performBulkPurge. apply previewMatches_statusCounts.
        pose proof (executed_view DeleteStream PurgeStream Purge (CloseModal ui)) as Hv.
        cbn [executed] in Hv. unfold statusCounts. rewrite Hv. exact Hs.
    + destruct (String.eqb label "[ No ]"); exact Hs.
Qed.

(** X19. The status line always tells the size of the matched set that
    Delete All and Purge All act on: through every sequence of events it shows
    the prompt when the matched set is empty and the number of matched streams
    otherwise, provided the sorting routine for large slices returns as many
    elements as it is given. *)
Theorem X19_status_line_counts_the_matched_set
  (events : list ((nat -> Go.Time) * Event)) :
  (forall less data, List.length (pdqsort_large less data) = List.length data) ->
  forall ui, statusCounts ui ->
  statusCounts (run regexp_MatchString pdqsort_large ListStreams DeleteStream
                  PurgeStream events ui).
Proof.
  intros Hlarge.
  induction events as [|[clock e] rest IH]; intros ui Hs; cbn [run].
  - exact Hs.
  - apply IH, handle_statusCounts; assumption.
Qed.

End EndToEnd.

(** X18 on the sample server with the pattern [*s]. *)
Lemma X18_purge_of_the_streams_in_s :
  let ui := handle Go.fragmentMatchString Sim.noLargeSlices Sim.ListStreams
              Sim.DeleteStream Sim.PurgeStream (Sim.clockAt 0)
              (FormChanged (NamePatternChanged "*s")) Sim.ui0 in
  let final := run Go.fragmentMatchString Sim.noLargeSlices Sim.ListStreams
                 Sim.DeleteStream Sim.PurgeStream
                 [(Sim.clockAt 0, PreviewPressed); (Sim.clockAt 0, BulkPressed Purge);
                  (Sim.clockAt 0, ConfirmButton "[ Yes ]")] ui in
  map callRequest (mutations (calls final)) =
    [ReqPurgeStream "orders"; ReqPurgeStream "events"].
Proof.
  intros ui final.
  exact (X18_the_requests_are_the_previewed_matches Go.fragmentMatchString
           Sim.noLargeSlices Sim.ListStreams Sim.DeleteStream Sim.PurgeStream
           (Sim.clockAt 0) (Sim.clockAt 0) (Sim.clockAt 0) Purge
           (Sim.streams Sim.server) Sim.server ui eq_refl eq_refl).
Defined.

(** X19 on the sample session. *)
Lemma X19_status_after_the_sample_session :
  statusCounts
    (run Go.fragmentMatchString Sim.noLargeSlices Sim.ListStreams
       Sim.DeleteStream Sim.PurgeStream Scenario.session Sim.ui0).
Proof.
  apply (X19_status_line_counts_the_matched_set Go.fragmentMatchString
           Sim.noLargeSlices Sim.ListStreams Sim.DeleteStream Sim.PurgeStream
           Scenario.session).
  - reflexivity.
  - reflexivity.
Defined.
